(** * arping: the ARP probe engine of iputils

    A shallow embedding of [src/arping.c]: the packet codec ([send_pack],
    [recv_pack]), the exit-status computation ([finish]), the interface
    flag check ([check_ifflags]) with the address-list device scan, the
    option switch of [main], and the event loop ([event_loop]).

    Conventions of the embedding.
    - C [int] values are [Z]; the counters are incremented with
      two's-complement wrap-around ([int_incr]), and the statements that
      need it assume the counter below [INT_MAX].  Arithmetic on [long]
      wraps at 64 bits ([long_wrap]).
    - Memory is [list byte]; reading past the end of a list yields [x00]
      (the run state is zero-initialised by [main]).
    - A 16-bit field kept in network byte order is represented by the
      number it denotes on the wire, so the test [x == htons(c)] of the
      source reads [x =? c]; an [in_addr] is likewise the number whose
      big-endian bytes are its four bytes in memory.
    - System calls are inputs: the clock reading, the result of [sendto],
      and the poll wakes of the event loop are arguments.
    - [printf] on standard output is a [string] result; [perror] and
      [fprintf(stderr, ...)] are not modelled.  Messages are the untranslated
      ones ([_(Text)] is [Text] without NLS). *)

From Stdlib Require Import ZArith String Ascii List Bool Lia.
From Stdlib Require Import Strings.Byte DecimalString.
Import ListNotations.
Open Scope string_scope.
Open Scope list_scope.
Open Scope Z_scope.

(** String concatenation, as successive [printf] calls produce it. *)
Infix "+++" := String.append (right associativity, at level 60).

(** ** Constants of the system headers (Linux values) *)

Definition ARPHRD_ETHER : Z := 1.
Definition ARPHRD_FDDI : Z := 774.
Definition ETH_P_IP : Z := 2048.
Definition ARPOP_REQUEST : Z := 1.
Definition ARPOP_REPLY : Z := 2.
Definition PACKET_HOST : Z := 0.
Definition PACKET_BROADCAST : Z := 1.
Definition PACKET_MULTICAST : Z := 2.
Definition AF_PACKET : Z := 17.
Definition IFF_UP : Z := 1.
Definition IFF_LOOPBACK : Z := 8.
Definition IFF_NOARP : Z := 128.
Definition EAGAIN : Z := 11.
Definition ENETDOWN : Z := 100.
Definition SIGINT : Z := 2.
Definition SIGQUIT : Z := 3.
Definition SIGTERM : Z := 15.
(** [sizeof(struct arphdr)], [sizeof(struct signalfd_siginfo)],
    [sizeof(uint64_t)]. *)
Definition sizeof_arphdr : Z := 8.
Definition sizeof_signalfd_siginfo : Z := 128.
Definition sizeof_uint64 : Z := 8.

Definition FINAL_PACKS : Z := 2.

(** ** Machine integers *)

Definition INT_MAX : Z := 2147483647.
Definition INT_MIN : Z := -2147483648.

Definition int_wrap (z : Z) : Z := (z + 2 ^ 31) mod 2 ^ 32 - 2 ^ 31.

(** [x++] on an [int]. *)
Definition int_incr (x : Z) : Z := int_wrap (x + 1).

(** The result of an operation on [long] (64 bits), with
    two's-complement wrap-around. *)
Definition long_wrap (z : Z) : Z := (z + 2 ^ 63) mod 2 ^ 64 - 2 ^ 63.

(** Addition on [uint64_t]. *)
Definition u64_add (a b : Z) : Z := (a + b) mod 2 ^ 64.

(** C's [!x] and [!!x] on an [int]. *)
Definition lnot (x : Z) : Z := if x =? 0 then 1 else 0.
Definition of_bool (b : bool) : Z := if b then 1 else 0.

(** ** Bytes and memory *)

Definition byte_to_Z (b : byte) : Z := Z.of_N (Byte.to_N b).

(** Conversion to [unsigned char]: the low eight bits. *)
Definition byte_of_Z (z : Z) : byte :=
  match Byte.of_N (Z.to_N (Z.land z 255)) with
  | Some b => b
  | None => x00
  end.

(** [n] bytes of [m] from offset [off]. *)
Definition mem_read (m : list byte) (off n : nat) : list byte :=
  map (fun i => nth (off + i) m x00) (seq 0 n).

(** [memcpy(dst, src, n)] where [src] holds the [n] bytes copied: the
    first bytes of [dst] are replaced. *)
Definition memcpy (dst src : list byte) : list byte :=
  src ++ skipn (length src) dst.

(** [memcmp] on two byte strings of the length compared. *)
Fixpoint memcmp (a b : list byte) : Z :=
  match a, b with
  | x :: a', y :: b' =>
      if Byte.eqb x y then memcmp a' b' else byte_to_Z x - byte_to_Z y
  | _, _ => 0
  end.

(** A 16-bit and a 32-bit quantity in network byte order. *)
Definition be16_bytes (v : Z) : list byte :=
  [byte_of_Z (Z.shiftr v 8); byte_of_Z v].

Definition be32_bytes (v : Z) : list byte :=
  [byte_of_Z (Z.shiftr v 24); byte_of_Z (Z.shiftr v 16);
   byte_of_Z (Z.shiftr v 8); byte_of_Z v].

Definition get_u8 (m : list byte) (off : nat) : Z :=
  byte_to_Z (nth off m x00).

Definition get_be16 (m : list byte) (off : nat) : Z :=
  Z.lor (Z.shiftl (get_u8 m off) 8) (get_u8 m (off + 1)).

Definition get_be32 (m : list byte) (off : nat) : Z :=
  Z.lor (Z.shiftl (get_u8 m off) 24)
    (Z.lor (Z.shiftl (get_u8 m (off + 1)) 16)
       (Z.lor (Z.shiftl (get_u8 m (off + 2)) 8) (get_u8 m (off + 3)))).

(** ** Formatting *)

(** [%d] and [%ld]. *)
Definition fmt_d (z : Z) : string := NilZero.string_of_int (Z.to_int z).

Fixpoint zeros (n : nat) : string :=
  match n with
  | O => ""
  | S n' => String "0" (zeros n')
  end.

(** [%03ld]: the sign, then the digits padded with zeros to width 3. *)
Definition fmt_03d (z : Z) : string :=
  let digits := fmt_d (Z.abs z) in
  if z <? 0
  then String "-" (zeros (2 - String.length digits) +++ digits)
  else zeros (3 - String.length digits) +++ digits.

Definition hex_digit (d : Z) : ascii :=
  if d <? 10 then ascii_of_N (Z.to_N (48 + d))
  else ascii_of_N (Z.to_N (55 + d)).

(** [%02X] of an [unsigned char]. *)
Definition fmt_02X (b : byte) : string :=
  let v := byte_to_Z b in
  String (hex_digit (Z.shiftr v 4)) (String (hex_digit (Z.land v 15)) "").

(** [print_hex]: the bytes in upper-case hex, separated by colons. *)
Fixpoint print_hex (p : list byte) : string :=
  match p with
  | [] => ""
  | [b] => fmt_02X b
  | b :: p' => fmt_02X b +++ ":" +++ print_hex p'
  end.

(** [inet_ntoa]: dotted decimal of the four bytes. *)
Definition inet_ntoa (a : Z) : string :=
  fmt_d (Z.land (Z.shiftr a 24) 255) +++ "." +++
  fmt_d (Z.land (Z.shiftr a 16) 255) +++ "." +++
  fmt_d (Z.land (Z.shiftr a 8) 255) +++ "." +++
  fmt_d (Z.land a 255).

Definition nl : string := String (ascii_of_nat 10) "".

(** ** Data model *)

(** [struct sockaddr_ll], as far as the program reads it: [me] and [he]
    are [sockaddr_storage] objects accessed through this type, and
    [sll_addr] stands for the bytes from the address field to the end of
    the storage. *)
Record sockaddr_ll : Type := {
  sll_family : Z;
  sll_hatype : Z;
  sll_pkttype : Z;
  sll_halen : Z;
  sll_addr : list byte
}.

Definition set_sll_addr (a : list byte) (s : sockaddr_ll) : sockaddr_ll :=
  {| sll_family := sll_family s; sll_hatype := sll_hatype s;
     sll_pkttype := sll_pkttype s; sll_halen := sll_halen s; sll_addr := a |}.

Record timespec : Type := { tv_sec : Z; tv_nsec : Z }.

(** An entry of the [getifaddrs] list. *)
Record ifaddrs : Type := {
  ifa_name : option string;
  ifa_flags : Z;
  ifa_addr : option sockaddr_ll;
  ifa_broadaddr : option sockaddr_ll
}.

Record struct_device : Type := {
  name : option string;
  ifindex : Z;
  ifa : option ifaddrs
}.

Record run_state : Type := {
  device : struct_device;
  source : option string;
  gsrc : Z;
  gdst : Z;
  count : Z;
  timeout : Z;
  interval : Z;
  me : sockaddr_ll;
  he : sockaddr_ll;
  last : timespec;
  sent : Z;
  brd_sent : Z;
  received : Z;
  brd_recv : Z;
  req_recv : Z;
  advert : bool;
  broadcast_only : bool;
  dad : bool;
  quiet : bool;
  quit_on_reply : bool;
  unicasting : bool;
  unsolicited : bool
}.

Definition set_device (v : struct_device) (ctl : run_state) : run_state :=
  {| device := v; source := source ctl; gsrc := gsrc ctl; gdst := gdst ctl;
     count := count ctl; timeout := timeout ctl; interval := interval ctl;
     me := me ctl; he := he ctl; last := last ctl; sent := sent ctl;
     brd_sent := brd_sent ctl; received := received ctl;
     brd_recv := brd_recv ctl; req_recv := req_recv ctl;
     advert := advert ctl; broadcast_only := broadcast_only ctl;
     dad := dad ctl; quiet := quiet ctl; quit_on_reply := quit_on_reply ctl;
     unicasting := unicasting ctl; unsolicited := unsolicited ctl |}.

Definition set_source (v : option string) (ctl : run_state) : run_state :=
  {| device := device ctl; source := v; gsrc := gsrc ctl; gdst := gdst ctl;
     count := count ctl; timeout := timeout ctl; interval := interval ctl;
     me := me ctl; he := he ctl; last := last ctl; sent := sent ctl;
     brd_sent := brd_sent ctl; received := received ctl;
     brd_recv := brd_recv ctl; req_recv := req_recv ctl;
     advert := advert ctl; broadcast_only := broadcast_only ctl;
     dad := dad ctl; quiet := quiet ctl; quit_on_reply := quit_on_reply ctl;
     unicasting := unicasting ctl; unsolicited := unsolicited ctl |}.

Definition set_gsrc (v : Z) (ctl : run_state) : run_state :=
  {| device := device ctl; source := source ctl; gsrc := v; gdst := gdst ctl;
     count := count ctl; timeout := timeout ctl; interval := interval ctl;
     me := me ctl; he := he ctl; last := last ctl; sent := sent ctl;
     brd_sent := brd_sent ctl; received := received ctl;
     brd_recv := brd_recv ctl; req_recv := req_recv ctl;
     advert := advert ctl; broadcast_only := broadcast_only ctl;
     dad := dad ctl; quiet := quiet ctl; quit_on_reply := quit_on_reply ctl;
     unicasting := unicasting ctl; unsolicited := unsolicited ctl |}.

Definition set_count (v : Z) (ctl : run_state) : run_state :=
  {| device := device ctl; source := source ctl; gsrc := gsrc ctl;
     gdst := gdst ctl; count := v; timeout := timeout ctl;
     interval := interval ctl; me := me ctl; he := he ctl; last := last ctl;
     sent := sent ctl; brd_sent := brd_sent ctl; received := received ctl;
     brd_recv := brd_recv ctl; req_recv := req_recv ctl;
     advert := advert ctl; broadcast_only := broadcast_only ctl;
     dad := dad ctl; quiet := quiet ctl; quit_on_reply := quit_on_reply ctl;
     unicasting := unicasting ctl; unsolicited := unsolicited ctl |}.

Definition set_timeout (v : Z) (ctl : run_state) : run_state :=
  {| device := device ctl; source := source ctl; gsrc := gsrc ctl;
     gdst := gdst ctl; count := count ctl; timeout := v;
     interval := interval ctl; me := me ctl; he := he ctl; last := last ctl;
     sent := sent ctl; brd_sent := brd_sent ctl; received := received ctl;
     brd_recv := brd_recv ctl; req_recv := req_recv ctl;
     advert := advert ctl; broadcast_only := broadcast_only ctl;
     dad := dad ctl; quiet := quiet ctl; quit_on_reply := quit_on_reply ctl;
     unicasting := unicasting ctl; unsolicited := unsolicited ctl |}.

Definition set_interval (v : Z) (ctl : run_state) : run_state :=
  {| device := device ctl; source := source ctl; gsrc := gsrc ctl;
     gdst := gdst ctl; count := count ctl; timeout := timeout ctl;
     interval := v; me := me ctl; he := he ctl; last := last ctl;
     sent := sent ctl; brd_sent := brd_sent ctl; received := received ctl;
     brd_recv := brd_recv ctl; req_recv := req_recv ctl;
     advert := advert ctl; broadcast_only := broadcast_only ctl;
     dad := dad ctl; quiet := quiet ctl; quit_on_reply := quit_on_reply ctl;
     unicasting := unicasting ctl; unsolicited := unsolicited ctl |}.

Definition set_he (v : sockaddr_ll) (ctl : run_state) : run_state :=
  {| device := device ctl; source := source ctl; gsrc := gsrc ctl;
     gdst := gdst ctl; count := count ctl; timeout := timeout ctl;
     interval := interval ctl; me := me ctl; he := v; last := last ctl;
     sent := sent ctl; brd_sent := brd_sent ctl; received := received ctl;
     brd_recv := brd_recv ctl; req_recv := req_recv ctl;
     advert := advert ctl; broadcast_only := broadcast_only ctl;
     dad := dad ctl; quiet := quiet ctl; quit_on_reply := quit_on_reply ctl;
     unicasting := unicasting ctl; unsolicited := unsolicited ctl |}.

Definition set_last (v : timespec) (ctl : run_state) : run_state :=
  {| device := device ctl; source := source ctl; gsrc := gsrc ctl;
     gdst := gdst ctl; count := count ctl; timeout := timeout ctl;
     interval := interval ctl; me := me ctl; he := he ctl; last := v;
     sent := sent ctl; brd_sent := brd_sent ctl; received := received ctl;
     brd_recv := brd_recv ctl; req_recv := req_recv ctl;
     advert := advert ctl; broadcast_only := broadcast_only ctl;
     dad := dad ctl; quiet := quiet ctl; quit_on_reply := quit_on_reply ctl;
     unicasting := unicasting ctl; unsolicited := unsolicited ctl |}.

Definition set_sent (v : Z) (ctl : run_state) : run_state :=
  {| device := device ctl; source := source ctl; gsrc := gsrc ctl;
     gdst := gdst ctl; count := count ctl; timeout := timeout ctl;
     interval := interval ctl; me := me ctl; he := he ctl; last := last ctl;
     sent := v; brd_sent := brd_sent ctl; received := received ctl;
     brd_recv := brd_recv ctl; req_recv := req_recv ctl;
     advert := advert ctl; broadcast_only := broadcast_only ctl;
     dad := dad ctl; quiet := quiet ctl; quit_on_reply := quit_on_reply ctl;
     unicasting := unicasting ctl; unsolicited := unsolicited ctl |}.

Definition set_brd_sent (v : Z) (ctl : run_state) : run_state :=
  {| device := device ctl; source := source ctl; gsrc := gsrc ctl;
     gdst := gdst ctl; count := count ctl; timeout := timeout ctl;
     interval := interval ctl; me := me ctl; he := he ctl; last := last ctl;
     sent := sent ctl; brd_sent := v; received := received ctl;
     brd_recv := brd_recv ctl; req_recv := req_recv ctl;
     advert := advert ctl; broadcast_only := broadcast_only ctl;
     dad := dad ctl; quiet := quiet ctl; quit_on_reply := quit_on_reply ctl;
     unicasting := unicasting ctl; unsolicited := unsolicited ctl |}.

Definition set_received (v : Z) (ctl : run_state) : run_state :=
  {| device := device ctl; source := source ctl; gsrc := gsrc ctl;
     gdst := gdst ctl; count := count ctl; timeout := timeout ctl;
     interval := interval ctl; me := me ctl; he := he ctl; last := last ctl;
     sent := sent ctl; brd_sent := brd_sent ctl; received := v;
     brd_recv := brd_recv ctl; req_recv := req_recv ctl;
     advert := advert ctl; broadcast_only := broadcast_only ctl;
     dad := dad ctl; quiet := quiet ctl; quit_on_reply := quit_on_reply ctl;
     unicasting := unicasting ctl; unsolicited := unsolicited ctl |}.

Definition set_brd_recv (v : Z) (ctl : run_state) : run_state :=
  {| device := device ctl; source := source ctl; gsrc := gsrc ctl;
     gdst := gdst ctl; count := count ctl; timeout := timeout ctl;
     interval := interval ctl; me := me ctl; he := he ctl; last := last ctl;
     sent := sent ctl; brd_sent := brd_sent ctl; received := received ctl;
     brd_recv := v; req_recv := req_recv ctl; advert := advert ctl;
     broadcast_only := broadcast_only ctl; dad := dad ctl;
     quiet := quiet ctl; quit_on_reply := quit_on_reply ctl;
     unicasting := unicasting ctl; unsolicited := unsolicited ctl |}.

Definition set_req_recv (v : Z) (ctl : run_state) : run_state :=
  {| device := device ctl; source := source ctl; gsrc := gsrc ctl;
     gdst := gdst ctl; count := count ctl; timeout := timeout ctl;
     interval := interval ctl; me := me ctl; he := he ctl; last := last ctl;
     sent := sent ctl; brd_sent := brd_sent ctl; received := received ctl;
     brd_recv := brd_recv ctl; req_recv := v; advert := advert ctl;
     broadcast_only := broadcast_only ctl; dad := dad ctl;
     quiet := quiet ctl; quit_on_reply := quit_on_reply ctl;
     unicasting := unicasting ctl; unsolicited := unsolicited ctl |}.

Definition set_advert (v : bool) (ctl : run_state) : run_state :=
  {| device := device ctl; source := source ctl; gsrc := gsrc ctl;
     gdst := gdst ctl; count := count ctl; timeout := timeout ctl;
     interval := interval ctl; me := me ctl; he := he ctl; last := last ctl;
     sent := sent ctl; brd_sent := brd_sent ctl; received := received ctl;
     brd_recv := brd_recv ctl; req_recv := req_recv ctl; advert := v;
     broadcast_only := broadcast_only ctl; dad := dad ctl;
     quiet := quiet ctl; quit_on_reply := quit_on_reply ctl;
     unicasting := unicasting ctl; unsolicited := unsolicited ctl |}.

Definition set_broadcast_only (v : bool) (ctl : run_state) : run_state :=
  {| device := device ctl; source := source ctl; gsrc := gsrc ctl;
     gdst := gdst ctl; count := count ctl; timeout := timeout ctl;
     interval := interval ctl; me := me ctl; he := he ctl; last := last ctl;
     sent := sent ctl; brd_sent := brd_sent ctl; received := received ctl;
     brd_recv := brd_recv ctl; req_recv := req_recv ctl;
     advert := advert ctl; broadcast_only := v; dad := dad ctl;
     quiet := quiet ctl; quit_on_reply := quit_on_reply ctl;
     unicasting := unicasting ctl; unsolicited := unsolicited ctl |}.

Definition set_dad (v : bool) (ctl : run_state) : run_state :=
  {| device := device ctl; source := source ctl; gsrc := gsrc ctl;
     gdst := gdst ctl; count := count ctl; timeout := timeout ctl;
     interval := interval ctl; me := me ctl; he := he ctl; last := last ctl;
     sent := sent ctl; brd_sent := brd_sent ctl; received := received ctl;
     brd_recv := brd_recv ctl; req_recv := req_recv ctl;
     advert := advert ctl; broadcast_only := broadcast_only ctl; dad := v;
     quiet := quiet ctl; quit_on_reply := quit_on_reply ctl;
     unicasting := unicasting ctl; unsolicited := unsolicited ctl |}.

Definition set_quiet (v : bool) (ctl : run_state) : run_state :=
  {| device := device ctl; source := source ctl; gsrc := gsrc ctl;
     gdst := gdst ctl; count := count ctl; timeout := timeout ctl;
     interval := interval ctl; me := me ctl; he := he ctl; last := last ctl;
     sent := sent ctl; brd_sent := brd_sent ctl; received := received ctl;
     brd_recv := brd_recv ctl; req_recv := req_recv ctl;
     advert := advert ctl; broadcast_only := broadcast_only ctl;
     dad := dad ctl; quiet := v; quit_on_reply := quit_on_reply ctl;
     unicasting := unicasting ctl; unsolicited := unsolicited ctl |}.

Definition set_quit_on_reply (v : bool) (ctl : run_state) : run_state :=
  {| device := device ctl; source := source ctl; gsrc := gsrc ctl;
     gdst := gdst ctl; count := count ctl; timeout := timeout ctl;
     interval := interval ctl; me := me ctl; he := he ctl; last := last ctl;
     sent := sent ctl; brd_sent := brd_sent ctl; received := received ctl;
     brd_recv := brd_recv ctl; req_recv := req_recv ctl;
     advert := advert ctl; broadcast_only := broadcast_only ctl;
     dad := dad ctl; quiet := quiet ctl; quit_on_reply := v;
     unicasting := unicasting ctl; unsolicited := unsolicited ctl |}.

Definition set_unicasting (v : bool) (ctl : run_state) : run_state :=
  {| device := device ctl; source := source ctl; gsrc := gsrc ctl;
     gdst := gdst ctl; count := count ctl; timeout := timeout ctl;
     interval := interval ctl; me := me ctl; he := he ctl; last := last ctl;
     sent := sent ctl; brd_sent := brd_sent ctl; received := received ctl;
     brd_recv := brd_recv ctl; req_recv := req_recv ctl;
     advert := advert ctl; broadcast_only := broadcast_only ctl;
     dad := dad ctl; quiet := quiet ctl; quit_on_reply := quit_on_reply ctl;
     unicasting := v; unsolicited := unsolicited ctl |}.

Definition set_unsolicited (v : bool) (ctl : run_state) : run_state :=
  {| device := device ctl; source := source ctl; gsrc := gsrc ctl;
     gdst := gdst ctl; count := count ctl; timeout := timeout ctl;
     interval := interval ctl; me := me ctl; he := he ctl; last := last ctl;
     sent := sent ctl; brd_sent := brd_sent ctl; received := received ctl;
     brd_recv := brd_recv ctl; req_recv := req_recv ctl;
     advert := advert ctl; broadcast_only := broadcast_only ctl;
     dad := dad ctl; quiet := quiet ctl; quit_on_reply := quit_on_reply ctl;
     unicasting := unicasting ctl; unsolicited := v |}.



Definition set_me (v : sockaddr_ll) (ctl : run_state) : run_state :=
  {| device := device ctl; source := source ctl; gsrc := gsrc ctl;
     gdst := gdst ctl; count := count ctl; timeout := timeout ctl;
     interval := interval ctl; me := v; he := he ctl; last := last ctl;
     sent := sent ctl; brd_sent := brd_sent ctl; received := received ctl;
     brd_recv := brd_recv ctl; req_recv := req_recv ctl;
     advert := advert ctl; broadcast_only := broadcast_only ctl;
     dad := dad ctl; quiet := quiet ctl; quit_on_reply := quit_on_reply ctl;
     unicasting := unicasting ctl; unsolicited := unsolicited ctl |}.

(** ** The packet codec *)

(** [send_pack]: [now] is the clock reading and [err] the value returned
    by [sendto].  The third component is the buffer handed to [sendto],
    [buf[0 .. p - buf)].  The source builds it in [buf[256]] from the
    address bytes of [me] and [he], 116 in each storage: the model is
    that of the source for hardware lengths up to 116, and beyond them the
    copies of the source leave those objects (see [send_pack_in_bounds]
    and [wire_buffer]). *)
Definition send_pack (ctl : run_state) (now : timespec) (err : Z)
  : Z * run_state * list byte :=
  let ME := me ctl in
  let HE := he ctl in
  let ar_hrd :=
    if sll_hatype ME =? ARPHRD_FDDI then ARPHRD_ETHER else sll_hatype ME in
  let ar_pro := ETH_P_IP in
  let ar_hln := sll_halen ME in
  let ar_pln := 4 in
  let ar_op := if advert ctl then ARPOP_REPLY else ARPOP_REQUEST in
  let hln := Z.to_nat ar_hln in
  let buf :=
    be16_bytes ar_hrd ++ be16_bytes ar_pro ++
    [byte_of_Z ar_hln; byte_of_Z ar_pln] ++ be16_bytes ar_op ++
    mem_read (sll_addr ME) 0 hln ++
    be32_bytes (gsrc ctl) ++
    (if advert ctl
     then mem_read (sll_addr ME) 0 hln
     else mem_read (sll_addr HE) 0 hln) ++
    be32_bytes (gdst ctl) in
  if err =? Z.of_nat (length buf) then
    let ctl1 := set_last now ctl in
    let ctl2 := set_sent (int_incr (sent ctl1)) ctl1 in
    let ctl3 :=
      if negb (unicasting ctl2)
      then set_brd_sent (int_incr (brd_sent ctl2)) ctl2
      else ctl2 in
    (err, ctl3, buf)
  else (err, ctl, buf).

(** The parenthesised breakdown of the responses in the summary of
    [finish] (the block under [if (ctl->brd_recv || ctl->req_recv)]). *)
Definition breakdown (ctl : run_state) : string :=
  if negb (brd_recv ctl =? 0) || negb (req_recv ctl =? 0) then
    " (" +++
    (if negb (req_recv ctl =? 0)
     then fmt_d (req_recv ctl) +++ " request(s)" else "") +++
    (if negb (brd_recv ctl =? 0)
     then (if negb (req_recv ctl =? 0) then ", " else "") +++
          fmt_d (brd_recv ctl) +++ " broadcast(s)"
     else "") +++
    ")"
  else "".

(** The summary lines of [finish]. *)
Definition finish_report (ctl : run_state) : string :=
  "Sent " +++ fmt_d (sent ctl) +++ " probes (" +++ fmt_d (brd_sent ctl) +++
  " broadcast(s))" +++ nl +++
  "Received " +++ fmt_d (received ctl) +++ " response(s)" +++
  breakdown ctl +++ nl.

(** [finish]: the exit code and what is printed. *)
Definition finish (ctl : run_state) : Z * string :=
  let out := if negb (quiet ctl) then finish_report ctl else "" in
  if dad ctl then (lnot (lnot (received ctl)), out)
  else if unsolicited ctl then (0, out)
  else (lnot (received ctl), out).

(** The elapsed-time suffix of a report line; the arithmetic is that of
    [long], each operation wrapping at 64 bits (the statements about it
    bound the clock readings so that none overflows). *)
Definition elapsed (ctl : run_state) (ts : timespec) : string :=
  if negb (tv_sec (last ctl) =? 0) then
    let usecs :=
      long_wrap
        (long_wrap (long_wrap (tv_sec ts - tv_sec (last ctl)) * 1000000) +
         Z.quot (long_wrap (long_wrap (tv_nsec ts - tv_nsec (last ctl)) + 500))
                1000) in
    let msecs := Z.quot (long_wrap (usecs + 500)) 1000 in
    let usecs := long_wrap (usecs - long_wrap (long_wrap (msecs * 1000) - 500)) in
    " " +++ fmt_d msecs +++ "." +++ fmt_03d usecs +++ "ms" +++ nl
  else " UNSOLICITED?" +++ nl.

(** The report line of [recv_pack] (the block under [if (!ctl->quiet)]);
    [p] is the offset of the sender hardware address in [buf]. *)
Definition report_line (ctl : run_state) (buf : list byte)
    (FROM : sockaddr_ll) (ts : timespec) : string :=
  let ar_hln := get_u8 buf 4 in
  let ar_op := get_be16 buf 6 in
  let p := Z.to_nat sizeof_arphdr in
  let hln := Z.to_nat ar_hln in
  let src_ip := get_be32 buf (p + hln) in
  let dst_ip := get_be32 buf (p + hln + 4 + hln) in
  let s_printed := negb (dst_ip =? gsrc ctl) in
  (if sll_pkttype FROM =? PACKET_HOST then "Unicast" else "Broadcast")
  +++ " " +++
  (if ar_op =? ARPOP_REPLY then "reply" else "request") +++ " from " +++
  inet_ntoa src_ip +++ " [" +++ print_hex (mem_read buf p hln) +++ "] " +++
  (if negb (dst_ip =? gsrc ctl)
   then "for " +++ inet_ntoa dst_ip +++ " " else "") +++
  (if negb (memcmp (mem_read buf (p + hln + 4) hln)
                   (mem_read (sll_addr (me ctl)) 0 hln) =? 0)
   then (if negb s_printed then "for " else "") +++
        "[" +++ print_hex (mem_read buf (p + hln + 4) hln) +++ "]"
   else "") +++
  elapsed ctl ts.

(** The accounting at the end of [recv_pack], from [ctl->received++] to
    the final [return 1]: the return value and the run state.  The copy
    into [he] takes [me]'s hardware length in bytes, and is that of the
    source while they fit the 116 address bytes of the storage. *)
Definition count_response (ctl : run_state) (buf : list byte)
    (FROM : sockaddr_ll) : Z * run_state :=
  let ar_op := get_be16 buf 6 in
  let p := Z.to_nat sizeof_arphdr in
  let ctl1 := set_received (int_incr (received ctl)) ctl in
  if negb (timeout ctl1 =? 0) && (received ctl1 =? count ctl1)
  then (FINAL_PACKS, ctl1)
  else
  let ctl2 :=
    if negb (sll_pkttype FROM =? PACKET_HOST)
    then set_brd_recv (int_incr (brd_recv ctl1)) ctl1 else ctl1 in
  let ctl3 :=
    if ar_op =? ARPOP_REQUEST
    then set_req_recv (int_incr (req_recv ctl2)) ctl2 else ctl2 in
  if quit_on_reply ctl3 ||
     ((count ctl3 =? 0) && (received ctl3 =? sent ctl3))
  then (FINAL_PACKS, ctl3)
  else if negb (broadcast_only ctl3) then
    let he' :=
      set_sll_addr
        (memcpy (sll_addr (he ctl3))
                (mem_read buf p (Z.to_nat (sll_halen (me ctl3)))))
        (he ctl3) in
    (1, set_unicasting true (set_he he' ctl3))
  else (1, ctl3).

(** [recv_pack]: [buf] is the receive buffer, [len] the length
    [recvfrom] returned, [FROM] the address it filled in and [ts] the
    clock reading.  The result is the return value, the run state and
    what is printed. *)
Definition recv_pack (ctl : run_state) (buf : list byte) (len : Z)
    (FROM : sockaddr_ll) (ts : timespec) : Z * run_state * string :=
  let ar_hrd := get_be16 buf 0 in
  let ar_pro := get_be16 buf 2 in
  let ar_hln := get_u8 buf 4 in
  let ar_pln := get_u8 buf 5 in
  let ar_op := get_be16 buf 6 in
  let p := Z.to_nat sizeof_arphdr in
  let hln := Z.to_nat ar_hln in
  let ME := me ctl in
  (* Filter out wild packets *)
  if negb (sll_pkttype FROM =? PACKET_HOST) &&
     negb (sll_pkttype FROM =? PACKET_BROADCAST) &&
     negb (sll_pkttype FROM =? PACKET_MULTICAST)
  then (0, ctl, "")
  (* Only these types are recognised *)
  else if negb (ar_op =? ARPOP_REQUEST) && negb (ar_op =? ARPOP_REPLY)
  then (0, ctl, "")
  (* ARPHRD check and the FDDI hack *)
  else if negb (ar_hrd =? sll_hatype FROM) &&
          (negb (sll_hatype FROM =? ARPHRD_FDDI) ||
           negb (ar_hrd =? ARPHRD_ETHER))
  then (0, ctl, "")
  (* Protocol must be IP. *)
  else if negb (ar_pro =? ETH_P_IP) then (0, ctl, "")
  else if negb (ar_pln =? 4) then (0, ctl, "")
  else if negb (ar_hln =? sll_halen ME) then (0, ctl, "")
  else if len <? sizeof_arphdr + 2 * (4 + ar_hln) then (0, ctl, "")
  else
  let src_ip := get_be32 buf (p + hln) in
  let dst_ip := get_be32 buf (p + hln + 4 + hln) in
  let rejected :=
    if negb (dad ctl) then
      if negb (src_ip =? gdst ctl) then true
      else if negb (gsrc ctl =? dst_ip) then true
      else if negb (memcmp (mem_read buf (p + hln + 4) hln)
                           (mem_read (sll_addr ME) 0 hln) =? 0)
      then true
      else false
    else
      (* src_ip = tested address, src_hw != ME; if src_ip in the request
         was not zero, it must also match dst_ip *)
      if negb (src_ip =? gdst ctl) then true
      else if memcmp (mem_read buf p (Z.to_nat (sll_halen ME)))
                     (mem_read (sll_addr ME) 0 (Z.to_nat (sll_halen ME)))
              =? 0
      then true
      else if negb (gsrc ctl =? 0) && negb (gsrc ctl =? dst_ip) then true
      else false in
  if rejected then (0, ctl, "")
  else
    let out := if negb (quiet ctl) then report_line ctl buf FROM ts else "" in
    let '(r, ctl') := count_response ctl buf FROM in
    (r, ctl', out).

(** ** Interface discovery *)

(** A function of the program either returns or ends the process with
    [exit(status)]; [out] is what it printed before. *)
Inductive outcome (A : Type) : Type :=
| Exit (status : Z) (out : string)
| Return (v : A).
Arguments Exit {A} status out.
Arguments Return {A} v.

Definition dquote : string := String (ascii_of_nat 34) "".

(** Common check for [ifa->ifa_flags]. *)
Definition check_ifflags (ctl : run_state) (ifflags : Z) : outcome Z :=
  if Z.land ifflags IFF_UP =? 0 then
    match name (device ctl) with
    | Some n =>
        Exit 2 (if negb (quiet ctl)
                then "Interface " +++ dquote +++ n +++ dquote +++
                     " is down" +++ nl
                else "")
    | None => Return (-1)
    end
  else if negb (Z.land ifflags (Z.lor IFF_NOARP IFF_LOOPBACK) =? 0) then
    match name (device ctl) with
    | Some n =>
        Exit (if dad ctl then 0 else 2)
             (if negb (quiet ctl)
              then "Interface " +++ dquote +++ n +++ dquote +++
                   " is not ARPable" +++ nl
              else "")
    | None => Return (-1)
    end
  else Return 0.

Definition set_device_ifa (i : ifaddrs) (ctl : run_state) : run_state :=
  set_device {| name := name (device ctl); ifindex := ifindex (device ctl);
                ifa := Some i |} ctl.

(** The [strcmp(ifa->ifa_name, ctl->device.name)] filter: true when the
    entry is to be passed over. *)
Definition name_differs (ctl : run_state) (i : ifaddrs) : bool :=
  match name (device ctl), ifa_name i with
  | Some d, Some n => negb (String.eqb n d)
  | _, _ => false
  end.

(** The [for] loop of [find_device_by_ifaddrs] over the address list,
    with the candidate count [n]. *)
Fixpoint scan_ifaddrs (l : list ifaddrs) (n : Z) (ctl : run_state)
  : outcome (Z * run_state) :=
  match l with
  | [] => Return (n, ctl)
  | i :: rest =>
      match ifa_addr i with
      | None => scan_ifaddrs rest n ctl
      | Some addr =>
          if negb (sll_family addr =? AF_PACKET) then scan_ifaddrs rest n ctl
          else if name_differs ctl i then scan_ifaddrs rest n ctl
          else
            match check_ifflags ctl (ifa_flags i) with
            | Exit st out => Exit st out
            | Return r =>
                if r <? 0 then scan_ifaddrs rest n ctl
                else if sll_halen addr =? 0 then scan_ifaddrs rest n ctl
                else
                  match ifa_broadaddr i with
                  | None => scan_ifaddrs rest n ctl
                  | Some _ =>
                      let ctl' := set_device_ifa i ctl in
                      if negb (n =? 0) then Return (n + 1, ctl')
                      else scan_ifaddrs rest (n + 1) ctl'
                  end
            end
      end
  end.

(** [find_device_by_ifaddrs]: [ifa0] is the list [getifaddrs] produced
    ([None] when it failed) and [if_nametoindex] the system's table. *)
Definition find_device_by_ifaddrs (ctl : run_state)
    (ifa0 : option (list ifaddrs)) (if_nametoindex : option string -> Z)
  : outcome (Z * run_state) :=
  match ifa0 with
  | None => Return (-1, ctl)
  | Some l =>
      match scan_ifaddrs l 0 ctl with
      | Exit st out => Exit st out
      | Return (n, ctl1) =>
          match ifa (device ctl1) with
          | Some i =>
              if n =? 1 then
                let idx := if_nametoindex (ifa_name i) in
                let ctl2 :=
                  set_device {| name := name (device ctl1); ifindex := idx;
                                ifa := Some i |} ctl1 in
                if idx =? 0 then Return (-1, ctl2)
                else Return (0, set_device {| name := ifa_name i;
                                              ifindex := idx;
                                              ifa := Some i |} ctl2)
              else Return (1, ctl1)
          | None => Return (1, ctl1)
          end
      end
  end.

(** ** The option switch of [main] *)

Definition zero_sockaddr : sockaddr_ll :=
  {| sll_family := 0; sll_hatype := 0; sll_pkttype := 0; sll_halen := 0;
     sll_addr := [] |}.

(** The initialiser of [ctl] in [main] ([DEFAULT_DEVICE] is [NULL]). *)
Definition initial_run_state : run_state :=
  {| device := {| name := None; ifindex := 0; ifa := None |};
     source := None; gsrc := 0; gdst := 0;
     count := -1; timeout := 0; interval := 1;
     me := zero_sockaddr; he := zero_sockaddr;
     last := {| tv_sec := 0; tv_nsec := 0 |};
     sent := 0; brd_sent := 0; received := 0; brd_recv := 0; req_recv := 0;
     advert := false; broadcast_only := false; dad := false; quiet := false;
     quit_on_reply := false; unicasting := false; unsolicited := false |}.

(** What [getopt] yields; a numeric argument is the value of [atoi]. *)
Inductive option_char : Type :=
| Opt_b | Opt_D | Opt_U | Opt_A | Opt_q | Opt_f
| Opt_c (n : Z) | Opt_w (n : Z) | Opt_i (n : Z)
| Opt_I (dev : string) | Opt_s (src : string)
| Opt_V | Opt_h.

(** One pass through the [switch (ch)]; [version] is the text of
    [IPUTILS_VERSION("arping")], which the build defines. *)
Definition option_switch (version : string) (ch : option_char)
    (ctl : run_state) : outcome run_state :=
  match ch with
  | Opt_b => Return (set_broadcast_only true ctl)
  | Opt_D => Return (set_quit_on_reply true (set_dad true ctl))
  | Opt_U => Return (set_unsolicited true ctl)
  | Opt_A => Return (set_unsolicited true (set_advert true ctl))
  | Opt_q => Return (set_quiet true ctl)
  | Opt_c n => Return (set_count n ctl)
  | Opt_w n => Return (set_timeout n ctl)
  | Opt_i n => Return (set_interval (n mod 2 ^ 32) ctl)
  | Opt_I dev =>
      Return (set_device {| name := Some dev; ifindex := ifindex (device ctl);
                            ifa := ifa (device ctl) |} ctl)
  | Opt_f => Return (set_quit_on_reply true ctl)
  | Opt_s src => Return (set_source (Some src) ctl)
  | Opt_V => Exit 0 version
  | Opt_h => Exit 2 ""
  end.

(** The [while ((ch = getopt(...)) != EOF)] loop. *)
Fixpoint parse_options (version : string) (opts : list option_char)
    (ctl : run_state) : outcome run_state :=
  match opts with
  | [] => Return ctl
  | ch :: rest =>
      match option_switch version ch ctl with
      | Exit st out => Exit st out
      | Return ctl' => parse_options version rest ctl'
      end
  end.

(** ** The event loop *)

(** What [recvfrom] did: it failed with [errno], or it stored a datagram
    in the buffer and the sender's address in [from]. *)
Inductive recv_result : Type :=
| RecvError (errno : Z)
| RecvData (data : list byte) (from : sockaddr_ll).

(** One return of [poll], with what the system calls made in that pass
    of the loop yield. *)
Record wake : Type := {
  poll_ret : Z;
  poll_errno : Z;
  sig_revents : Z;
  sig_read : Z;
  ssi_signo : Z;
  tmr_revents : Z;
  tmr_read : Z;
  tmr_exp : Z;
  tmr_now : timespec;
  tmr_sendto : Z;
  sock_revents : Z;
  sock_recv : recv_result;
  sock_ts : timespec
}.

(** The variables of [event_loop] that live across iterations. *)
Record loop_state : Type := {
  exit_loop : bool;
  rc : Z;
  total_expires : Z;
  packet : list byte;
  loop_ctl : run_state;
  stdout : string
}.

Definition sizeof_packet : nat := 4096.

(** [case POLLFD_SIGNAL]. *)
Definition on_signal (w : wake) (l : loop_state) : loop_state :=
  if negb (sig_read w =? sizeof_signalfd_siginfo) then l
  else if (ssi_signo w =? SIGINT) || (ssi_signo w =? SIGQUIT) ||
          (ssi_signo w =? SIGTERM)
  then {| exit_loop := true; rc := rc l; total_expires := total_expires l;
          packet := packet l; loop_ctl := loop_ctl l; stdout := stdout l |}
  else {| exit_loop := exit_loop l; rc := rc l;
          total_expires := total_expires l; packet := packet l;
          loop_ctl := loop_ctl l;
          stdout := stdout l +++ "arping: unexpected signal: " +++
                    fmt_d (ssi_signo w) +++ nl |}.

(** [case POLLFD_TIMER]. *)
Definition on_timer (w : wake) (l : loop_state) : loop_state :=
  if negb (tmr_read w =? sizeof_uint64) then l
  else
    let total := u64_add (total_expires l) (tmr_exp w) in
    if (0 <? count (loop_ctl l)) && (count (loop_ctl l) <? total)
    then {| exit_loop := true; rc := rc l; total_expires := total;
            packet := packet l; loop_ctl := loop_ctl l; stdout := stdout l |}
    else
      let '(_, ctl', _) := send_pack (loop_ctl l) (tmr_now w) (tmr_sendto w) in
      {| exit_loop := exit_loop l; rc := rc l; total_expires := total;
         packet := packet l; loop_ctl := ctl'; stdout := stdout l |}.

(** [case POLLFD_SOCKET]. *)
Definition on_socket (w : wake) (l : loop_state) : loop_state :=
  match sock_recv w with
  | RecvError errno =>
      {| exit_loop := exit_loop l;
         rc := if errno =? ENETDOWN then 2 else rc l;
         total_expires := total_expires l; packet := packet l;
         loop_ctl := loop_ctl l; stdout := stdout l |}
  | RecvData data from =>
      let data := firstn sizeof_packet data in
      let packet' := memcpy (packet l) data in
      let '(r, ctl', out) :=
        recv_pack (loop_ctl l) packet' (Z.of_nat (length data)) from
          (sock_ts w) in
      {| exit_loop := if r =? FINAL_PACKS then true else exit_loop l;
         rc := rc l; total_expires := total_expires l; packet := packet';
         loop_ctl := ctl'; stdout := stdout l +++ out |}
  end.

(** One iteration of the [while] loop: the [poll] and the scan of the
    three descriptors in index order. *)
Definition handle_wake (w : wake) (l : loop_state) : loop_state :=
  if poll_ret w <=? 0 then
    if poll_errno w =? EAGAIN then l
    else {| exit_loop := true; rc := rc l; total_expires := total_expires l;
            packet := packet l; loop_ctl := loop_ctl l; stdout := stdout l |}
  else
    let l1 := if negb (sig_revents w =? 0) then on_signal w l else l in
    let l2 := if negb (tmr_revents w =? 0) then on_timer w l1 else l1 in
    if negb (sock_revents w =? 0) then on_socket w l2 else l2.

(** [while (!exit_loop)] over the wakes the system delivers; the wakes
    not consumed are returned, and [None] means that the loop is still
    waiting when the list is exhausted. *)
Fixpoint run_loop (ws : list wake) (l : loop_state)
  : option (loop_state * list wake) :=
  if exit_loop l then Some (l, ws)
  else
    match ws with
    | [] => None
    | w :: ws' => run_loop ws' (handle_wake w l)
    end.

(** The set-up calls before the loop, the first [send_pack] and the
    initial content of the receive buffer. *)
Record setup : Type := {
  sigprocmask_ok : bool;
  signalfd_ok : bool;
  timerfd_create_ok : bool;
  clock_gettime_ok : bool;
  timerfd_settime_ok : bool;
  first_now : timespec;
  first_sendto : Z;
  packet0 : list byte
}.

Definition setup_ok (env : setup) : bool :=
  sigprocmask_ok env && signalfd_ok env && timerfd_create_ok env &&
  clock_gettime_ok env && timerfd_settime_ok env.

(** [event_loop]: the value returned, the final run state, the standard
    output and the wakes left over. *)
Definition event_loop (ctl : run_state) (env : setup) (ws : list wake)
  : option (Z * run_state * string * list wake) :=
  if negb (sigprocmask_ok env) then Some (1, ctl, "", ws)
  else if negb (signalfd_ok env) then Some (1, ctl, "", ws)
  else if negb (timerfd_create_ok env) then Some (1, ctl, "", ws)
  else if negb (clock_gettime_ok env) then Some (1, ctl, "", ws)
  else if negb (timerfd_settime_ok env) then Some (1, ctl, "", ws)
  else
    let '(_, ctl1, _) := send_pack ctl (first_now env) (first_sendto env) in
    match run_loop ws {| exit_loop := false; rc := 0; total_expires := 1;
                         packet := packet0 env; loop_ctl := ctl1;
                         stdout := "" |} with
    | None => None
    | Some (l, rest) =>
        let rc1 := Z.lor (rc l) (fst (finish (loop_ctl l))) in
        let rc2 :=
          Z.lor rc1
            (lnot (of_bool (negb (brd_sent (loop_ctl l) =?
                                  received (loop_ctl l))))) in
        Some (rc2, loop_ctl l, stdout l +++ snd (finish (loop_ctl l)), rest)
    end.

(** ** The frame as the specification sees it *)

(** The ARP frame held in a buffer: the header of [struct arphdr] and the
    four addresses that follow it, the hardware addresses [ar_hln] bytes
    long. *)
Record ArpFrame : Type := {
  ar_hrd : Z;
  ar_pro : Z;
  ar_hln : Z;
  ar_pln : Z;
  ar_op : Z;
  ar_sha : list byte;
  ar_sip : Z;
  ar_tha : list byte;
  ar_tip : Z
}.

Definition decode (buf : list byte) : ArpFrame :=
  let hln := Z.to_nat (get_u8 buf 4) in
  {| ar_hrd := get_be16 buf 0;
     ar_pro := get_be16 buf 2;
     ar_hln := get_u8 buf 4;
     ar_pln := get_u8 buf 5;
     ar_op := get_be16 buf 6;
     ar_sha := mem_read buf 8 hln;
     ar_sip := get_be32 buf (8 + hln);
     ar_tha := mem_read buf (12 + hln) hln;
     ar_tip := get_be32 buf (12 + 2 * hln) |}.

(** The hardware address of the local interface. *)
Definition own_hwaddr (ctl : run_state) : list byte :=
  mem_read (sll_addr (me ctl)) 0 (Z.to_nat (sll_halen (me ctl))).

(** The current destination link address. *)
Definition dest_hwaddr (ctl : run_state) : list byte :=
  mem_read (sll_addr (he ctl)) 0 (Z.to_nat (sll_halen (me ctl))).

Definition structurally_valid (ctl : run_state) (f : ArpFrame) (len : Z)
    (FROM : sockaddr_ll) : Prop :=
  (sll_pkttype FROM = PACKET_HOST \/ sll_pkttype FROM = PACKET_BROADCAST \/
   sll_pkttype FROM = PACKET_MULTICAST) /\
  (ar_op f = ARPOP_REQUEST \/ ar_op f = ARPOP_REPLY) /\
  (ar_hrd f = sll_hatype FROM \/
   (sll_hatype FROM = ARPHRD_FDDI /\ ar_hrd f = ARPHRD_ETHER)) /\
  ar_pro f = ETH_P_IP /\
  ar_pln f = 4 /\
  ar_hln f = sll_halen (me ctl) /\
  sizeof_arphdr + 2 * (4 + ar_hln f) <= len.

Definition normal_valid (ctl : run_state) (f : ArpFrame) : Prop :=
  ar_sip f = gdst ctl /\ ar_tip f = gsrc ctl /\ ar_tha f = own_hwaddr ctl.

Definition dad_valid (ctl : run_state) (f : ArpFrame) : Prop :=
  ar_sip f = gdst ctl /\ ar_sha f <> own_hwaddr ctl /\
  (gsrc ctl = 0 \/ ar_tip f = gsrc ctl).

Definition mode_valid (ctl : run_state) (f : ArpFrame) : Prop :=
  if dad ctl then dad_valid ctl f else normal_valid ctl f.

(** The three components of the result of [recv_pack]. *)
Definition recv_ret (ctl : run_state) (buf : list byte) (len : Z)
    (FROM : sockaddr_ll) (ts : timespec) : Z :=
  fst (fst (recv_pack ctl buf len FROM ts)).

Definition recv_state (ctl : run_state) (buf : list byte) (len : Z)
    (FROM : sockaddr_ll) (ts : timespec) : run_state :=
  snd (fst (recv_pack ctl buf len FROM ts)).

Definition recv_out (ctl : run_state) (buf : list byte) (len : Z)
    (FROM : sockaddr_ll) (ts : timespec) : string :=
  snd (recv_pack ctl buf len FROM ts).

(** [recv_pack] accepts a frame when it returns a value other than 0. *)
Definition accepted (ctl : run_state) (buf : list byte) (len : Z)
    (FROM : sockaddr_ll) (ts : timespec) : Prop :=
  recv_ret ctl buf len FROM ts <> 0.

(** What [recv_pack] yields for a frame that passes every check. *)
Definition accept_result (ctl : run_state) (buf : list byte)
    (FROM : sockaddr_ll) (ts : timespec) : Z * run_state * string :=
  (fst (count_response ctl buf FROM), snd (count_response ctl buf FROM),
   if negb (quiet ctl) then report_line ctl buf FROM ts else "").

(** A wake in which [recvfrom] is called and fails with [ENETDOWN]. *)
Definition netdown_wake (w : wake) : bool :=
  (0 <? poll_ret w) && negb (sock_revents w =? 0) &&
  match sock_recv w with
  | RecvError errno => errno =? ENETDOWN
  | RecvData _ _ => false
  end.

(** A wake that delivers one of the termination signals. *)
Definition termination_wake (w : wake) : bool :=
  (0 <? poll_ret w) && negb (sig_revents w =? 0) &&
  (sig_read w =? sizeof_signalfd_siginfo) &&
  ((ssi_signo w =? SIGINT) || (ssi_signo w =? SIGQUIT) ||
   (ssi_signo w =? SIGTERM)).

(** ** A concrete session, for the examples *)

Module Sample.

Definition mac_local : list byte := [x02; x00; x00; x00; x00; x01].
Definition mac_peer : list byte := [x02; x00; x00; x00; x00; x02].
Definition mac_bcast : list byte := [xff; xff; xff; xff; xff; xff].

(** 192.0.2.1 and 192.0.2.5. *)
Definition ip_local : Z := 3221225985.
Definition ip_target : Z := 3221225989.

Definition ll (pkttype : Z) (addr : list byte) : sockaddr_ll :=
  {| sll_family := AF_PACKET; sll_hatype := ARPHRD_ETHER;
     sll_pkttype := pkttype; sll_halen := 6; sll_addr := addr |}.

(** The run state after start-up on an Ethernet interface, with the
    given option flags applied to [base]. *)
Definition session (base : run_state) : run_state :=
  {| device := device base; source := source base;
     gsrc := ip_local; gdst := ip_target;
     count := count base; timeout := timeout base; interval := interval base;
     me := ll 0 mac_local; he := ll 0 mac_bcast;
     last := last base;
     sent := sent base; brd_sent := brd_sent base; received := received base;
     brd_recv := brd_recv base; req_recv := req_recv base;
     advert := advert base; broadcast_only := broadcast_only base;
     dad := dad base; quiet := quiet base;
     quit_on_reply := quit_on_reply base; unicasting := unicasting base;
     unsolicited := unsolicited base |}.

Definition t0 : timespec := {| tv_sec := 10; tv_nsec := 0 |}.
Definition t1 : timespec := {| tv_sec := 10; tv_nsec := 1234567 |}.

(** The session after its first probe went out. *)
Definition probing (base : run_state) : run_state :=
  snd (fst (send_pack (session base) t0 28)).

(** An ARP frame on Ethernet, with the hardware length byte [hln]. *)
Definition frame_hln (hln : byte) (op : Z) (sha : list byte) (sip : Z)
    (tha : list byte) (tip : Z) : list byte :=
  be16_bytes ARPHRD_ETHER ++ be16_bytes ETH_P_IP ++ [hln; x04] ++
  be16_bytes op ++ sha ++ be32_bytes sip ++ tha ++ be32_bytes tip.

Definition frame : Z -> list byte -> Z -> list byte -> Z -> list byte :=
  frame_hln x06.

(** A reply with eight-byte hardware addresses. *)
Definition reply_hln8 : list byte :=
  frame_hln x08 ARPOP_REPLY (mac_peer ++ [x00; x00]) ip_target
    (mac_local ++ [x00; x00]) ip_local.

(** The peer's reply to the probe, unicast to the local interface. *)
Definition reply : list byte :=
  frame ARPOP_REPLY mac_peer ip_target mac_local ip_local.

Definition from_peer : sockaddr_ll := ll PACKET_HOST mac_peer.

(** The peer's own request for the local address, broadcast. *)
Definition request : list byte :=
  frame ARPOP_REQUEST mac_peer ip_target mac_local ip_local.

Definition from_peer_bcast : sockaddr_ll := ll PACKET_BROADCAST mac_peer.



Definition quiet_setup : setup :=
  {| sigprocmask_ok := true; signalfd_ok := true; timerfd_create_ok := true;
     clock_gettime_ok := true; timerfd_settime_ok := true;
     first_now := t0; first_sendto := 28; packet0 := [] |}.

(** A wake on which only the socket is readable. *)
Definition socket_wake (r : recv_result) : wake :=
  {| poll_ret := 1; poll_errno := 0;
     sig_revents := 0; sig_read := 0; ssi_signo := 0;
     tmr_revents := 0; tmr_read := 0; tmr_exp := 0;
     tmr_now := t1; tmr_sendto := 0;
     sock_revents := 1; sock_recv := r; sock_ts := t1 |}.

(** A wake on which only the signal descriptor is readable. *)
Definition signal_wake (signo : Z) : wake :=
  {| poll_ret := 1; poll_errno := 0;
     sig_revents := 1; sig_read := sizeof_signalfd_siginfo;
     ssi_signo := signo;
     tmr_revents := 0; tmr_read := 0; tmr_exp := 0;
     tmr_now := t1; tmr_sendto := 0;
     sock_revents := 0; sock_recv := RecvError 0; sock_ts := t1 |}.

End Sample.

(** ** More of the program *)

(** [set_device_broadcast], in a build without [USE_SYSFS]: the
    destination link address becomes the broadcast address of the device
    found, or all-ones when it has none of the right length.  [None]
    stands for the dereference of a null [ifa_broadaddr]; the warning goes
    to standard error. *)
Definition set_device_broadcast (ctl : run_state) : option run_state :=
  let n := Z.to_nat (sll_halen (he ctl)) in
  let default :=
    set_he (set_sll_addr (memcpy (sll_addr (he ctl)) (repeat xff n)) (he ctl))
      ctl in
  match ifa (device ctl) with
  | Some i =>
      match ifa_broadaddr i with
      | None => None
      | Some sll =>
          if sll_halen sll =? sll_halen (he ctl) then
            Some (set_he
                    (set_sll_addr
                       (memcpy (sll_addr (he ctl))
                               (mem_read (sll_addr sll) 0 n))
                       (he ctl))
                    ctl)
          else Some default
      end
  | None => Some default
  end.

(** ** The bounds of the objects [send_pack] copies between *)

(** [sizeof buf] in [send_pack], and the bytes of a [sockaddr_storage]
    from [sll_addr] on: [sizeof(struct sockaddr_storage)] less
    [offsetof(struct sockaddr_ll, sll_addr)], 128 - 12. *)
Definition sizeof_buf : Z := 256.
Definition SLL_ADDR_ROOM : Z := 116.

(** The copies of [send_pack] stay inside [me], [he] and [buf]: the
    hardware length is no more than the address bytes of the storage, and
    the frame no longer than [buf]. *)
Definition send_pack_in_bounds (ctl : run_state) : bool :=
  (0 <=? sll_halen (me ctl)) && (sll_halen (me ctl) <=? SLL_ADDR_ROOM) &&
  (sizeof_arphdr + 2 * (4 + sll_halen (me ctl)) <=? sizeof_buf).

(** The wire buffer [send_pack] produces: what it hands to [sendto] when
    its copies stay in bounds.  Out of bounds the source reads past [me]
    and writes past [buf], and there is no buffer to speak of. *)
Definition wire_buffer (ctl : run_state) (now : timespec) (err : Z)
  : option (list byte) :=
  if send_pack_in_bounds ctl then Some (snd (send_pack ctl now err))
  else None.

(** ** The loop state when the socket is read *)

(** The loop state of a wake once the signal and the timer descriptors
    have been handled, as [case POLLFD_SOCKET] finds it. *)
Definition before_socket (w : wake) (l : loop_state) : loop_state :=
  let l1 := if negb (sig_revents w =? 0) then on_signal w l else l in
  if negb (tmr_revents w =? 0) then on_timer w l1 else l1.

(** The receive buffer and the length after [recvfrom] stored [data]. *)
Definition packet_after (l : loop_state) (data : list byte) : list byte :=
  memcpy (packet l) (firstn sizeof_packet data).

Definition length_received (data : list byte) : Z :=
  Z.of_nat (length (firstn sizeof_packet data)).

(** Clock readings a session meets: nanoseconds below one second, and
    the reading [ts] no earlier than [t0] and less than [2 ^ 43] seconds
    after it. *)
Definition clock_readings (t0 ts : timespec) : Prop :=
  0 <= tv_nsec t0 < 1000000000 /\ 0 <= tv_nsec ts < 1000000000 /\
  0 <= tv_sec ts - tv_sec t0 < 2 ^ 43.

(** ** Vocabulary for the further properties *)

(** Flags of an interface that is up and on which ARP works. *)
Definition flags_ok (ifflags : Z) : bool :=
  negb (Z.land ifflags IFF_UP =? 0) &&
  (Z.land ifflags (Z.lor IFF_NOARP IFF_LOOPBACK) =? 0).

(** An entry of the address list that the scan would select. *)
Definition candidate (ctl : run_state) (i : ifaddrs) : bool :=
  match ifa_addr i, ifa_broadaddr i with
  | Some a, Some _ =>
      (sll_family a =? AF_PACKET) && negb (name_differs ctl i) &&
      flags_ok (ifa_flags i) && negb (sll_halen a =? 0)
  | _, _ => false
  end.

(** The timer descriptor reports at least one expiration per read. *)
Definition timer_sane (w : wake) : Prop := 1 <= tmr_exp w < 2 ^ 63.

(** A wake that makes [event_loop] print the unexpected-signal notice. *)
Definition unexpected_signal (w : wake) : bool :=
  (0 <? poll_ret w) && negb (sig_revents w =? 0) &&
  (sig_read w =? sizeof_signalfd_siginfo) &&
  negb ((ssi_signo w =? SIGINT) || (ssi_signo w =? SIGQUIT) ||
        (ssi_signo w =? SIGTERM)).

(** Two buffers that hold the same [len] bytes. *)
Definition same_prefix (len : Z) (buf1 buf2 : list byte) : Prop :=
  forall i : nat, Z.of_nat i < len -> nth i buf1 x00 = nth i buf2 x00.

(** [getopt] met neither [-V] nor [-h]. *)
Definition no_exit_option (ch : option_char) : bool :=
  match ch with
  | Opt_V | Opt_h => false
  | _ => true
  end.

(** The argument of the last [-c] among the options, [d] without one. *)
Fixpoint last_count (opts : list option_char) (d : Z) : Z :=
  match opts with
  | [] => d
  | Opt_c n :: rest => last_count rest n
  | _ :: rest => last_count rest d
  end.

(** The counters are ordered and within the bounds [s] and [r]. *)
Definition counters_within (ctl : run_state) (s r : Z) : Prop :=
  0 <= brd_sent ctl <= sent ctl /\ sent ctl <= s /\
  0 <= brd_recv ctl <= received ctl /\ 0 <= req_recv ctl <= received ctl /\
  received ctl <= r.

(** The part of the loop state that the probe budget constrains. *)
Definition within_budget (l : loop_state) : Prop :=
  0 <= sent (loop_ctl l) <= total_expires l /\
  sent (loop_ctl l) <= count (loop_ctl l) /\
  (exit_loop l = false -> total_expires l <= count (loop_ctl l)).

(** What a broadcast-only session keeps true: the destination is [he0],
    the session is not unicasting and every probe sent was a broadcast. *)
Definition broadcasting (he0 : sockaddr_ll) (ctl : run_state) : Prop :=
  broadcast_only ctl = true /\ unicasting ctl = false /\
  brd_sent ctl = sent ctl /\ he ctl = he0.

(** A wake on which the socket alone is ready. *)
Definition socket_only (w : wake) : Prop :=
  0 < poll_ret w /\ sig_revents w = 0 /\ tmr_revents w = 0 /\
  sock_revents w <> 0.

(** What a quit-on-first-reply session keeps true: nothing is counted
    while the loop runs, and one response at most once it has ended. *)
Definition first_reply_pending (dad0 : bool) (l : loop_state) : Prop :=
  quit_on_reply (loop_ctl l) = true /\ dad (loop_ctl l) = dad0 /\
  (received (loop_ctl l) = 0 \/
   received (loop_ctl l) = 1 /\ exit_loop l = true).

(** An entry that the scan passes over before it looks at the flags. *)
Definition passed_over (ctl : run_state) (i : ifaddrs) : bool :=
  match ifa_addr i with
  | None => true
  | Some a => negb (sll_family a =? AF_PACKET) || name_differs ctl i
  end.

(** The loop state with another value of the timeout option. *)
Definition with_timeout (t : Z) (l : loop_state) : loop_state :=
  {| exit_loop := exit_loop l; rc := rc l; total_expires := total_expires l;
     packet := packet l; loop_ctl := set_timeout t (loop_ctl l);
     stdout := stdout l |}.

(** The result of [event_loop] with another value of the timeout
    option in the final run state. *)
Definition result_with_timeout (t : Z)
    (r : option (Z * run_state * string * list wake))
  : option (Z * run_state * string * list wake) :=
  match r with
  | Some (v, ctl, out, rest) => Some (v, set_timeout t ctl, out, rest)
  | None => None
  end.

(** ** A concrete host, for the examples *)

Module SampleNet.

(** An Ethernet interface that is up, and the loopback interface. *)
Definition eth0 : ifaddrs :=
  {| ifa_name := Some "eth0"; ifa_flags := 4163;
     ifa_addr := Some (Sample.ll 0 Sample.mac_local);
     ifa_broadaddr := Some (Sample.ll 0 Sample.mac_bcast) |}.

Definition lo : ifaddrs :=
  {| ifa_name := Some "lo"; ifa_flags := 73;
     ifa_addr := Some (Sample.ll 0 [x00; x00; x00; x00; x00; x00]);
     ifa_broadaddr := Some (Sample.ll 0 [x00; x00; x00; x00; x00; x00]) |}.

Definition interfaces : list ifaddrs := [lo; eth0].


(** A wake on which only the timer is readable, with [n] expirations;
    the probe it triggers is written in full. *)
Definition timer_wake (n : Z) : wake :=
  {| poll_ret := 1; poll_errno := 0;
     sig_revents := 0; sig_read := 0; ssi_signo := 0;
     tmr_revents := 1; tmr_read := sizeof_uint64; tmr_exp := n;
     tmr_now := Sample.t1; tmr_sendto := 28;
     sock_revents := 0; sock_recv := RecvError 0; sock_ts := Sample.t1 |}.

Definition if_nametoindex (n : option string) : Z :=
  match n with
  | Some s => if String.eqb s "lo" then 1
              else if String.eqb s "eth0" then 2 else 0
  | None => 0
  end.

(** The run state of [main] once the device is found and the socket is
    bound to it: [he] starts as a copy of [me]. *)
Definition bound (base : run_state) : run_state :=
  set_he (Sample.ll 0 Sample.mac_local)
    (set_me (Sample.ll 0 Sample.mac_local)
       (set_device {| name := Some "eth0"; ifindex := 2; ifa := Some eth0 |}
          base)).

End SampleNet.

(** * Properties *)

(** ** Machine integers, bytes and memory *)

Lemma int_incr_in_range (x : Z) :
  INT_MIN <= x < INT_MAX -> int_incr x = x + 1.
Proof.
  unfold int_incr, int_wrap, INT_MIN, INT_MAX. intros H.
  rewrite Z.mod_small; lia.
Qed.

Lemma lnot_zero_iff (x : Z) : lnot x = 0 <-> x <> 0.
Proof.
  unfold lnot. destruct (Z.eqb_spec x 0); split; intros; try lia; congruence.
Qed.

Lemma lnot_lnot_zero_iff (x : Z) : lnot (lnot x) = 0 <-> x = 0.
Proof.
  unfold lnot. destruct (Z.eqb_spec x 0); simpl; split; intros; try lia;
    congruence.
Qed.

Lemma byte_to_Z_range (b : byte) : 0 <= byte_to_Z b < 256.
Proof.
  unfold byte_to_Z. pose proof (Byte.to_N_bounded b). lia.
Qed.

Lemma land_255_range (z : Z) : 0 <= Z.land z 255 < 256.
Proof.
  change 255 with (Z.ones 8). rewrite Z.land_ones by lia.
  apply Z.mod_pos_bound. lia.
Qed.

Lemma byte_to_of_Z (z : Z) : byte_to_Z (byte_of_Z z) = Z.land z 255.
Proof.
  unfold byte_to_Z, byte_of_Z.
  pose proof (land_255_range z) as R.
  destruct (Byte.of_N (Z.to_N (Z.land z 255))) as [b|] eqn:E.
  - apply Byte.to_of_N in E. rewrite E. lia.
  - apply Byte.of_N_None_iff in E. lia.
Qed.

Lemma byte_of_to_Z (b : byte) : byte_of_Z (byte_to_Z b) = b.
Proof.
  unfold byte_of_Z.
  pose proof (byte_to_Z_range b) as R.
  replace (Z.land (byte_to_Z b) 255) with (byte_to_Z b).
  - unfold byte_to_Z. rewrite N2Z.id, Byte.of_to_N. reflexivity.
  - change 255 with (Z.ones 8). rewrite Z.land_ones by lia.
    symmetry. apply Z.mod_small. lia.
Qed.

Lemma byte_to_Z_inj (x y : byte) : byte_to_Z x = byte_to_Z y -> x = y.
Proof.
  intros H. rewrite <- (byte_of_to_Z x), <- (byte_of_to_Z y), H. reflexivity.
Qed.

Lemma testbit_above (v k n : Z) :
  0 <= v < 2 ^ k -> 0 <= k <= n -> Z.testbit v n = false.
Proof.
  intros Hv Hk.
  destruct (Z.eq_dec v 0) as [->|Hz]. { apply Z.bits_0. }
  apply Z.bits_above_log2; [lia|].
  assert (Z.log2 v < k); [|lia].
  apply Z.log2_lt_pow2; lia.
Qed.

(** Bits of a byte extracted from [v] and moved back to its place. *)
Ltac byte_bits v :=
  repeat match goal with
    | |- context [Z.testbit (Z.shiftr v ?k) ?m] =>
        first [ rewrite (Z.testbit_neg_r (Z.shiftr v k) m) by lia
              | rewrite (Z.shiftr_spec v k m) by lia ]
    | |- context [Z.testbit (Z.ones 8) ?m] =>
        first [ rewrite (Z.testbit_neg_r (Z.ones 8) m) by lia
              | rewrite (Z.ones_spec_low 8 m) by lia
              | rewrite (Z.ones_spec_high 8 m) by lia ]
    end;
  rewrite ?andb_false_r, ?andb_true_r, ?orb_false_r, ?orb_false_l.

Lemma be16_value (v : Z) :
  0 <= v < 2 ^ 16 ->
  Z.lor (Z.shiftl (Z.land (Z.shiftr v 8) 255) 8) (Z.land v 255) = v.
Proof.
  intros Hv. apply Z.bits_inj'. intros n Hn.
  change 255 with (Z.ones 8).
  rewrite !Z.lor_spec, !Z.shiftl_spec, !Z.land_spec by lia.
  destruct (Z.ltb_spec n 8); [|destruct (Z.ltb_spec n 16)]; byte_bits v;
    try (f_equal; lia).
  symmetry. apply (testbit_above v 16 n); lia.
Qed.

Lemma be32_value (v : Z) :
  0 <= v < 2 ^ 32 ->
  Z.lor (Z.shiftl (Z.land (Z.shiftr v 24) 255) 24)
    (Z.lor (Z.shiftl (Z.land (Z.shiftr v 16) 255) 16)
       (Z.lor (Z.shiftl (Z.land (Z.shiftr v 8) 255) 8) (Z.land v 255))) = v.
Proof.
  intros Hv. apply Z.bits_inj'. intros n Hn.
  change 255 with (Z.ones 8).
  rewrite !Z.lor_spec, !Z.shiftl_spec, !Z.land_spec by lia.
  destruct (Z.ltb_spec n 8);
    [|destruct (Z.ltb_spec n 16);
      [|destruct (Z.ltb_spec n 24); [|destruct (Z.ltb_spec n 32)]]];
    byte_bits v; try (f_equal; lia).
  symmetry. apply (testbit_above v 32 n); lia.
Qed.

Lemma length_mem_read (m : list byte) (off n : nat) :
  length (mem_read m off n) = n.
Proof. unfold mem_read. rewrite length_map, length_seq. reflexivity. Qed.

Lemma nth_mem_read (m : list byte) (off n i : nat) :
  (i < n)%nat -> nth i (mem_read m off n) x00 = nth (off + i) m x00.
Proof.
  intros Hi. unfold mem_read.
  set (f := fun j => nth (off + j) m x00).
  rewrite (nth_indep _ x00 (f 0%nat))
    by (rewrite length_map, length_seq; exact Hi).
  rewrite (map_nth f), seq_nth by exact Hi. reflexivity.
Qed.

Lemma mem_read_ext (m m' : list byte) (off off' n : nat) :
  (forall i, (i < n)%nat -> nth (off + i) m x00 = nth (off' + i) m' x00) ->
  mem_read m off n = mem_read m' off' n.
Proof.
  intros H. unfold mem_read. apply map_ext_in. intros i Hi.
  apply in_seq in Hi. apply H. lia.
Qed.

Lemma mem_read_all (l : list byte) : mem_read l 0 (length l) = l.
Proof.
  apply (nth_ext _ _ x00 x00).
  - apply length_mem_read.
  - intros i Hi. rewrite length_mem_read in Hi.
    rewrite nth_mem_read by exact Hi. reflexivity.
Qed.

(** Reading back a block that sits in the middle of a buffer. *)
Lemma mem_read_app (pre l post : list byte) :
  mem_read (pre ++ l ++ post) (length pre) (length l) = l.
Proof.
  rewrite <- (mem_read_all l) at 3.
  apply mem_read_ext. intros i Hi.
  rewrite app_nth2_plus, app_nth1 by exact Hi. reflexivity.
Qed.

Lemma mem_read_idem (m : list byte) (n : nat) :
  mem_read (mem_read m 0 n) 0 n = mem_read m 0 n.
Proof.
  rewrite <- (length_mem_read m 0 n) at 2. apply mem_read_all.
Qed.

Lemma mem_read_memcpy (dst src : list byte) :
  mem_read (memcpy dst src) 0 (length src) = src.
Proof.
  unfold memcpy. apply (mem_read_app [] src). 
Qed.

Lemma memcmp_eq (a b : list byte) :
  length a = length b -> (memcmp a b = 0 <-> a = b).
Proof.
  revert b. induction a as [|x a IH]; intros [|y b] Hlen;
    cbn [memcmp length] in *; try discriminate; [tauto|].
  injection Hlen as Hlen. specialize (IH b Hlen).
  destruct (Byte.eqb x y) eqn:E.
  - apply Byte.byte_dec_bl in E. subst y. rewrite IH.
    split; intros H; [subst; reflexivity | injection H; auto].
  - apply Byte.eqb_false in E. split; intros H.
    + exfalso. apply E, byte_to_Z_inj. lia.
    + injection H as H _. contradiction.
Qed.

Lemma get_be16_app (pre post : list byte) (v : Z) :
  0 <= v < 2 ^ 16 ->
  get_be16 (pre ++ be16_bytes v ++ post) (length pre) = v.
Proof.
  intros Hv. unfold get_be16, get_u8, be16_bytes.
  rewrite <- (Nat.add_0_r (length pre)) at 1.
  rewrite !app_nth2_plus. cbn [nth app].
  rewrite !byte_to_of_Z. apply be16_value. exact Hv.
Qed.

Lemma get_be32_app (pre post : list byte) (v : Z) :
  0 <= v < 2 ^ 32 ->
  get_be32 (pre ++ be32_bytes v ++ post) (length pre) = v.
Proof.
  intros Hv. unfold get_be32, get_u8, be32_bytes.
  rewrite <- (Nat.add_0_r (length pre)) at 1.
  rewrite !app_nth2_plus. cbn [nth app].
  rewrite !byte_to_of_Z. apply be32_value. exact Hv.
Qed.

(** ** [recv_pack]: validation *)

Ltac b2p :=
  repeat match goal with
    | H : _ && _ = true |- _ => apply andb_true_iff in H; destruct H
    | H : _ || _ = false |- _ => apply orb_false_iff in H; destruct H
    | H : _ && _ = false |- _ => apply andb_false_iff in H
    | H : _ || _ = true |- _ => apply orb_true_iff in H
    | H : negb _ = true |- _ => apply negb_true_iff in H
    | H : negb _ = false |- _ => apply negb_false_iff in H
    | H : (_ =? _) = true |- _ => apply Z.eqb_eq in H
    | H : (_ =? _) = false |- _ => apply Z.eqb_neq in H
    | H : (_ <? _) = true |- _ => apply Z.ltb_lt in H
    | H : (_ <? _) = false |- _ => apply Z.ltb_ge in H
    | H : (_ <=? _) = true |- _ => apply Z.leb_le in H
    | H : (_ <=? _) = false |- _ => apply Z.leb_gt in H
    end.

Lemma memcmp_mem_read (m m' : list byte) (off off' n : nat) :
  memcmp (mem_read m off n) (mem_read m' off' n) = 0 <->
  mem_read m off n = mem_read m' off' n.
Proof. apply memcmp_eq. rewrite !length_mem_read. reflexivity. Qed.

(** [recv_pack] runs the accounting exactly on the frames that are
    structurally valid and valid for the mode, and returns 0 with the run
    state untouched and nothing printed on all others. *)
Lemma recv_pack_cases (ctl : run_state) (buf : list byte) (len : Z)
    (FROM : sockaddr_ll) (ts : timespec) :
  (structurally_valid ctl (decode buf) len FROM /\
   mode_valid ctl (decode buf) /\
   recv_pack ctl buf len FROM ts = accept_result ctl buf FROM ts) \/
  (~ (structurally_valid ctl (decode buf) len FROM /\
      mode_valid ctl (decode buf)) /\
   recv_pack ctl buf len FROM ts = (0, ctl, "")).
Proof.
  unfold recv_pack, accept_result, structurally_valid, mode_valid,
    normal_valid, dad_valid, own_hwaddr, decode; cbn [ar_hrd ar_pro ar_hln
    ar_pln ar_op ar_sha ar_sip ar_tha ar_tip].
  change (Z.to_nat sizeof_arphdr) with 8%nat.
  set (hln := Z.to_nat (get_u8 buf 4)).
  replace (8 + hln + 4 + hln)%nat with (12 + 2 * hln)%nat by lia.
  replace (8 + hln + 4)%nat with (12 + hln)%nat by lia.
  destruct (negb (sll_pkttype FROM =? PACKET_HOST) &&
            negb (sll_pkttype FROM =? PACKET_BROADCAST) &&
            negb (sll_pkttype FROM =? PACKET_MULTICAST)) eqn:E1.
  { right. split; [|reflexivity]. b2p. intuition lia. }
  destruct (negb (get_be16 buf 6 =? ARPOP_REQUEST) &&
            negb (get_be16 buf 6 =? ARPOP_REPLY)) eqn:E2.
  { right. split; [|reflexivity]. b2p. intuition lia. }
  destruct (negb (get_be16 buf 0 =? sll_hatype FROM) &&
            (negb (sll_hatype FROM =? ARPHRD_FDDI) ||
             negb (get_be16 buf 0 =? ARPHRD_ETHER))) eqn:E3.
  { right. split; [|reflexivity]. b2p. intuition (b2p; lia). }
  destruct (negb (get_be16 buf 2 =? ETH_P_IP)) eqn:E4.
  { right. split; [|reflexivity]. b2p. intuition lia. }
  destruct (negb (get_u8 buf 5 =? 4)) eqn:E5.
  { right. split; [|reflexivity]. b2p. intuition lia. }
  destruct (negb (get_u8 buf 4 =? sll_halen (me ctl))) eqn:E6.
  { right. split; [|reflexivity]. b2p. intuition lia. }
  destruct (len <? sizeof_arphdr + 2 * (4 + get_u8 buf 4)) eqn:E7.
  { right. split; [|reflexivity]. b2p. intuition lia. }
  assert (S : (sll_pkttype FROM = PACKET_HOST \/
               sll_pkttype FROM = PACKET_BROADCAST \/
               sll_pkttype FROM = PACKET_MULTICAST) /\
              (get_be16 buf 6 = ARPOP_REQUEST \/
               get_be16 buf 6 = ARPOP_REPLY) /\
              (get_be16 buf 0 = sll_hatype FROM \/
               sll_hatype FROM = ARPHRD_FDDI /\
               get_be16 buf 0 = ARPHRD_ETHER) /\
              get_be16 buf 2 = ETH_P_IP /\ get_u8 buf 5 = 4 /\
              get_u8 buf 4 = sll_halen (me ctl) /\
              sizeof_arphdr + 2 * (4 + get_u8 buf 4) <= len).
  { clear - E1 E2 E3 E4 E5 E6 E7.
    b2p. repeat split; lia. }
  apply negb_false_iff, Z.eqb_eq in E6.
  assert (Hh : Z.to_nat (sll_halen (me ctl)) = hln)
    by (unfold hln; rewrite E6; reflexivity).
  rewrite Hh. clear E1 E2 E3 E4 E5 E7.
  destruct (dad ctl); cbn [negb].
  - (* duplicate address detection *)
    destruct (negb (get_be32 buf (8 + hln) =? gdst ctl)) eqn:D1.
    { right. split; [|reflexivity]. b2p. intuition lia. }
    destruct (memcmp (mem_read buf 8 hln) (mem_read (sll_addr (me ctl)) 0 hln)
              =? 0) eqn:D2.
    { right. split; [|reflexivity]. apply Z.eqb_eq, memcmp_mem_read in D2.
      intuition congruence. }
    destruct (negb (gsrc ctl =? 0) &&
              negb (gsrc ctl =? get_be32 buf (12 + 2 * hln))) eqn:D3.
    { right. split; [|reflexivity]. b2p. intuition lia. }
    left. split; [exact S|]. split.
    + b2p. split; [lia|]. split.
      * intros Heq. apply memcmp_mem_read in Heq. lia.
      * destruct D3 as [D3|D3]; b2p; auto.
    + destruct (count_response ctl buf FROM); reflexivity.
  - (* normal resolution *)
    destruct (negb (get_be32 buf (8 + hln) =? gdst ctl)) eqn:N1.
    { right. split; [|reflexivity]. b2p. intuition lia. }
    destruct (negb (gsrc ctl =? get_be32 buf (12 + 2 * hln))) eqn:N2.
    { right. split; [|reflexivity]. b2p. intuition lia. }
    destruct (negb (memcmp (mem_read buf (12 + hln) hln)
                      (mem_read (sll_addr (me ctl)) 0 hln) =? 0)) eqn:N3.
    { right. split; [|reflexivity]. b2p. rewrite memcmp_mem_read in N3.
      intuition congruence. }
    left. split; [exact S|]. split.
    + b2p. rewrite memcmp_mem_read in N3. auto.
    + destruct (count_response ctl buf FROM); reflexivity.
Qed.

Lemma count_response_ret (ctl : run_state) (buf : list byte)
    (FROM : sockaddr_ll) :
  fst (count_response ctl buf FROM) = 1 \/
  fst (count_response ctl buf FROM) = FINAL_PACKS.
Proof.
  unfold count_response.
  repeat match goal with
    | |- context [if ?c then _ else _] => destruct c
    end; cbn [fst]; auto.
Qed.

Lemma accepted_iff (ctl : run_state) (buf : list byte) (len : Z)
    (FROM : sockaddr_ll) (ts : timespec) :
  accepted ctl buf len FROM ts <->
  structurally_valid ctl (decode buf) len FROM /\ mode_valid ctl (decode buf).
Proof.
  unfold accepted, recv_ret.
  destruct (recv_pack_cases ctl buf len FROM ts) as [(S & M & E)|(N & E)];
    rewrite E.
  - split; [auto|]. intros _. unfold accept_result; cbn [fst].
    destruct (count_response_ret ctl buf FROM) as [R|R]; rewrite R;
      discriminate.
  - cbn [fst]. split; [congruence|]. intros V. contradiction.
Qed.

Lemma recv_pack_accepted (ctl : run_state) (buf : list byte) (len : Z)
    (FROM : sockaddr_ll) (ts : timespec) :
  accepted ctl buf len FROM ts ->
  recv_pack ctl buf len FROM ts = accept_result ctl buf FROM ts.
Proof.
  intros A. destruct (recv_pack_cases ctl buf len FROM ts)
    as [(S & M & E)|(N & E)]; [exact E|].
  apply accepted_iff in A. contradiction.
Qed.

Lemma recv_pack_rejected (ctl : run_state) (buf : list byte) (len : Z)
    (FROM : sockaddr_ll) (ts : timespec) :
  ~ accepted ctl buf len FROM ts ->
  recv_pack ctl buf len FROM ts = (0, ctl, "").
Proof.
  intros A. destruct (recv_pack_cases ctl buf len FROM ts)
    as [(S & M & E)|(N & E)]; [|exact E].
  exfalso. apply A, accepted_iff. auto.
Qed.

(** ** The exit code of [finish] *)

(** C1. The base exit code computed by [finish]: in duplicate address
    detection mode it is 0 exactly when no response was received and
    non-zero for any positive number of responses, whatever the
    unsolicited flag; otherwise in unsolicited mode it is always 0;
    otherwise it is 0 exactly when at least one response was received
    (the counter of a session is never negative). *)
Theorem finish_exit_code (ctl : run_state) :
  (dad ctl = true ->
     (fst (finish ctl) = 0 <-> received ctl = 0) /\
     (0 < received ctl -> fst (finish ctl) <> 0)) /\
  (dad ctl = false -> unsolicited ctl = true -> fst (finish ctl) = 0) /\
  (dad ctl = false -> unsolicited ctl = false -> 0 <= received ctl ->
     (fst (finish ctl) = 0 <-> 1 <= received ctl)).
Proof.
  unfold finish. repeat split.
  - rewrite H. cbn [fst]. apply lnot_lnot_zero_iff.
  - rewrite H. cbn [fst]. apply lnot_lnot_zero_iff.
  - rewrite H. cbn [fst]. rewrite lnot_lnot_zero_iff. lia.
  - intros D U. rewrite D, U. reflexivity.
  - rewrite H, H0. cbn [fst]. rewrite lnot_zero_iff. lia.
  - rewrite H, H0. cbn [fst]. rewrite lnot_zero_iff. lia.
Qed.

Lemma finish_exit_code_witness :
  (fst (finish (Sample.session (set_dad true initial_run_state))) = 0 <->
   received (Sample.session (set_dad true initial_run_state)) = 0) /\
  fst (finish (Sample.session (set_unsolicited true initial_run_state))) = 0 /\
  (fst (finish (Sample.session (set_received 3 initial_run_state))) = 0 <->
   1 <= received (Sample.session (set_received 3 initial_run_state))).
Proof.
  split; [|split].
  - exact (proj1 (proj1 (finish_exit_code
             (Sample.session (set_dad true initial_run_state))) eq_refl)).
  - exact (proj1 (proj2 (finish_exit_code
             (Sample.session (set_unsolicited true initial_run_state))))
             eq_refl eq_refl).
  - refine (proj2 (proj2 (finish_exit_code
             (Sample.session (set_received 3 initial_run_state))))
             eq_refl eq_refl _).
    cbn. lia.
Defined.

(** ** [recv_pack]: accounting *)

(** Projections of an updated run state. *)
Ltac fields :=
  cbn [
    device source gsrc gdst count timeout interval me he last sent
    brd_sent received brd_recv req_recv advert broadcast_only dad
    quiet quit_on_reply unicasting unsolicited set_device set_source
    set_gsrc set_count set_timeout set_interval set_he set_last
    set_sent set_brd_sent set_received set_brd_recv set_req_recv
    set_advert set_broadcast_only set_dad set_quiet set_quit_on_reply
    set_unicasting set_unsolicited set_sll_addr sll_family sll_hatype
    sll_pkttype sll_halen sll_addr fst snd
  ] in *.


Lemma count_response_received (ctl : run_state) (buf : list byte)
    (FROM : sockaddr_ll) :
  received (snd (count_response ctl buf FROM)) = int_incr (received ctl).
Proof.
  unfold count_response.
  repeat match goal with
    | |- context [if ?c then _ else _] => destruct c
    end; reflexivity.
Qed.

(** The fields no path of the accounting writes. *)
Lemma count_response_config (ctl : run_state) (buf : list byte)
    (FROM : sockaddr_ll) :
  let ctl' := snd (count_response ctl buf FROM) in
  me ctl' = me ctl /\ gsrc ctl' = gsrc ctl /\ gdst ctl' = gdst ctl /\
  count ctl' = count ctl /\ timeout ctl' = timeout ctl /\
  sent ctl' = sent ctl /\ brd_sent ctl' = brd_sent ctl /\
  dad ctl' = dad ctl /\ quit_on_reply ctl' = quit_on_reply ctl /\
  broadcast_only ctl' = broadcast_only ctl /\ quiet ctl' = quiet ctl /\
  unsolicited ctl' = unsolicited ctl /\ advert ctl' = advert ctl /\
  last ctl' = last ctl.
Proof.
  unfold count_response.
  repeat match goal with
    | |- context [if ?c then _ else _] => destruct c
    end; cbn; repeat split.
Qed.

(** When the accounting ends with [FINAL_PACKS] the destination and the
    unicasting flag are as before. *)
Lemma count_response_final (ctl : run_state) (buf : list byte)
    (FROM : sockaddr_ll) :
  fst (count_response ctl buf FROM) = FINAL_PACKS ->
  he (snd (count_response ctl buf FROM)) = he ctl /\
  unicasting (snd (count_response ctl buf FROM)) = unicasting ctl.
Proof.
  unfold count_response.
  repeat match goal with
    | |- context [if ?c then _ else _] => destruct c
    end; cbn; intros H; try discriminate H; split; reflexivity.
Qed.

(** When it ends with 1 and broadcast-only is off, the destination is the
    sender hardware address of the frame. *)
Lemma count_response_continue (ctl : run_state) (buf : list byte)
    (FROM : sockaddr_ll) :
  fst (count_response ctl buf FROM) <> FINAL_PACKS ->
  broadcast_only ctl = false ->
  dest_hwaddr (snd (count_response ctl buf FROM)) =
    mem_read buf 8 (Z.to_nat (sll_halen (me ctl))) /\
  unicasting (snd (count_response ctl buf FROM)) = true.
Proof.
  unfold count_response, dest_hwaddr.
  change (Z.to_nat sizeof_arphdr) with 8%nat.
  intros H B.
  repeat match goal with
    | H : context [if ?c then _ else _] |- _ => destruct c eqn:?
    end; fields; rewrite ?B in *; cbn [negb] in *; try congruence;
    split; try reflexivity.
  all: set (src := mem_read buf 8 (Z.to_nat (sll_halen (me ctl))));
    replace (Z.to_nat (sll_halen (me ctl))) with (length src)
      by apply length_mem_read;
    apply mem_read_memcpy.
Qed.

(** C3, as stated, fails: with the default probe count of [main], -1,
    the sample session is in unlimited-count mode, and its accepted reply,
    which makes [received] equal to [sent], does not return
    [FINAL_PACKS]; the loop is left waiting. *)
Lemma negative_count_keeps_waiting :
  count (Sample.probing initial_run_state) = -1 /\
  recv_ret (Sample.probing initial_run_state) Sample.reply 28
    Sample.from_peer Sample.t1 = 1 /\
  received (recv_state (Sample.probing initial_run_state) Sample.reply 28
              Sample.from_peer Sample.t1) =
  sent (recv_state (Sample.probing initial_run_state) Sample.reply 28
          Sample.from_peer Sample.t1) /\
  recv_ret (Sample.probing initial_run_state) Sample.reply 28
    Sample.from_peer Sample.t1 <> FINAL_PACKS /\
  event_loop (Sample.session initial_run_state) Sample.quiet_setup
    [Sample.socket_wake (RecvData Sample.reply Sample.from_peer)] = None.
Proof.
  vm_compute. repeat split; try reflexivity; discriminate.
Qed.

(** C4, as the code has it.  Every accepted response increments
    [received] by exactly one.  If it does not end the session
    ([recv_pack] returns 1), broadcast-only mode is off and the session is
    not yet unicasting, the destination link address becomes the sender
    hardware address of the frame and the unicasting flag is set.  If it
    ends the session ([FINAL_PACKS]), the destination and the flag are
    left as they were. *)
Theorem accepted_response_accounting (ctl : run_state) (buf : list byte)
    (len : Z) (FROM : sockaddr_ll) (ts : timespec) :
  accepted ctl buf len FROM ts ->
  INT_MIN <= received ctl < INT_MAX ->
  received (recv_state ctl buf len FROM ts) = received ctl + 1 /\
  (recv_ret ctl buf len FROM ts <> FINAL_PACKS ->
   broadcast_only ctl = false -> unicasting ctl = false ->
   dest_hwaddr (recv_state ctl buf len FROM ts) = ar_sha (decode buf) /\
   unicasting (recv_state ctl buf len FROM ts) = true) /\
  (recv_ret ctl buf len FROM ts = FINAL_PACKS ->
   he (recv_state ctl buf len FROM ts) = he ctl /\
   unicasting (recv_state ctl buf len FROM ts) = unicasting ctl).
Proof.
  intros A R. pose proof A as V. apply accepted_iff in V.
  destruct V as [(_ & _ & _ & _ & _ & Hln & _) _].
  unfold recv_state, recv_ret.
  rewrite (recv_pack_accepted _ _ _ _ _ A). unfold accept_result.
  cbn [fst snd]. split; [|split].
  - rewrite count_response_received. apply int_incr_in_range. exact R.
  - intros NF B _.
    destruct (count_response_continue ctl buf FROM NF B) as [D U].
    split; [|exact U]. rewrite D. cbn [decode ar_sha ar_hln] in *.
    rewrite Hln. reflexivity.
  - apply count_response_final.
Qed.

Lemma accepted_response_accounting_witness :
  received (recv_state (Sample.probing initial_run_state) Sample.reply 28
              Sample.from_peer Sample.t1) = 0 + 1 /\
  dest_hwaddr (recv_state (Sample.probing initial_run_state) Sample.reply 28
                 Sample.from_peer Sample.t1) = Sample.mac_peer /\
  unicasting (recv_state (Sample.probing initial_run_state) Sample.reply 28
                Sample.from_peer Sample.t1) = true.
Proof.
  assert (A : accepted (Sample.probing initial_run_state) Sample.reply 28
                Sample.from_peer Sample.t1)
    by (unfold accepted; vm_compute; discriminate).
  assert (R : INT_MIN <= received (Sample.probing initial_run_state) < INT_MAX)
    by (split; vm_compute; [discriminate | reflexivity]).
  destruct (accepted_response_accounting _ _ _ _ _ A R) as (H1 & H2 & _).
  split; [exact H1|].
  apply H2.
  - vm_compute. discriminate.
  - reflexivity.
  - reflexivity.
Defined.

(** C4, as stated, fails: in a quit-on-first-reply session that is
    neither broadcast-only nor unicasting, the accepted reply is counted
    but the destination stays the broadcast address, which is not the
    sender hardware address of the frame, and the unicasting flag stays
    clear. *)
Lemma final_response_keeps_destination :
  broadcast_only (Sample.probing (set_quit_on_reply true initial_run_state))
    = false /\
  unicasting (Sample.probing (set_quit_on_reply true initial_run_state))
    = false /\
  recv_ret (Sample.probing (set_quit_on_reply true initial_run_state))
    Sample.reply 28 Sample.from_peer Sample.t1 = FINAL_PACKS /\
  received (recv_state
              (Sample.probing (set_quit_on_reply true initial_run_state))
              Sample.reply 28 Sample.from_peer Sample.t1) = 1 /\
  ar_sha (decode Sample.reply) = Sample.mac_peer /\
  dest_hwaddr (recv_state
                 (Sample.probing (set_quit_on_reply true initial_run_state))
                 Sample.reply 28 Sample.from_peer Sample.t1)
    = Sample.mac_bcast /\
  Sample.mac_bcast <> Sample.mac_peer /\
  unicasting (recv_state
                (Sample.probing (set_quit_on_reply true initial_run_state))
                Sample.reply 28 Sample.from_peer Sample.t1) = false.
Proof.
  vm_compute. repeat split; try reflexivity; discriminate.
Qed.

(** ** [recv_pack]: the mode checks *)

(** C5. In duplicate address detection mode a structurally valid frame
    is accepted exactly when its sender protocol address is the tested
    address, its sender hardware address differs from the local one, and
    the configured source address is zero or equals the target protocol
    address of the frame; a frame whose sender hardware address is the
    local one is rejected. *)
Theorem dad_acceptance (ctl : run_state) (buf : list byte) (len : Z)
    (FROM : sockaddr_ll) (ts : timespec) :
  dad ctl = true ->
  structurally_valid ctl (decode buf) len FROM ->
  (accepted ctl buf len FROM ts <->
   ar_sip (decode buf) = gdst ctl /\
   ar_sha (decode buf) <> own_hwaddr ctl /\
   (gsrc ctl = 0 \/ ar_tip (decode buf) = gsrc ctl)) /\
  (ar_sha (decode buf) = own_hwaddr ctl ->
   recv_pack ctl buf len FROM ts = (0, ctl, "")).
Proof.
  intros D S.
  assert (I : accepted ctl buf len FROM ts <-> dad_valid ctl (decode buf)).
  { rewrite accepted_iff. unfold mode_valid. rewrite D. tauto. }
  split; [exact I|].
  intros Own. apply recv_pack_rejected. rewrite I.
  intros (_ & N & _). contradiction.
Qed.

(** ** [recv_pack]: rejected frames *)

(** C6. A frame that fails a structural or a mode check, in particular
    one whose hardware length is not that of the local interface, makes
    [recv_pack] return 0; and whenever [recv_pack] returns 0 the whole run
    state (the five counters, the destination link address and the
    unicasting flag among it) is unchanged and nothing is printed. *)
Theorem rejected_frame_changes_nothing (ctl : run_state) (buf : list byte)
    (len : Z) (FROM : sockaddr_ll) (ts : timespec) :
  (ar_hln (decode buf) <> sll_halen (me ctl) ->
   recv_pack ctl buf len FROM ts = (0, ctl, "")) /\
  (~ (structurally_valid ctl (decode buf) len FROM /\
      mode_valid ctl (decode buf)) ->
   recv_pack ctl buf len FROM ts = (0, ctl, "")) /\
  (recv_ret ctl buf len FROM ts = 0 ->
   recv_state ctl buf len FROM ts = ctl /\
   recv_out ctl buf len FROM ts = "").
Proof.
  assert (R : ~ (structurally_valid ctl (decode buf) len FROM /\
                 mode_valid ctl (decode buf)) ->
              recv_pack ctl buf len FROM ts = (0, ctl, "")).
  { intros N. apply recv_pack_rejected. rewrite accepted_iff. exact N. }
  split; [|split].
  - intros N. apply R. intros [(_ & _ & _ & _ & _ & Hln & _) _].
    contradiction.
  - exact R.
  - intros Z0. unfold recv_state, recv_out.
    rewrite recv_pack_rejected; [split; reflexivity|].
    unfold accepted. intros N. contradiction.
Qed.

Lemma rejected_frame_changes_nothing_witness :
  recv_pack (Sample.probing initial_run_state) Sample.reply_hln8 32
    Sample.from_peer Sample.t1
  = (0, Sample.probing initial_run_state, "") /\
  recv_state (Sample.session (set_dad true initial_run_state))
    Sample.reply 28 (Sample.ll 3 Sample.mac_peer) Sample.t1
  = Sample.session (set_dad true initial_run_state).
Proof.
  split.
  - apply (proj1 (rejected_frame_changes_nothing _ _ _ _ _)).
    vm_compute. discriminate.
  - apply (proj2 (proj2 (rejected_frame_changes_nothing _ _ _ _ _))).
    vm_compute. reflexivity.
Defined.

Lemma sample_structurally_valid (base : run_state) :
  structurally_valid (Sample.session base) (decode Sample.reply) 28
    Sample.from_peer.
Proof.
  unfold structurally_valid. vm_compute.
  repeat split; auto; discriminate.
Qed.

Lemma dad_acceptance_witness :
  accepted (Sample.session (set_dad true initial_run_state)) Sample.reply 28
    Sample.from_peer Sample.t1.
Proof.
  apply (proj1 (dad_acceptance
                  (Sample.session (set_dad true initial_run_state))
                  Sample.reply 28 Sample.from_peer Sample.t1 eq_refl
                  (sample_structurally_valid _))).
  vm_compute. repeat split; auto; discriminate.
Defined.

(** ** [recv_pack] and the summary of [finish] *)

(** C10. With a timeout configured, an accepted frame that makes
    [received] equal to the configured count makes [recv_pack] return
    [FINAL_PACKS] before [brd_recv] and [req_recv] are touched: the frame
    is counted in [received] and left out of the breakdown that [finish]
    prints. *)
Theorem timeout_final_skips_breakdown (ctl : run_state) (buf : list byte)
    (len : Z) (FROM : sockaddr_ll) (ts : timespec) :
  timeout ctl <> 0 ->
  accepted ctl buf len FROM ts ->
  received (recv_state ctl buf len FROM ts) = count ctl ->
  recv_ret ctl buf len FROM ts = FINAL_PACKS /\
  received (recv_state ctl buf len FROM ts) = int_incr (received ctl) /\
  brd_recv (recv_state ctl buf len FROM ts) = brd_recv ctl /\
  req_recv (recv_state ctl buf len FROM ts) = req_recv ctl /\
  finish_report (recv_state ctl buf len FROM ts) =
    "Sent " +++ fmt_d (sent ctl) +++ " probes (" +++
    fmt_d (brd_sent ctl) +++ " broadcast(s))" +++ nl +++
    "Received " +++ fmt_d (int_incr (received ctl)) +++ " response(s)" +++
    breakdown ctl +++ nl.
Proof.
  intros T A. unfold recv_state, recv_ret.
  rewrite (recv_pack_accepted _ _ _ _ _ A). unfold accept_result.
  cbn [fst snd]. rewrite count_response_received. intros C.
  unfold count_response. fields.
  apply Z.eqb_neq in T. rewrite T. apply Z.eqb_eq in C. rewrite C.
  cbn [negb andb fst snd]. fields. repeat split; reflexivity.
Qed.

Lemma timeout_final_skips_breakdown_witness :
  recv_ret (Sample.probing (set_timeout 1 (set_count 1 initial_run_state)))
    Sample.request 28 Sample.from_peer_bcast Sample.t1 = FINAL_PACKS /\
  snd (finish (recv_state
                 (Sample.probing
                    (set_timeout 1 (set_count 1 initial_run_state)))
                 Sample.request 28 Sample.from_peer_bcast Sample.t1)) =
    "Sent 1 probes (1 broadcast(s))" +++ nl +++
    "Received 1 response(s)" +++ nl.
Proof.
  assert (T : timeout (Sample.probing
                         (set_timeout 1 (set_count 1 initial_run_state)))
              <> 0) by (vm_compute; discriminate).
  assert (A : accepted (Sample.probing
                          (set_timeout 1 (set_count 1 initial_run_state)))
                Sample.request 28 Sample.from_peer_bcast Sample.t1)
    by (unfold accepted; vm_compute; discriminate).
  destruct (timeout_final_skips_breakdown _ _ _ _ _ T A eq_refl)
    as (R & _ & _ & _ & F).
  split; [exact R|].
  unfold finish. cbn [snd]. 
  change (quiet _) with false. cbn [negb]. 
  rewrite F. vm_compute. reflexivity.
Defined.

(** ** What [send_pack] and [recv_pack] leave alone *)

(** [send_pack] writes [last], [sent] and [brd_sent] only. *)
Lemma send_pack_frame (ctl : run_state) (now : timespec) (err : Z) :
  let ctl' := snd (fst (send_pack ctl now err)) in
  me ctl' = me ctl /\ he ctl' = he ctl /\ unicasting ctl' = unicasting ctl /\
  received ctl' = received ctl /\ brd_recv ctl' = brd_recv ctl /\
  req_recv ctl' = req_recv ctl /\ count ctl' = count ctl /\
  timeout ctl' = timeout ctl /\ quit_on_reply ctl' = quit_on_reply ctl /\
  dad ctl' = dad ctl /\ broadcast_only ctl' = broadcast_only ctl /\
  gsrc ctl' = gsrc ctl /\ gdst ctl' = gdst ctl.
Proof.
  unfold send_pack.
  repeat match goal with
    | |- context [if ?c then _ else _] => destruct c
    end; cbn [fst snd]; fields; repeat split.
Qed.

Lemma recv_state_quit_on_reply (ctl : run_state) (buf : list byte) (len : Z)
    (FROM : sockaddr_ll) (ts : timespec) :
  quit_on_reply (recv_state ctl buf len FROM ts) = quit_on_reply ctl.
Proof.
  unfold recv_state.
  destruct (recv_pack_cases ctl buf len FROM ts) as [(_ & _ & E)|(_ & E)];
    rewrite E; [|reflexivity].
  unfold accept_result. cbn [fst snd].
  apply (count_response_config ctl buf FROM).
Qed.

(** In a quit-on-first-reply session [recv_pack] never writes the
    destination or the unicasting flag, and every accepted frame ends the
    session. *)
Lemma quit_on_reply_recv (ctl : run_state) (buf : list byte) (len : Z)
    (FROM : sockaddr_ll) (ts : timespec) :
  quit_on_reply ctl = true ->
  (accepted ctl buf len FROM ts ->
   recv_ret ctl buf len FROM ts = FINAL_PACKS) /\
  he (recv_state ctl buf len FROM ts) = he ctl /\
  unicasting (recv_state ctl buf len FROM ts) = unicasting ctl.
Proof.
  intros Q. unfold recv_ret, recv_state, accepted, recv_ret.
  destruct (recv_pack_cases ctl buf len FROM ts) as [(_ & _ & E)|(_ & E)];
    rewrite E; [|cbn [fst snd]; intuition congruence].
  unfold accept_result. cbn [fst snd].
  assert (F : fst (count_response ctl buf FROM) = FINAL_PACKS).
  { unfold count_response. fields.
    destruct (negb (timeout ctl =? 0) && _); [reflexivity|].
    destruct (negb (sll_pkttype FROM =? PACKET_HOST));
      destruct (get_be16 buf 6 =? ARPOP_REQUEST); fields; rewrite Q;
      reflexivity. }
  split; [intros _; exact F|]. apply count_response_final. exact F.
Qed.

Lemma handle_wake_quit_on_reply (w : wake) (l : loop_state) :
  quit_on_reply (loop_ctl l) = true ->
  quit_on_reply (loop_ctl (handle_wake w l)) = true /\
  he (loop_ctl (handle_wake w l)) = he (loop_ctl l) /\
  unicasting (loop_ctl (handle_wake w l)) = unicasting (loop_ctl l).
Proof.
  intros Q. unfold handle_wake.
  destruct (poll_ret w <=? 0).
  { destruct (poll_errno w =? EAGAIN); cbn; auto. }
  set (l1 := if negb (sig_revents w =? 0) then on_signal w l else l).
  assert (E1 : loop_ctl l1 = loop_ctl l).
  { unfold l1, on_signal.
    repeat match goal with
      | |- context [if ?c then _ else _] => destruct c
      end; reflexivity. }
  set (l2 := if negb (tmr_revents w =? 0) then on_timer w l1 else l1).
  assert (E2 : quit_on_reply (loop_ctl l2) = true /\
               he (loop_ctl l2) = he (loop_ctl l) /\
               unicasting (loop_ctl l2) = unicasting (loop_ctl l)).
  { rewrite <- E1 in *. unfold l2, on_timer.
    pose proof (send_pack_frame (loop_ctl l1) (tmr_now w) (tmr_sendto w))
      as S. cbv zeta in S.
    destruct (send_pack (loop_ctl l1) (tmr_now w) (tmr_sendto w))
      as [[e c] b]. cbn [fst snd] in S.
    destruct S as (_ & Sh & Su & _ & _ & _ & _ & _ & Sq & _).
    repeat match goal with
      | |- context [if ?c then _ else _] => destruct c
      end; cbn [loop_ctl]; rewrite ?Sh, ?Su, ?Sq; auto. }
  destruct E2 as (Q2 & H2 & U2).
  destruct (negb (sock_revents w =? 0)); [|auto].
  unfold on_socket. destruct (sock_recv w) as [errno|data from].
  { cbn [loop_ctl]. auto. }
  set (buf := memcpy (packet l2) (firstn sizeof_packet data)).
  set (len := Z.of_nat (length (firstn sizeof_packet data))).
  pose proof (quit_on_reply_recv (loop_ctl l2) buf len from (sock_ts w) Q2)
    as (_ & Rh & Ru).
  pose proof (recv_state_quit_on_reply (loop_ctl l2) buf len from (sock_ts w))
    as Rq.
  unfold recv_state in *.
  destruct (recv_pack (loop_ctl l2) buf len from (sock_ts w)) as [[r c] o].
  cbn [fst snd loop_ctl] in *. rewrite Rh, Ru, Rq. auto.
Qed.

(** ** The option switch *)

Lemma parse_options_dad (version : string) (opts : list option_char)
    (ctl0 ctl : run_state) :
  (dad ctl0 = true -> quit_on_reply ctl0 = true) ->
  parse_options version opts ctl0 = Return ctl ->
  dad ctl = true -> quit_on_reply ctl = true.
Proof.
  revert ctl0. induction opts as [|ch rest IH]; intros ctl0 I P.
  - cbn in P. injection P as <-. exact I.
  - cbn [parse_options] in P.
    destruct (option_switch version ch ctl0) as [st out|ctl1] eqn:E;
      [discriminate|].
    apply (IH ctl1); [|exact P].
    destruct ch; cbn in E; try discriminate; injection E as <-; fields;
      auto.
Qed.

(** C9. Duplicate address detection mode sets the quit-on-first-reply
    flag; with that flag set [recv_pack] ends the session on every
    accepted frame without writing the destination link address or the
    unicasting flag, and they keep their initial values through the whole
    of the event loop. *)
Theorem quit_on_reply_never_unicasts :
  (forall version opts ctl,
     parse_options version opts initial_run_state = Return ctl ->
     dad ctl = true -> quit_on_reply ctl = true) /\
  (forall ctl buf len FROM ts,
     quit_on_reply ctl = true ->
     (accepted ctl buf len FROM ts ->
      recv_ret ctl buf len FROM ts = FINAL_PACKS) /\
     he (recv_state ctl buf len FROM ts) = he ctl /\
     unicasting (recv_state ctl buf len FROM ts) = unicasting ctl) /\
  (forall ws l l' rest,
     quit_on_reply (loop_ctl l) = true ->
     run_loop ws l = Some (l', rest) ->
     he (loop_ctl l') = he (loop_ctl l) /\
     unicasting (loop_ctl l') = unicasting (loop_ctl l)).
Proof.
  split; [|split].
  - intros version opts ctl. apply parse_options_dad. discriminate.
  - exact quit_on_reply_recv.
  - induction ws as [|w ws IH]; intros l l' rest Q R; cbn [run_loop] in R.
    + destruct (exit_loop l); [|discriminate]. injection R as <- _. auto.
    + destruct (exit_loop l). { injection R as <- _. auto. }
      destruct (handle_wake_quit_on_reply w l Q) as (Q1 & H1 & U1).
      destruct (IH _ _ _ Q1 R) as [H2 U2]. split; congruence.
Qed.

Lemma quit_on_reply_never_unicasts_witness :
  quit_on_reply (set_quit_on_reply true (set_dad true initial_run_state))
    = true /\
  he (recv_state (Sample.probing (set_quit_on_reply true initial_run_state))
        Sample.reply 28 Sample.from_peer Sample.t1)
    = he (Sample.probing (set_quit_on_reply true initial_run_state)).
Proof.
  split.
  - apply (proj1 quit_on_reply_never_unicasts "" [Opt_D]); reflexivity.
  - apply (proj1 (proj2 quit_on_reply_never_unicasts)). reflexivity.
Defined.

(** ** The event loop *)

Lemma on_signal_rc (w : wake) (l : loop_state) : rc (on_signal w l) = rc l.
Proof.
  unfold on_signal.
  repeat match goal with
    | |- context [if ?c then _ else _] => destruct c
    end; reflexivity.
Qed.

Lemma on_timer_rc (w : wake) (l : loop_state) : rc (on_timer w l) = rc l.
Proof.
  unfold on_timer.
  destruct (send_pack (loop_ctl l) (tmr_now w) (tmr_sendto w)) as [[e c] b].
  repeat match goal with
    | |- context [if ?c then _ else _] => destruct c
    end; reflexivity.
Qed.

(** One wake sets [rc] to 2 exactly when its [recvfrom] fails with
    [ENETDOWN], and leaves it alone otherwise. *)
Lemma handle_wake_rc (w : wake) (l : loop_state) :
  rc (handle_wake w l) = if netdown_wake w then 2 else rc l.
Proof.
  unfold handle_wake, netdown_wake.
  destruct (Z.leb_spec (poll_ret w) 0) as [P|P].
  { replace (0 <? poll_ret w) with false by (symmetry; apply Z.ltb_ge; lia).
    destruct (poll_errno w =? EAGAIN); reflexivity. }
  replace (0 <? poll_ret w) with true by (symmetry; apply Z.ltb_lt; lia).
  cbn [andb].
  set (l1 := if negb (sig_revents w =? 0) then on_signal w l else l).
  assert (E1 : rc l1 = rc l)
    by (unfold l1; destruct (negb _); [apply on_signal_rc | reflexivity]).
  set (l2 := if negb (tmr_revents w =? 0) then on_timer w l1 else l1).
  assert (E2 : rc l2 = rc l).
  { unfold l2. destruct (negb (tmr_revents w =? 0)); [|exact E1].
    rewrite on_timer_rc. exact E1. }
  destruct (negb (sock_revents w =? 0)); [|exact E2].
  cbn [andb]. unfold on_socket.
  destruct (sock_recv w) as [errno|data from].
  - cbn [rc]. rewrite E2. reflexivity.
  - destruct (recv_pack _ _ _ _ _) as [[r c] o]. cbn [rc]. exact E2.
Qed.

(** When the loop ends, the wakes it consumed are a prefix of those
    delivered, and [rc] is 2 exactly when one of them saw [ENETDOWN]. *)
Lemma run_loop_rc (ws : list wake) (l l' : loop_state) (rest : list wake) :
  run_loop ws l = Some (l', rest) ->
  exists consumed,
    ws = consumed ++ rest /\
    rc l' = if existsb netdown_wake consumed then 2 else rc l.
Proof.
  revert l. induction ws as [|w ws IH]; intros l R; cbn [run_loop] in R.
  - destruct (exit_loop l); [|discriminate]. injection R as <- <-.
    exists []. split; reflexivity.
  - destruct (exit_loop l).
    { injection R as <- <-. exists []. split; reflexivity. }
    destruct (IH _ R) as (consumed & -> & E).
    exists (w :: consumed). split; [reflexivity|].
    rewrite E, handle_wake_rc. cbn [existsb].
    destruct (netdown_wake w), (existsb netdown_wake consumed); reflexivity.
Qed.

Lemma finish_code_bit (ctl : run_state) :
  fst (finish ctl) = 0 \/ fst (finish ctl) = 1.
Proof.
  unfold finish, lnot.
  repeat match goal with
    | |- context [if ?c then _ else _] => destruct c
    end; cbn; auto.
Qed.

(** C2. Whenever the event loop returns after its set-up succeeded, the
    value is the base exit code of [finish] on the final run state,
    or-ed with 2 when one of the wakes consumed saw [recvfrom] fail with
    [ENETDOWN], and or-ed with 1 exactly when [brd_sent] equals
    [received] in the final run state, both being zero included. *)
Theorem event_loop_exit_status (ctl : run_state) (env : setup)
    (ws : list wake) (v : Z) (ctl' : run_state) (out : string)
    (rest : list wake) :
  setup_ok env = true ->
  event_loop ctl env ws = Some (v, ctl', out, rest) ->
  exists consumed,
    ws = consumed ++ rest /\
    v = Z.lor
          (Z.lor (if existsb netdown_wake consumed then 2 else 0)
                 (fst (finish ctl')))
          (if brd_sent ctl' =? received ctl' then 1 else 0).
Proof.
  unfold setup_ok, event_loop. intros S E. b2p.
  repeat match goal with H : _ = true |- _ => rewrite H in E; clear H end.
  cbn [negb] in E.
  destruct (send_pack ctl (first_now env) (first_sendto env)) as [[e c] b].
  destruct (run_loop ws _) as [[l r]|] eqn:R; [|discriminate].
  injection E as <- <- _ <-.
  destruct (run_loop_rc _ _ _ _ R) as (consumed & -> & Rc).
  exists consumed. split; [reflexivity|].
  rewrite Rc. cbn [rc]. f_equal.
  destruct (brd_sent (loop_ctl l) =? received (loop_ctl l)); reflexivity.
Qed.

Lemma event_loop_exit_status_witness :
  exists consumed,
    [Sample.socket_wake (RecvError ENETDOWN); Sample.signal_wake SIGINT;
     Sample.signal_wake SIGTERM]
    = consumed ++ [Sample.signal_wake SIGTERM] /\
    3 = Z.lor
          (Z.lor (if existsb netdown_wake consumed then 2 else 0)
                 (fst (finish (Sample.probing initial_run_state))))
          (if brd_sent (Sample.probing initial_run_state) =?
              received (Sample.probing initial_run_state)
           then 1 else 0).
Proof.
  apply (event_loop_exit_status (Sample.session initial_run_state)
           Sample.quiet_setup _ 3 (Sample.probing initial_run_state)
           ("Sent 1 probes (1 broadcast(s))" +++ nl +++
            "Received 0 response(s)" +++ nl)).
  - reflexivity.
  - vm_compute. reflexivity.
Defined.

(** A set-up call that fails makes [event_loop] return 1 at once; with
    the counters as [main] passes them, all zero, that is also what the
    rule of the exit status gives. *)
Lemma event_loop_setup_failure (ctl : run_state) (env : setup)
    (ws : list wake) :
  setup_ok env = false ->
  event_loop ctl env ws = Some (1, ctl, "", ws) /\
  (brd_sent ctl = received ctl ->
   1 = Z.lor (Z.lor 0 (fst (finish ctl)))
         (if brd_sent ctl =? received ctl then 1 else 0)).
Proof.
  unfold setup_ok, event_loop. intros S. split.
  - destruct (sigprocmask_ok env), (signalfd_ok env),
      (timerfd_create_ok env), (clock_gettime_ok env),
      (timerfd_settime_ok env); cbn in S |- *; try reflexivity;
      discriminate S.
  - intros ->. rewrite Z.eqb_refl.
    destruct (finish_code_bit ctl) as [-> | ->]; reflexivity.
Qed.

Lemma run_loop_exited (ws : list wake) (l : loop_state) :
  exit_loop l = true -> run_loop ws l = Some (l, ws).
Proof. intros E. destruct ws; cbn [run_loop]; rewrite E; reflexivity. Qed.

(** A wake that delivers a termination signal ends the loop. *)
Lemma termination_wake_exits (w : wake) (l : loop_state) :
  termination_wake w = true -> exit_loop (handle_wake w l) = true.
Proof.
  unfold termination_wake. intros T.
  apply andb_true_iff in T. destruct T as [T Sg].
  apply andb_true_iff in T. destruct T as [T Rd].
  apply andb_true_iff in T. destruct T as [P Rv].
  assert (E1 : exit_loop (on_signal w l) = true).
  { unfold on_signal. rewrite Rd, Sg. reflexivity. }
  unfold handle_wake.
  replace (poll_ret w <=? 0) with false
    by (symmetry; apply Z.leb_gt; apply Z.ltb_lt; exact P).
  rewrite Rv.
  assert (E2 : exit_loop
                 (if negb (tmr_revents w =? 0)
                  then on_timer w (on_signal w l) else on_signal w l) = true).
  { destruct (negb (tmr_revents w =? 0)); [|exact E1].
    unfold on_timer. destruct (send_pack _ _ _) as [[e c] b].
    repeat match goal with
      | |- context [if ?c then _ else _] => destruct c
      end; cbn [exit_loop]; auto. }
  destruct (negb (sock_revents w =? 0)); [|exact E2].
  unfold on_socket. destruct (sock_recv w) as [errno|data from].
  - exact E2.
  - destruct (recv_pack _ _ _ _ _) as [[r c] o]. cbn [exit_loop].
    destruct (r =? FINAL_PACKS); [reflexivity | exact E2].
Qed.

(** The loop returns on every sequence of wakes that contains a
    termination signal. *)
Lemma run_loop_returns (ws1 : list wake) (w : wake) (ws2 : list wake)
    (l : loop_state) :
  termination_wake w = true ->
  exists l' rest, run_loop (ws1 ++ w :: ws2) l = Some (l', rest).
Proof.
  intros T. revert l. induction ws1 as [|w1 ws1 IH]; intros l;
    cbn [app run_loop]; destruct (exit_loop l); eauto.
  rewrite run_loop_exited by (apply termination_wake_exits; exact T). eauto.
Qed.

Lemma event_loop_returns (ctl : run_state) (env : setup)
    (ws1 : list wake) (w : wake) (ws2 : list wake) :
  termination_wake w = true ->
  exists r, event_loop ctl env (ws1 ++ w :: ws2) = Some r.
Proof.
  intros T. unfold event_loop.
  repeat match goal with
    | |- context [if ?c then _ else _] => destruct c; [eauto|]
    end.
  destruct (send_pack _ _ _) as [[e c] b].
  destruct (run_loop_returns ws1 w ws2
              {| exit_loop := false; rc := 0; total_expires := 1;
                 packet := packet0 env; loop_ctl := c; stdout := "" |} T)
    as (l' & rest & ->). eauto.
Qed.

(** ** A reply that answers every probe, with the probe count 0 *)

(** When the socket is ready, the iteration ends with the socket handler,
    run on the state the signal and the timer handlers left. *)
Lemma handle_wake_socket (w : wake) (l : loop_state) :
  0 < poll_ret w -> sock_revents w <> 0 ->
  handle_wake w l = on_socket w (before_socket w l).
Proof.
  intros P K. unfold handle_wake, before_socket.
  replace (poll_ret w <=? 0) with false by (symmetry; apply Z.leb_gt; lia).
  apply Z.eqb_neq in K. rewrite K. reflexivity.
Qed.

(** The socket handler on a datagram: the run state is that of
    [recv_pack], and [FINAL_PACKS] sets [exit_loop]. *)
Lemma on_socket_final (w : wake) (l : loop_state) (data : list byte)
    (from : sockaddr_ll) :
  sock_recv w = RecvData data from ->
  recv_ret (loop_ctl l) (packet_after l data) (length_received data) from
    (sock_ts w) = FINAL_PACKS ->
  exit_loop (on_socket w l) = true /\
  loop_ctl (on_socket w l) =
    recv_state (loop_ctl l) (packet_after l data) (length_received data)
      from (sock_ts w).
Proof.
  intros D F. unfold on_socket. rewrite D.
  unfold recv_ret, recv_state, packet_after, length_received in *.
  destruct (recv_pack _ _ _ _ _) as [[r c] o]. cbn [fst snd] in *.
  subst r. cbn [exit_loop loop_ctl]. auto.
Qed.

(** [count == 0] with every probe answered returns [FINAL_PACKS]. *)
Lemma recv_pack_count_zero (ctl : run_state) (buf : list byte)
    (len : Z) (FROM : sockaddr_ll) (ts : timespec) :
  count ctl = 0 ->
  accepted ctl buf len FROM ts ->
  received (recv_state ctl buf len FROM ts) =
    sent (recv_state ctl buf len FROM ts) ->
  recv_ret ctl buf len FROM ts = FINAL_PACKS.
Proof.
  intros C A. unfold recv_state, recv_ret.
  rewrite (recv_pack_accepted _ _ _ _ _ A). unfold accept_result.
  cbn [fst snd]. unfold count_response.
  repeat match goal with
    | |- context [if ?c then _ else _] => destruct c eqn:?
    end; cbn in *; intros; try reflexivity; b2p; lia.
Qed.

(** C3, as the code has it.  With the probe count equal to 0, an accepted
    response that makes [received] equal to [sent] makes [recv_pack]
    return the final termination signal; and the loop, whenever its socket
    handler makes that call, ends with the wake that delivered the reply:
    no later wake, so no further timer tick, is consumed. *)
Theorem count_zero_all_answered_final (ctl : run_state) (buf : list byte)
    (len : Z) (FROM : sockaddr_ll) (ts : timespec) :
  count ctl = 0 ->
  accepted ctl buf len FROM ts ->
  received (recv_state ctl buf len FROM ts) =
    sent (recv_state ctl buf len FROM ts) ->
  recv_ret ctl buf len FROM ts = FINAL_PACKS /\
  forall (w : wake) (ws : list wake) (l : loop_state) (data : list byte),
    exit_loop l = false ->
    0 < poll_ret w -> sock_revents w <> 0 ->
    sock_recv w = RecvData data FROM -> sock_ts w = ts ->
    loop_ctl (before_socket w l) = ctl ->
    packet_after (before_socket w l) data = buf ->
    length_received data = len ->
    run_loop (w :: ws) l = Some (handle_wake w l, ws) /\
    exit_loop (handle_wake w l) = true /\
    loop_ctl (handle_wake w l) = recv_state ctl buf len FROM ts.
Proof.
  intros C A R.
  pose proof (recv_pack_count_zero ctl buf len FROM ts C A R) as F.
  split; [exact F|].
  intros w ws l data X P K D T Hc Hb Hl. subst ctl buf len ts.
  destruct (on_socket_final w (before_socket w l) data FROM D F) as [E S'].
  cbn [run_loop]. rewrite X, (handle_wake_socket w l P K).
  split; [|split; assumption].
  apply run_loop_exited. exact E.
Qed.

Lemma count_zero_all_answered_final_witness :
  recv_ret (Sample.probing (set_count 0 initial_run_state)) Sample.reply 28
    Sample.from_peer Sample.t1 = FINAL_PACKS /\
  run_loop
    [Sample.socket_wake (RecvData Sample.reply Sample.from_peer);
     SampleNet.timer_wake 1]
    {| exit_loop := false; rc := 0; total_expires := 1; packet := [];
       loop_ctl := Sample.probing (set_count 0 initial_run_state);
       stdout := "" |}
  = Some (handle_wake
            (Sample.socket_wake (RecvData Sample.reply Sample.from_peer))
            {| exit_loop := false; rc := 0; total_expires := 1; packet := [];
               loop_ctl := Sample.probing (set_count 0 initial_run_state);
               stdout := "" |},
          [SampleNet.timer_wake 1]).
Proof.
  refine (match count_zero_all_answered_final
                  (Sample.probing (set_count 0 initial_run_state))
                  Sample.reply 28 Sample.from_peer Sample.t1 eq_refl _ _
          with
          | conj F L =>
              conj F
                (proj1 (L (Sample.socket_wake
                             (RecvData Sample.reply Sample.from_peer))
                          [SampleNet.timer_wake 1]
                          {| exit_loop := false; rc := 0; total_expires := 1;
                             packet := [];
                             loop_ctl :=
                               Sample.probing
                                 (set_count 0 initial_run_state);
                             stdout := "" |}
                          Sample.reply eq_refl _ _ eq_refl eq_refl eq_refl
                          _ eq_refl))
          end).
  - unfold accepted. vm_compute. discriminate.
  - vm_compute. reflexivity.
  - reflexivity.
  - discriminate.
  - vm_compute. reflexivity.
Defined.

(** ** The interface flag check *)

(** C8. With an interface name given, [check_ifflags] ends the process
    with status 2 when the interface is down, and, when it is up but
    has [IFF_NOARP] or [IFF_LOOPBACK] set, with status 0 in duplicate
    address detection mode and 2 otherwise.  Without a name the same
    failures make it return -1, and the address-list scan passes over the
    entry. *)
Theorem check_ifflags_failures (ctl : run_state) (ifflags : Z) :
  (forall n, name (device ctl) = Some n ->
     (Z.land ifflags IFF_UP = 0 ->
      exists out, check_ifflags ctl ifflags = Exit 2 out) /\
     (Z.land ifflags IFF_UP <> 0 ->
      Z.land ifflags (Z.lor IFF_NOARP IFF_LOOPBACK) <> 0 ->
      exists out,
        check_ifflags ctl ifflags = Exit (if dad ctl then 0 else 2) out)) /\
  (name (device ctl) = None ->
   Z.land ifflags IFF_UP = 0 \/
   Z.land ifflags (Z.lor IFF_NOARP IFF_LOOPBACK) <> 0 ->
   check_ifflags ctl ifflags = Return (-1) /\
   forall i rest k,
     ifa_flags i = ifflags ->
     scan_ifaddrs (i :: rest) k ctl = scan_ifaddrs rest k ctl).
Proof.
  split.
  - intros n N. unfold check_ifflags. rewrite N. split.
    + intros D. apply Z.eqb_eq in D. rewrite D. eauto.
    + intros U A. apply Z.eqb_neq in U, A. rewrite U, A. cbn [negb]. eauto.
  - intros N F.
    assert (C : check_ifflags ctl ifflags = Return (-1)).
    { unfold check_ifflags. rewrite N.
      destruct (Z.eqb_spec (Z.land ifflags IFF_UP) 0); [reflexivity|].
      destruct (Z.eqb_spec (Z.land ifflags (Z.lor IFF_NOARP IFF_LOOPBACK)) 0);
        [|reflexivity].
      destruct F; contradiction. }
    split; [exact C|].
    intros i rest k <-. cbn [scan_ifaddrs].
    destruct (ifa_addr i) as [a|]; [|reflexivity].
    destruct (negb (sll_family a =? AF_PACKET)); [reflexivity|].
    destruct (name_differs ctl i); [reflexivity|].
    rewrite C. reflexivity.
Qed.

Lemma check_ifflags_failures_witness :
  (exists out,
     check_ifflags
       (set_dad true
          (set_device {| name := Some "lo"; ifindex := 0; ifa := None |}
             initial_run_state))
       (Z.lor IFF_UP IFF_LOOPBACK) = Exit 0 out) /\
  check_ifflags initial_run_state 0 = Return (-1).
Proof.
  split.
  - refine (proj2 (proj1 (check_ifflags_failures
              (set_dad true
                 (set_device {| name := Some "lo"; ifindex := 0; ifa := None |}
                    initial_run_state))
              (Z.lor IFF_UP IFF_LOOPBACK)) "lo" eq_refl) _ _);
      vm_compute; discriminate.
  - refine (proj1 (proj2 (check_ifflags_failures initial_run_state 0)
                     eq_refl _)).
    left. reflexivity.
Defined.

(** ** Encoding and decoding *)

(** A frame laid out field by field decodes to those fields. *)
Lemma decode_fields (hrd pro hl op sip tip : Z) (sha tha post : list byte) :
  0 <= hrd < 2 ^ 16 -> 0 <= pro < 2 ^ 16 -> 0 <= op < 2 ^ 16 ->
  0 <= hl < 256 -> 0 <= sip < 2 ^ 32 -> 0 <= tip < 2 ^ 32 ->
  length sha = Z.to_nat hl -> length tha = Z.to_nat hl ->
  decode (be16_bytes hrd ++ be16_bytes pro ++
          [byte_of_Z hl; byte_of_Z 4] ++ be16_bytes op ++
          sha ++ be32_bytes sip ++ tha ++ be32_bytes tip ++ post) =
  {| ar_hrd := hrd; ar_pro := pro; ar_hln := hl; ar_pln := 4; ar_op := op;
     ar_sha := sha; ar_sip := sip; ar_tha := tha; ar_tip := tip |}.
Proof.
  intros Hhrd Hpro Hop Hhl Hsip Htip Lsha Ltha.
  assert (Eh : Z.land hl 255 = hl).
  { change 255 with (Z.ones 8). rewrite Z.land_ones by lia.
    apply Z.mod_small. lia. }
  set (hdr := be16_bytes hrd ++ be16_bytes pro ++
              [byte_of_Z hl; byte_of_Z 4] ++ be16_bytes op).
  assert (Lh : length hdr = 8%nat) by reflexivity.
  set (buf := be16_bytes hrd ++ _).
  assert (U4 : get_u8 buf 4 = hl).
  { unfold get_u8, buf, be16_bytes. cbn [app nth].
    rewrite byte_to_of_Z. exact Eh. }
  unfold decode. rewrite U4. f_equal.
  - apply (get_be16_app [] _ hrd Hhrd).
  - apply (get_be16_app (be16_bytes hrd) _ pro Hpro).
  - apply (get_be16_app (be16_bytes hrd ++ be16_bytes pro ++
                         [byte_of_Z hl; byte_of_Z 4]) _ op Hop).
  - rewrite <- Lsha.
    apply (mem_read_app hdr sha (be32_bytes sip ++ tha ++ be32_bytes tip ++
                                 post)).
  - rewrite <- Lsha.
    replace buf with ((hdr ++ sha) ++ be32_bytes sip ++
                      (tha ++ be32_bytes tip ++ post))
      by (unfold buf, hdr; rewrite <- !app_assoc; reflexivity).
    replace (8 + length sha)%nat with (length (hdr ++ sha))
      by (rewrite length_app, Lh; reflexivity).
    apply get_be32_app. exact Hsip.
  - rewrite <- Ltha.
    replace buf with ((hdr ++ sha ++ be32_bytes sip) ++ tha ++
                      (be32_bytes tip ++ post))
      by (unfold buf, hdr; rewrite <- !app_assoc; reflexivity).
    replace (12 + length tha)%nat
      with (length (hdr ++ sha ++ be32_bytes sip))
      by (rewrite !length_app, Lh, Lsha, Ltha; cbn [length be32_bytes]; lia).
    apply mem_read_app.
  - replace buf with ((hdr ++ sha ++ be32_bytes sip ++ tha) ++
                      be32_bytes tip ++ post)
      by (unfold buf, hdr; rewrite <- !app_assoc; reflexivity).
    replace (12 + 2 * Z.to_nat hl)%nat
      with (length (hdr ++ sha ++ be32_bytes sip ++ tha))
      by (rewrite !length_app, Lh, Lsha, Ltha; cbn [length be32_bytes]; lia).
    apply get_be32_app. exact Htip.
Qed.

Lemma send_pack_length (ctl : run_state) (now : timespec) (err : Z) :
  Z.of_nat (length (snd (send_pack ctl now err))) =
  sizeof_arphdr + 2 * (4 + Z.of_nat (Z.to_nat (sll_halen (me ctl)))).
Proof.
  unfold send_pack. 
  match goal with
  | |- context [if err =? ?x then _ else _] => destruct (err =? x)
  end; cbn [snd];
  destruct (advert ctl);
  rewrite !length_app, !length_mem_read; cbn [length be16_bytes be32_bytes];
  unfold sizeof_arphdr; lia.
Qed.

(** The buffer [send_pack] hands to [sendto], whatever [sendto] returns. *)
Lemma send_pack_wire (ctl : run_state) (now : timespec) (err : Z) :
  snd (send_pack ctl now err) =
  be16_bytes (if sll_hatype (me ctl) =? ARPHRD_FDDI
              then ARPHRD_ETHER else sll_hatype (me ctl)) ++
  be16_bytes ETH_P_IP ++
  [byte_of_Z (sll_halen (me ctl)); byte_of_Z 4] ++
  be16_bytes (if advert ctl then ARPOP_REPLY else ARPOP_REQUEST) ++
  own_hwaddr ctl ++ be32_bytes (gsrc ctl) ++
  (if advert ctl then own_hwaddr ctl else dest_hwaddr ctl) ++
  be32_bytes (gdst ctl).
Proof.
  unfold send_pack, own_hwaddr, dest_hwaddr.
  match goal with
  | |- context [if err =? ?x then _ else _] => destruct (err =? x)
  end; reflexivity.
Qed.

(** Within the bounds the wire buffer is the buffer of [send_pack]. *)
Lemma wire_buffer_in_bounds (ctl : run_state) (now : timespec) (err : Z) :
  0 <= sll_halen (me ctl) <= SLL_ADDR_ROOM ->
  wire_buffer ctl now err = Some (snd (send_pack ctl now err)).
Proof.
  intros R. unfold wire_buffer, send_pack_in_bounds.
  replace (0 <=? sll_halen (me ctl)) with true
    by (symmetry; apply Z.leb_le; lia).
  replace (sll_halen (me ctl) <=? SLL_ADDR_ROOM) with true
    by (symmetry; apply Z.leb_le; lia).
  replace (sizeof_arphdr + 2 * (4 + sll_halen (me ctl)) <=? sizeof_buf)
    with true
    by (symmetry; apply Z.leb_le;
        unfold sizeof_arphdr, sizeof_buf, SLL_ADDR_ROOM in *; lia).
  reflexivity.
Qed.





(** * Further properties of the program *)

(** ** The address-list scan *)

Lemma check_ifflags_ok (ctl : run_state) (ifflags : Z) :
  flags_ok ifflags = true -> check_ifflags ctl ifflags = Return 0.
Proof.
  unfold flags_ok, check_ifflags. intros F. b2p. 
  apply Z.eqb_neq in H. rewrite H.
  apply Z.eqb_eq in H0. rewrite H0. reflexivity.
Qed.

Lemma check_ifflags_not_ok (ctl : run_state) (ifflags : Z) (r : Z) :
  flags_ok ifflags = false -> check_ifflags ctl ifflags = Return r ->
  r = -1.
Proof.
  unfold flags_ok, check_ifflags. intros F.
  destruct (Z.land ifflags IFF_UP =? 0).
  { destruct (name (device ctl)); intros E; [discriminate|].
    injection E as <-. reflexivity. }
  cbn [negb andb] in F. rewrite F. cbn [negb].
  destruct (name (device ctl)); intros E; [discriminate|].
  injection E as <-. reflexivity.
Qed.

Lemma candidate_set_device_ifa (ctl : run_state) (j i : ifaddrs) :
  candidate (set_device_ifa j ctl) i = candidate ctl i.
Proof. reflexivity. Qed.

(** One step of the scan: an entry that is no candidate is passed over
    (or ends the process), a candidate is recorded. *)
Lemma scan_ifaddrs_step (i : ifaddrs) (rest : list ifaddrs) (n : Z)
    (ctl : run_state) (r : Z * run_state) :
  scan_ifaddrs (i :: rest) n ctl = Return r ->
  if candidate ctl i then
    if negb (n =? 0) then r = (n + 1, set_device_ifa i ctl)
    else scan_ifaddrs rest (n + 1) (set_device_ifa i ctl) = Return r
  else scan_ifaddrs rest n ctl = Return r.
Proof.
  cbn [scan_ifaddrs]. unfold candidate.
  destruct (ifa_addr i) as [a|]; [|auto].
  destruct (sll_family a =? AF_PACKET); cbn [negb andb];
    [|destruct (ifa_broadaddr i); auto].
  destruct (name_differs ctl i); cbn [negb andb];
    [destruct (ifa_broadaddr i); auto|].
  destruct (flags_ok (ifa_flags i)) eqn:F; cbn [andb].
  - rewrite (check_ifflags_ok _ _ F).
    change (0 <? 0) with false. cbn iota.
    destruct (sll_halen a =? 0); cbn [negb];
      [destruct (ifa_broadaddr i); auto|].
    destruct (ifa_broadaddr i); [|auto].
    destruct (negb (n =? 0)); [|auto].
    intros E. injection E as <-. reflexivity.
  - destruct (check_ifflags ctl (ifa_flags i)) as [st out|v] eqn:C;
      [discriminate|].
    rewrite (check_ifflags_not_ok _ _ _ F C).
    change (-1 <? 0) with true. cbn iota.
    destruct (ifa_broadaddr i); auto.
Qed.

(** The scan started with one candidate already seen. *)
Lemma scan_ifaddrs_second (l : list ifaddrs) (ctl : run_state)
    (r : Z * run_state) :
  scan_ifaddrs l 1 ctl = Return r ->
  match filter (candidate ctl) l with
  | [] => r = (1, ctl)
  | j :: _ => r = (2, set_device_ifa j ctl)
  end.
Proof.
  induction l as [|i rest IH]; intros E.
  - cbn in E. injection E as <-. reflexivity.
  - apply scan_ifaddrs_step in E. cbn [filter].
    destruct (candidate ctl i); [exact E | exact (IH E)].
Qed.

(** The address-list scan counts the selectable entries up to two:
    with none the run state is untouched, with exactly one that entry is
    recorded as the device, and with more the scan stops at the second
    one with a count of 2. *)
Lemma scan_ifaddrs_counts (l : list ifaddrs) (ctl : run_state)
    (r : Z * run_state) :
  scan_ifaddrs l 0 ctl = Return r ->
  match filter (candidate ctl) l with
  | [] => r = (0, ctl)
  | [i] => r = (1, set_device_ifa i ctl)
  | _ :: j :: _ => r = (2, set_device_ifa j ctl)
  end.
Proof.
  induction l as [|i rest IH]; intros E.
  - cbn in E. injection E as <-. reflexivity.
  - apply scan_ifaddrs_step in E. cbn [filter].
    destruct (candidate ctl i); [|exact (IH E)].
    cbn in E. apply scan_ifaddrs_second in E.
    change (filter (candidate (set_device_ifa i ctl)) rest)
      with (filter (candidate ctl) rest) in E.
    destruct (filter (candidate ctl) rest); exact E.
Qed.

Lemma filter_singleton_In {A : Type} (f : A -> bool) (l : list A) (x : A) :
  filter f l = [x] -> In x l /\ f x = true.
Proof.
  intros E. apply filter_In. rewrite E. left. reflexivity.
Qed.

(** [find_device_by_ifaddrs] succeeds (returns 0) exactly when one
    single entry of the address list is selectable (link-layer family,
    name matching the hint, up, ARPable, non-zero hardware length, with a
    broadcast address) and [if_nametoindex] knows its name; the device
    recorded is then that entry, with its name and index.  With no
    selectable entry, or with two or more, it returns 1 and records no
    index. *)
Lemma find_device_by_ifaddrs_cases (ctl : run_state) (l : list ifaddrs)
    (if_nametoindex : option string -> Z) (r : Z) (ctl' : run_state) :
  ifa (device ctl) = None ->
  find_device_by_ifaddrs ctl (Some l) if_nametoindex = Return (r, ctl') ->
  (r = 0 <->
   exists i, filter (candidate ctl) l = [i] /\
             if_nametoindex (ifa_name i) <> 0) /\
  (r = 0 ->
   exists i, In i l /\ candidate ctl i = true /\
             device ctl' = {| name := ifa_name i;
                              ifindex := if_nametoindex (ifa_name i);
                              ifa := Some i |}) /\
  (filter (candidate ctl) l = [] \/
   (2 <= length (filter (candidate ctl) l))%nat ->
   r = 1 /\ ifindex (device ctl') = ifindex (device ctl)).
Proof.
  intros I0. unfold find_device_by_ifaddrs.
  destruct (scan_ifaddrs l 0 ctl) as [st out|[n ctl1]] eqn:S; [discriminate|].
  apply scan_ifaddrs_counts in S.
  destruct (filter (candidate ctl) l) as [|i [|j cs]] eqn:F.
  - (* no candidate *)
    injection S as -> ->. rewrite I0. intros E. injection E as <- <-.
    split; [|split].
    + split; [discriminate|]. intros (i & Hi & _). discriminate.
    + discriminate.
    + auto.
  - (* exactly one *)
    injection S as -> ->. cbn [set_device_ifa set_device device ifa].
    change (1 =? 1) with true. cbn iota.
    destruct (Z.eqb_spec (if_nametoindex (ifa_name i)) 0) as [Z0|NZ];
      intros E; injection E as <- <-.
    + split; [|split].
      * split; [discriminate|]. intros (i' & Hi & N). injection Hi as <-.
        contradiction.
      * discriminate.
      * intros [D|D]; [discriminate|]. cbn in D. lia.
    + split; [|split].
      * split; [|reflexivity]. intros _. exists i. auto.
      * intros _. exists i.
        destruct (filter_singleton_In _ _ _ F) as [Hin Hc]. auto.
      * intros [D|D]; [discriminate|]. cbn in D. lia.
  - (* two or more *)
    injection S as -> ->. cbn [set_device_ifa set_device device ifa].
    change (2 =? 1) with false. cbn iota.
    intros E; injection E as <- <-.
    split; [|split].
    + split; [discriminate|]. intros (i' & Hi & _). discriminate.
    + discriminate.
    + auto.
Qed.

(** X1. [find_device_by_ifaddrs] succeeds (returns 0) exactly when one
    single entry of the address list is selectable (link-layer family,
    name matching the hint, up, ARPable, non-zero hardware length, with a
    broadcast address) and [if_nametoindex] knows its name; the device
    recorded is then that entry, with its name and index.  With no
    selectable entry, or with two or more, it returns 1 and records no
    index. *)
Theorem find_device_by_ifaddrs_unique (ctl : run_state) (l : list ifaddrs)
    (if_nametoindex : option string -> Z) (r : Z) (ctl' : run_state) :
  ifa (device ctl) = None ->
  find_device_by_ifaddrs ctl (Some l) if_nametoindex = Return (r, ctl') ->
  (r = 0 <->
   exists i, filter (candidate ctl) l = [i] /\
             if_nametoindex (ifa_name i) <> 0) /\
  (r = 0 ->
   exists i, In i l /\ candidate ctl i = true /\
             device ctl' = {| name := ifa_name i;
                              ifindex := if_nametoindex (ifa_name i);
                              ifa := Some i |}) /\
  (filter (candidate ctl) l = [] \/
   (2 <= length (filter (candidate ctl) l))%nat ->
   r = 1 /\ ifindex (device ctl') = ifindex (device ctl)).
Proof. apply find_device_by_ifaddrs_cases. Qed.

Lemma find_device_by_ifaddrs_unique_witness :
  device (set_device {| name := Some "eth0"; ifindex := 2;
                        ifa := Some SampleNet.eth0 |} initial_run_state)
  = {| name := Some "eth0"; ifindex := 2; ifa := Some SampleNet.eth0 |} /\
  exists i, filter (candidate initial_run_state) SampleNet.interfaces = [i]
            /\ SampleNet.if_nametoindex (ifa_name i) <> 0.
Proof.
  split; [reflexivity|].
  apply (proj1 (proj1 (find_device_by_ifaddrs_unique initial_run_state
                         SampleNet.interfaces SampleNet.if_nametoindex 0
                         (set_device {| name := Some "eth0"; ifindex := 2;
                                        ifa := Some SampleNet.eth0 |}
                            initial_run_state)
                         eq_refl eq_refl))).
  reflexivity.
Defined.

(** ** The broadcast address of the device *)

(** X2. After [find_device_by_ifaddrs] has succeeded,
    [set_device_broadcast] never meets a null broadcast address: it
    returns, the destination link address is the broadcast address of the
    device found when that has the hardware length of the socket address
    and all-ones otherwise, and the rest of the run state is as it
    was. *)
Theorem set_device_broadcast_found (ctl0 : run_state) (l : list ifaddrs)
    (if_nametoindex : option string -> Z) (ctl : run_state) :
  ifa (device ctl0) = None ->
  find_device_by_ifaddrs ctl0 (Some l) if_nametoindex = Return (0, ctl) ->
  forall ctl1,
    device ctl1 = device ctl ->
    sll_halen (he ctl1) = sll_halen (me ctl1) ->
    exists i b ctl2,
      In i l /\ ifa_broadaddr i = Some b /\
      set_device_broadcast ctl1 = Some ctl2 /\
      dest_hwaddr ctl2 =
        (if sll_halen b =? sll_halen (he ctl1)
         then mem_read (sll_addr b) 0 (Z.to_nat (sll_halen (he ctl1)))
         else repeat xff (Z.to_nat (sll_halen (he ctl1)))) /\
      ctl2 = set_he (set_sll_addr (sll_addr (he ctl2)) (he ctl1)) ctl1.
Proof.
  intros I0 Fd ctl1 D H.
  destruct (find_device_by_ifaddrs_cases _ _ _ _ _ I0 Fd)
    as (_ & Found & _).
  destruct (Found eq_refl) as (i & Hin & Hc & Dev).
  unfold candidate in Hc.
  destruct (ifa_addr i) as [a|]; [|discriminate].
  destruct (ifa_broadaddr i) as [b|] eqn:B; [|discriminate].
  unfold set_device_broadcast, dest_hwaddr. rewrite D, Dev. cbn [ifa].
  rewrite B.
  destruct (sll_halen b =? sll_halen (he ctl1)) eqn:E;
    eexists i, b, _; (split; [exact Hin|]); (split; [exact B|]);
    (split; [reflexivity|]); rewrite E; fields; (split; [|reflexivity]);
    rewrite <- H.
  - set (src := mem_read (sll_addr b) 0 (Z.to_nat (sll_halen (he ctl1)))).
    replace (Z.to_nat (sll_halen (he ctl1))) with (length src)
      by apply length_mem_read.
    apply mem_read_memcpy.
  - set (src := repeat xff (Z.to_nat (sll_halen (he ctl1)))).
    replace (Z.to_nat (sll_halen (he ctl1))) with (length src)
      by apply repeat_length.
    apply mem_read_memcpy.
Qed.

Lemma set_device_broadcast_found_witness :
  exists i b ctl2,
    In i SampleNet.interfaces /\ ifa_broadaddr i = Some b /\
    set_device_broadcast (SampleNet.bound initial_run_state) = Some ctl2 /\
    dest_hwaddr ctl2 =
      (if sll_halen b =? sll_halen (he (SampleNet.bound initial_run_state))
       then mem_read (sll_addr b) 0
              (Z.to_nat (sll_halen (he (SampleNet.bound initial_run_state))))
       else repeat xff
              (Z.to_nat (sll_halen (he (SampleNet.bound initial_run_state)))))
    /\
    ctl2 = set_he (set_sll_addr (sll_addr (he ctl2))
                     (he (SampleNet.bound initial_run_state)))
             (SampleNet.bound initial_run_state).
Proof.
  apply (set_device_broadcast_found initial_run_state SampleNet.interfaces
           SampleNet.if_nametoindex
           (set_device {| name := Some "eth0"; ifindex := 2;
                          ifa := Some SampleNet.eth0 |} initial_run_state));
    reflexivity.
Defined.

(** ** Counters through the event loop *)

Lemma send_pack_counters (ctl : run_state) (now : timespec) (err : Z)
    (s r : Z) :
  counters_within ctl s r -> s < INT_MAX ->
  counters_within (snd (fst (send_pack ctl now err))) (s + 1) r.
Proof.
  unfold counters_within, send_pack, INT_MAX. intros C S.
  repeat match goal with
    | |- context [if ?c then _ else _] => destruct c
    end; cbn [fst snd]; fields;
    rewrite ?int_incr_in_range by (unfold INT_MIN, INT_MAX; lia); lia.
Qed.

Lemma count_response_counters (ctl : run_state) (buf : list byte)
    (FROM : sockaddr_ll) (s r : Z) :
  counters_within ctl s r -> r < INT_MAX ->
  counters_within (snd (count_response ctl buf FROM)) s (r + 1).
Proof.
  unfold counters_within, count_response, INT_MAX. intros C R.
  repeat match goal with
    | |- context [if ?c then _ else _] => destruct c
    end; cbn [fst snd]; fields;
    rewrite ?int_incr_in_range by (unfold INT_MIN, INT_MAX; lia); lia.
Qed.

Lemma recv_pack_counters (ctl : run_state) (buf : list byte) (len : Z)
    (FROM : sockaddr_ll) (ts : timespec) (s r : Z) :
  counters_within ctl s r -> r < INT_MAX ->
  counters_within (recv_state ctl buf len FROM ts) s (r + 1).
Proof.
  intros C R. unfold recv_state.
  destruct (recv_pack_cases ctl buf len FROM ts) as [(_ & _ & E)|(_ & E)];
    rewrite E; cbn [fst snd].
  - apply count_response_counters; assumption.
  - unfold counters_within in *. lia.
Qed.

(** The run state after one wake, in terms of the two operations. *)
Lemma handle_wake_ctl (w : wake) (l : loop_state) :
  exists c1,
    (c1 = loop_ctl l \/
     c1 = snd (fst (send_pack (loop_ctl l) (tmr_now w) (tmr_sendto w)))) /\
    (loop_ctl (handle_wake w l) = c1 \/
     exists buf len from,
       loop_ctl (handle_wake w l) = recv_state c1 buf len from (sock_ts w)).
Proof.
  unfold handle_wake.
  destruct (poll_ret w <=? 0).
  { exists (loop_ctl l). split; [auto|]. left.
    destruct (poll_errno w =? EAGAIN); reflexivity. }
  set (l1 := if negb (sig_revents w =? 0) then on_signal w l else l).
  assert (E1 : loop_ctl l1 = loop_ctl l).
  { unfold l1, on_signal.
    repeat match goal with
      | |- context [if ?c then _ else _] => destruct c
      end; reflexivity. }
  set (l2 := if negb (tmr_revents w =? 0) then on_timer w l1 else l1).
  exists (loop_ctl l2). split.
  - unfold l2, on_timer. rewrite E1.
    destruct (send_pack (loop_ctl l) (tmr_now w) (tmr_sendto w))
      as [[e c] b]. cbn [fst snd].
    repeat match goal with
      | |- context [if ?c then _ else _] => destruct c
      end; cbn [loop_ctl]; auto.
  - destruct (negb (sock_revents w =? 0)); [|auto].
    unfold on_socket. destruct (sock_recv w) as [errno|data from];
      [left; reflexivity|].
    right.
    exists (memcpy (packet l2) (firstn sizeof_packet data)),
      (Z.of_nat (length (firstn sizeof_packet data))), from.
    unfold recv_state.
    destruct (recv_pack _ _ _ _ _) as [[r c] o]. reflexivity.
Qed.

Lemma counters_within_weaken (ctl : run_state) (s r s' r' : Z) :
  counters_within ctl s r -> s <= s' -> r <= r' -> counters_within ctl s' r'.
Proof. unfold counters_within. lia. Qed.

Lemma handle_wake_counters (w : wake) (l : loop_state) (s r : Z) :
  counters_within (loop_ctl l) s r -> s < INT_MAX -> r < INT_MAX ->
  counters_within (loop_ctl (handle_wake w l)) (s + 1) (r + 1).
Proof.
  intros C S R.
  destruct (handle_wake_ctl w l) as (c1 & H1 & H2).
  assert (C1 : counters_within c1 (s + 1) r).
  { destruct H1 as [-> | ->].
    - apply (counters_within_weaken _ s r); [exact C | lia | lia].
    - apply send_pack_counters; assumption. }
  destruct H2 as [-> | (buf & len & from & ->)].
  - apply (counters_within_weaken _ (s + 1) r); [exact C1 | lia | lia].
  - apply recv_pack_counters; assumption.
Qed.

Lemma run_loop_counters (ws : list wake) (l l' : loop_state)
    (rest : list wake) (s r : Z) :
  run_loop ws l = Some (l', rest) ->
  counters_within (loop_ctl l) s r ->
  s + Z.of_nat (length ws) <= INT_MAX ->
  r + Z.of_nat (length ws) <= INT_MAX ->
  exists consumed,
    ws = consumed ++ rest /\
    counters_within (loop_ctl l') (s + Z.of_nat (length consumed))
      (r + Z.of_nat (length consumed)).
Proof.
  revert l s r. induction ws as [|w ws IH]; intros l s r R C Hs Hr;
    cbn [run_loop] in R.
  - destruct (exit_loop l); [|discriminate]. injection R as <- <-.
    exists []. split; [reflexivity|]. cbn [length]. 
    rewrite !Z.add_0_r. exact C.
  - destruct (exit_loop l).
    { injection R as <- <-. exists []. split; [reflexivity|].
      cbn [length]. rewrite !Z.add_0_r. exact C. }
    cbn [length] in Hs, Hr.
    destruct (IH _ (s + 1) (r + 1) R) as (consumed & -> & C').
    + apply handle_wake_counters; [exact C | lia | lia].
    + lia.
    + lia.
    + exists (w :: consumed). split; [reflexivity|]. cbn [length].
      replace (s + Z.of_nat (S (length consumed)))
        with (s + 1 + Z.of_nat (length consumed)) by lia.
      replace (r + Z.of_nat (S (length consumed)))
        with (r + 1 + Z.of_nat (length consumed)) by lia.
      exact C'.
Qed.

(** X3. Started with all counters at zero, as [main] does, and given
    fewer than [INT_MAX - 1] wakes, the event loop ends with ordered
    counters: [0 <= brd_sent <= sent], [0 <= brd_recv <= received] and
    [0 <= req_recv <= received], with at most one probe more than the
    wakes consumed and at most one response per wake. *)
Theorem event_loop_counters (ctl : run_state) (env : setup) (ws : list wake)
    (v : Z) (ctl' : run_state) (out : string) (rest : list wake) :
  counters_within ctl 0 0 ->
  Z.of_nat (length ws) < INT_MAX - 1 ->
  event_loop ctl env ws = Some (v, ctl', out, rest) ->
  exists consumed,
    ws = consumed ++ rest /\
    counters_within ctl' (1 + Z.of_nat (length consumed))
      (Z.of_nat (length consumed)).
Proof.
  intros C L. unfold event_loop.
  repeat match goal with
    | |- context [if negb ?c then _ else _] =>
        destruct c; cbn [negb];
        [|intros E; injection E as <- <- _ <-; exists [];
          split; [reflexivity | cbn [length];
          apply (counters_within_weaken _ 0 0); [exact C | lia | lia]]]
    end.
  pose proof (send_pack_counters ctl (first_now env) (first_sendto env) 0 0 C)
    as C1.
  destruct (send_pack ctl (first_now env) (first_sendto env)) as [[e c] b].
  cbn [fst snd] in C1.
  destruct (run_loop ws _) as [[l r]|] eqn:R; [|discriminate].
  intros E. injection E as <- <- _ <-.
  destruct (run_loop_counters _ _ _ _ (0 + 1) 0 R) as (consumed & -> & C').
  - apply C1. unfold INT_MAX. lia.
  - unfold INT_MAX in *. lia.
  - unfold INT_MAX in *. lia.
  - exists consumed. split; [reflexivity|]. exact C'.
Qed.

Lemma event_loop_counters_witness :
  exists consumed,
    [Sample.socket_wake (RecvData Sample.reply Sample.from_peer);
     Sample.signal_wake SIGINT]
    = consumed ++ [] /\
    counters_within
      (recv_state (Sample.probing initial_run_state) Sample.reply 28
         Sample.from_peer Sample.t1)
      (1 + Z.of_nat (length consumed)) (Z.of_nat (length consumed)).
Proof.
  apply (event_loop_counters (Sample.session initial_run_state)
           Sample.quiet_setup _ 1 _
           ("Unicast reply from 192.0.2.5 [02:00:00:00:00:02]  1.735ms" +++ nl
            +++ "Sent 1 probes (1 broadcast(s))" +++ nl +++
            "Received 1 response(s)" +++ nl)).
  - unfold counters_within. vm_compute. repeat split; discriminate.
  - vm_compute. reflexivity.
  - vm_compute. reflexivity.
Defined.

(** ** The probe budget *)

Lemma send_pack_sent (ctl : run_state) (now : timespec) (err : Z) :
  sent (snd (fst (send_pack ctl now err))) = sent ctl \/
  sent (snd (fst (send_pack ctl now err))) = int_incr (sent ctl).
Proof.
  unfold send_pack.
  repeat match goal with
    | |- context [if ?c then _ else _] => destruct c
    end; cbn [fst snd]; fields; auto.
Qed.

(** [recv_pack] writes [received], [brd_recv], [req_recv], [he] and
    [unicasting] only. *)
Lemma recv_state_config (ctl : run_state) (buf : list byte) (len : Z)
    (FROM : sockaddr_ll) (ts : timespec) :
  let ctl' := recv_state ctl buf len FROM ts in
  me ctl' = me ctl /\ gsrc ctl' = gsrc ctl /\ gdst ctl' = gdst ctl /\
  count ctl' = count ctl /\ timeout ctl' = timeout ctl /\
  sent ctl' = sent ctl /\ brd_sent ctl' = brd_sent ctl /\
  dad ctl' = dad ctl /\ quit_on_reply ctl' = quit_on_reply ctl /\
  broadcast_only ctl' = broadcast_only ctl /\ quiet ctl' = quiet ctl /\
  unsolicited ctl' = unsolicited ctl /\ advert ctl' = advert ctl /\
  last ctl' = last ctl.
Proof.
  unfold recv_state.
  destruct (recv_pack_cases ctl buf len FROM ts) as [(_ & _ & E)|(_ & E)];
    rewrite E; cbn [fst snd].
  - apply count_response_config.
  - cbv zeta. repeat split.
Qed.

Lemma u64_add_small (a b : Z) :
  0 <= a < 2 ^ 63 -> 0 <= b < 2 ^ 63 -> u64_add a b = a + b.
Proof. intros A B. unfold u64_add. apply Z.mod_small. lia. Qed.

Lemma on_timer_budget (w : wake) (l : loop_state) :
  timer_sane w ->
  0 < count (loop_ctl l) <= INT_MAX ->
  0 <= sent (loop_ctl l) <= total_expires l ->
  total_expires l <= count (loop_ctl l) ->
  0 <= sent (loop_ctl (on_timer w l)) <= total_expires (on_timer w l) /\
  sent (loop_ctl (on_timer w l)) <= count (loop_ctl l) /\
  count (loop_ctl (on_timer w l)) = count (loop_ctl l) /\
  (exit_loop (on_timer w l) = false ->
   total_expires (on_timer w l) <= count (loop_ctl l)).
Proof.
  unfold timer_sane, INT_MAX. intros T C S B. unfold on_timer.
  destruct (negb (tmr_read w =? sizeof_uint64)); [lia|].
  rewrite u64_add_small by lia.
  destruct ((0 <? count (loop_ctl l)) &&
            (count (loop_ctl l) <? total_expires l + tmr_exp w)) eqn:X.
  - cbn [loop_ctl total_expires exit_loop].
    repeat split; try lia; discriminate.
  - pose proof (send_pack_sent (loop_ctl l) (tmr_now w) (tmr_sendto w)) as Ss.
    pose proof (send_pack_frame (loop_ctl l) (tmr_now w) (tmr_sendto w))
      as F. cbv zeta in F.
    destruct (send_pack (loop_ctl l) (tmr_now w) (tmr_sendto w))
      as [[e c] b]. cbn [fst snd] in *.
    destruct F as (_ & _ & _ & _ & _ & _ & Fc & _).
    cbn [loop_ctl total_expires exit_loop].
    apply andb_false_iff in X.
    assert (Le : total_expires l + tmr_exp w <= count (loop_ctl l)).
    { destruct X as [X|X]; b2p; lia. }
    rewrite int_incr_in_range in Ss by (unfold INT_MIN, INT_MAX; lia).
    repeat split; try lia.
Qed.

Lemma handle_wake_budget (w : wake) (l : loop_state) :
  timer_sane w ->
  0 < count (loop_ctl l) <= INT_MAX ->
  exit_loop l = false ->
  within_budget l ->
  within_budget (handle_wake w l) /\
  count (loop_ctl (handle_wake w l)) = count (loop_ctl l).
Proof.
  unfold within_budget. intros T C X (S & Sc & B).
  specialize (B X). unfold handle_wake.
  destruct (poll_ret w <=? 0).
  { destruct (poll_errno w =? EAGAIN);
      cbn [loop_ctl total_expires exit_loop]; repeat split; auto; try lia;
      discriminate. }
  set (l1 := if negb (sig_revents w =? 0) then on_signal w l else l).
  assert (E1 : loop_ctl l1 = loop_ctl l /\ total_expires l1 = total_expires l).
  { unfold l1, on_signal.
    repeat match goal with
      | |- context [if ?c then _ else _] => destruct c
      end; split; reflexivity. }
  destruct E1 as [E1 E1'].
  set (l2 := if negb (tmr_revents w =? 0) then on_timer w l1 else l1).
  assert (K2 : 0 <= sent (loop_ctl l2) <= total_expires l2 /\
               sent (loop_ctl l2) <= count (loop_ctl l) /\
               count (loop_ctl l2) = count (loop_ctl l) /\
               (exit_loop l2 = false ->
                total_expires l2 <= count (loop_ctl l))).
  { unfold l2. destruct (negb (tmr_revents w =? 0)).
    - rewrite <- E1. apply on_timer_budget; rewrite ?E1, ?E1'; auto.
    - rewrite E1, E1'. repeat split; auto; lia. }
  destruct K2 as (S2 & Sc2 & C2 & B2).
  destruct (negb (sock_revents w =? 0)).
  2:{ rewrite C2. repeat split; auto; lia. }
  unfold on_socket. destruct (sock_recv w) as [errno|data from].
  { cbn [loop_ctl total_expires exit_loop]. rewrite C2.
    repeat split; auto; lia. }
  set (buf := memcpy (packet l2) (firstn sizeof_packet data)).
  set (len := Z.of_nat (length (firstn sizeof_packet data))).
  pose proof (recv_state_config (loop_ctl l2) buf len from (sock_ts w)) as F.
  cbv zeta in F. unfold recv_state in F.
  destruct (recv_pack (loop_ctl l2) buf len from (sock_ts w)) as [[r c] o].
  cbn [fst snd] in F. destruct F as (_ & _ & _ & Fc & _ & Fs & _).
  cbn [loop_ctl total_expires exit_loop]. rewrite Fc, Fs, C2.
  repeat split; auto; try lia.
  destruct (r =? FINAL_PACKS); [discriminate|exact B2].
Qed.

Lemma run_loop_budget (ws : list wake) (l l' : loop_state)
    (rest : list wake) :
  Forall timer_sane ws ->
  0 < count (loop_ctl l) <= INT_MAX ->
  within_budget l ->
  run_loop ws l = Some (l', rest) ->
  within_budget l' /\ count (loop_ctl l') = count (loop_ctl l).
Proof.
  intros T. revert l. induction T as [|w ws Tw T IH]; intros l C B R;
    cbn [run_loop] in R.
  - destruct (exit_loop l); [|discriminate]. injection R as <- _. auto.
  - destruct (exit_loop l) eqn:X. { injection R as <- _. auto. }
    destruct (handle_wake_budget w l Tw C X B) as [B1 C1].
    destruct (IH (handle_wake w l)) as [B2 C2]; auto.
    + rewrite C1. exact C.
    + split; [exact B2 | congruence].
Qed.

(** X4. With a positive probe count and a timer of which every read
    reports at least one and fewer than [2 ^ 63] expirations
    ([timer_sane]), the event loop started by [main] (nothing sent yet)
    never sends more probes than the count: at its end [sent <= count]. *)
Theorem probe_budget (ctl : run_state) (env : setup) (ws : list wake)
    (v : Z) (ctl' : run_state) (out : string) (rest : list wake) :
  0 < count ctl <= INT_MAX ->
  sent ctl = 0 ->
  Forall timer_sane ws ->
  event_loop ctl env ws = Some (v, ctl', out, rest) ->
  0 <= sent ctl' <= count ctl.
Proof.
  intros C S0 T. unfold event_loop.
  repeat match goal with
    | |- context [if negb ?c then _ else _] =>
        destruct c; cbn [negb];
        [|intros E; injection E as _ <- _ _; lia]
    end.
  pose proof (send_pack_sent ctl (first_now env) (first_sendto env)) as Ss.
  pose proof (send_pack_frame ctl (first_now env) (first_sendto env)) as F.
  cbv zeta in F.
  destruct (send_pack ctl (first_now env) (first_sendto env)) as [[e c] b].
  cbn [fst snd] in *. destruct F as (_ & _ & _ & _ & _ & _ & Fc & _).
  destruct (run_loop ws _) as [[l r]|] eqn:R; [|discriminate].
  intros E. injection E as _ <- _ _.
  rewrite S0 in Ss. change (int_incr 0) with 1 in Ss.
  assert (C0 : 0 < count c <= INT_MAX) by (rewrite Fc; exact C).
  assert (B0 : within_budget
                 {| exit_loop := false; rc := 0; total_expires := 1;
                    packet := packet0 env; loop_ctl := c; stdout := "" |}).
  { unfold within_budget. cbn [loop_ctl total_expires exit_loop].
    repeat split; lia. }
  destruct (run_loop_budget ws
              {| exit_loop := false; rc := 0; total_expires := 1;
                 packet := packet0 env; loop_ctl := c; stdout := "" |}
              l r T C0 B0 R) as [(B1 & B2 & _) Cl].
  cbn [loop_ctl] in Cl. rewrite Cl, Fc in B2. lia.
Qed.

Lemma probe_budget_witness :
  0 <= sent (Sample.probing (set_count 1 initial_run_state)) <=
  count (Sample.session (set_count 1 initial_run_state)).
Proof.
  apply (probe_budget (Sample.session (set_count 1 initial_run_state))
           Sample.quiet_setup [SampleNet.timer_wake 1; SampleNet.timer_wake 1]
           1 _ ("Sent 1 probes (1 broadcast(s))" +++ nl +++
                "Received 0 response(s)" +++ nl)
           [SampleNet.timer_wake 1]).
  - split; vm_compute; [reflexivity | discriminate].
  - reflexivity.
  - repeat (apply Forall_cons;
            [split; vm_compute; [discriminate | reflexivity]|]).
    apply Forall_nil.
  - vm_compute. reflexivity.
Defined.

(** ** The receive buffer beyond the datagram *)

Lemma get_u8_same (len : Z) (b1 b2 : list byte) (off : nat) :
  same_prefix len b1 b2 -> Z.of_nat off < len -> get_u8 b2 off = get_u8 b1 off.
Proof. intros P L. unfold get_u8. rewrite (P off L). reflexivity. Qed.

Lemma get_be16_same (len : Z) (b1 b2 : list byte) (off : nat) :
  same_prefix len b1 b2 -> Z.of_nat off + 1 < len ->
  get_be16 b2 off = get_be16 b1 off.
Proof.
  intros P L. unfold get_be16.
  rewrite !(get_u8_same len b1 b2) by (assumption || lia). reflexivity.
Qed.

Lemma get_be32_same (len : Z) (b1 b2 : list byte) (off : nat) :
  same_prefix len b1 b2 -> Z.of_nat off + 3 < len ->
  get_be32 b2 off = get_be32 b1 off.
Proof.
  intros P L. unfold get_be32.
  rewrite !(get_u8_same len b1 b2) by (assumption || lia). reflexivity.
Qed.

Lemma mem_read_same (len : Z) (b1 b2 : list byte) (off n : nat) :
  same_prefix len b1 b2 -> Z.of_nat off + Z.of_nat n <= len ->
  mem_read b2 off n = mem_read b1 off n.
Proof.
  intros P L. apply mem_read_ext. intros i Hi. symmetry. apply P. lia.
Qed.

Lemma get_u8_nonneg (b : list byte) (off : nat) : 0 <= get_u8 b off < 256.
Proof. apply byte_to_Z_range. Qed.

(** A frame that fits in [len] bytes decodes from those bytes alone. *)
Lemma decode_same (len : Z) (b1 b2 : list byte) :
  same_prefix len b1 b2 ->
  sizeof_arphdr + 2 * (4 + ar_hln (decode b1)) <= len ->
  decode b2 = decode b1.
Proof.
  unfold sizeof_arphdr. cbn [decode ar_hln]. intros P L.
  pose proof (get_u8_nonneg b1 4) as R.
  assert (E4 : get_u8 b2 4 = get_u8 b1 4)
    by (apply (get_u8_same len); [exact P | lia]).
  unfold decode. rewrite E4.
  set (hln := Z.to_nat (get_u8 b1 4)).
  assert (Eh : Z.of_nat hln = get_u8 b1 4) by (apply Z2Nat.id; lia).
  f_equal.
  - apply (get_be16_same len); [exact P | lia].
  - apply (get_be16_same len); [exact P | lia].
  - apply (get_u8_same len); [exact P | lia].
  - apply (get_be16_same len); [exact P | lia].
  - apply (mem_read_same len); [exact P | lia].
  - apply (get_be32_same len); [exact P | lia].
  - apply (mem_read_same len); [exact P | lia].
  - apply (get_be32_same len); [exact P | lia].
Qed.

Lemma same_prefix_sym (len : Z) (b1 b2 : list byte) :
  same_prefix len b1 b2 -> same_prefix len b2 b1.
Proof. intros P i L. symmetry. apply P. exact L. Qed.

Lemma count_response_ext (ctl : run_state) (b1 b2 : list byte)
    (FROM : sockaddr_ll) :
  get_be16 b2 6 = get_be16 b1 6 ->
  mem_read b2 8 (Z.to_nat (sll_halen (me ctl))) =
    mem_read b1 8 (Z.to_nat (sll_halen (me ctl))) ->
  count_response ctl b2 FROM = count_response ctl b1 FROM.
Proof.
  intros O M. unfold count_response. rewrite O.
  change (Z.to_nat sizeof_arphdr) with 8%nat.
  repeat match goal with
    | |- context [if ?c then _ else _] => destruct c
    end; fields; rewrite ?M; reflexivity.
Qed.

(** The acceptance result is a function of the decoded frame, for a
    frame of the local hardware length. *)
Lemma accept_result_decode (ctl : run_state) (b1 b2 : list byte)
    (FROM : sockaddr_ll) (ts : timespec) :
  decode b2 = decode b1 ->
  ar_hln (decode b1) = sll_halen (me ctl) ->
  accept_result ctl b2 FROM ts = accept_result ctl b1 FROM ts.
Proof.
  intros D H.
  assert (F : forall g : ArpFrame -> Z, g (decode b2) = g (decode b1))
    by (intros g; rewrite D; reflexivity).
  assert (G : forall g : ArpFrame -> list byte,
             g (decode b2) = g (decode b1))
    by (intros g; rewrite D; reflexivity).
  pose proof (F ar_hln) as Fh. pose proof (F ar_op) as Fo.
  pose proof (F ar_sip) as Fs. pose proof (F ar_tip) as Ft.
  pose proof (G ar_sha) as Gs. pose proof (G ar_tha) as Gt.
  cbn [decode ar_hln ar_op ar_sip ar_tip ar_sha ar_tha] in *.
  rewrite Fh in *.
  set (hln := Z.to_nat (get_u8 b1 4)) in *.
  assert (C : count_response ctl b2 FROM = count_response ctl b1 FROM).
  { apply count_response_ext; [exact Fo|].
    rewrite <- H. fold hln. exact Gs. }
  unfold accept_result. rewrite C. f_equal.
  unfold report_line.
  change (Z.to_nat sizeof_arphdr) with 8%nat.
  rewrite Fh, Fo. fold hln.
  replace (8 + hln + 4 + hln)%nat with (12 + 2 * hln)%nat by lia.
  replace (8 + hln + 4)%nat with (12 + hln)%nat by lia.
  rewrite Fs, Ft, Gs, Gt. reflexivity.
Qed.

(** X5. [recv_pack] depends on the receive buffer through its first
    [len] bytes only: what an earlier datagram left in the buffer beyond
    the length [recvfrom] returned changes neither the verdict, nor the
    run state, nor the report line. *)
Theorem recv_pack_reads_len_bytes (ctl : run_state) (buf1 buf2 : list byte)
    (len : Z) (FROM : sockaddr_ll) (ts : timespec) :
  same_prefix len buf1 buf2 ->
  recv_pack ctl buf2 len FROM ts = recv_pack ctl buf1 len FROM ts.
Proof.
  intros P.
  assert (V : forall b1 b2,
             same_prefix len b1 b2 ->
             structurally_valid ctl (decode b1) len FROM ->
             decode b2 = decode b1 /\
             ar_hln (decode b1) = sll_halen (me ctl)).
  { intros b1 b2 Pb S. pose proof S as (_ & _ & _ & _ & _ & H & L).
    split; [|exact H]. apply (decode_same len); assumption. }
  destruct (recv_pack_cases ctl buf1 len FROM ts) as [(S1 & M1 & E1)|(N1 & E1)];
    destruct (recv_pack_cases ctl buf2 len FROM ts)
      as [(S2 & M2 & E2)|(N2 & E2)]; rewrite E1, E2.
  - destruct (V _ _ P S1) as [D H]. apply accept_result_decode; assumption.
  - exfalso. apply N2. destruct (V _ _ P S1) as [D H]. rewrite D. auto.
  - exfalso. apply N1.
    destruct (V _ _ (same_prefix_sym _ _ _ P) S2) as [D H]. rewrite D. auto.
  - reflexivity.
Qed.

Lemma recv_pack_reads_len_bytes_witness :
  recv_pack (Sample.probing initial_run_state)
    (Sample.reply ++ [xff; xff]) 28 Sample.from_peer Sample.t1
  = recv_pack (Sample.probing initial_run_state) Sample.reply 28
      Sample.from_peer Sample.t1.
Proof.
  apply recv_pack_reads_len_bytes.
  intros i L.
  assert (Hi : (i < 28)%nat) by lia.
  unfold Sample.reply, Sample.frame, Sample.frame_hln.
  do 28 (destruct i as [|i]; [reflexivity|]). lia.
Defined.

(** ** Quiet mode *)

Lemma send_pack_quiet (ctl : run_state) (now : timespec) (err : Z) :
  quiet (snd (fst (send_pack ctl now err))) = quiet ctl.
Proof.
  unfold send_pack.
  repeat match goal with
    | |- context [if ?c then _ else _] => destruct c
    end; reflexivity.
Qed.

Lemma recv_out_quiet (ctl : run_state) (buf : list byte) (len : Z)
    (FROM : sockaddr_ll) (ts : timespec) :
  quiet ctl = true -> recv_out ctl buf len FROM ts = "".
Proof.
  intros Q. unfold recv_out.
  destruct (recv_pack_cases ctl buf len FROM ts) as [(_ & _ & E)|(_ & E)];
    rewrite E; [|reflexivity].
  unfold accept_result. cbn [snd]. rewrite Q. reflexivity.
Qed.

Lemma handle_wake_quiet (w : wake) (l : loop_state) :
  unexpected_signal w = false ->
  quiet (loop_ctl l) = true -> stdout l = "" ->
  quiet (loop_ctl (handle_wake w l)) = true /\ stdout (handle_wake w l) = "".
Proof.
  unfold unexpected_signal, handle_wake. intros U Q O.
  destruct (Z.leb_spec (poll_ret w) 0) as [P|P].
  { destruct (poll_errno w =? EAGAIN); cbn [loop_ctl stdout]; auto. }
  replace (0 <? poll_ret w) with true in U
    by (symmetry; apply Z.ltb_lt; lia).
  cbn [andb] in U.
  set (l1 := if negb (sig_revents w =? 0) then on_signal w l else l).
  assert (E1 : loop_ctl l1 = loop_ctl l /\ stdout l1 = "").
  { unfold l1. destruct (negb (sig_revents w =? 0)); [|auto].
    cbn [andb] in U. unfold on_signal.
    destruct (sig_read w =? sizeof_signalfd_siginfo); cbn [negb andb] in *;
      [|auto].
    apply negb_false_iff in U. rewrite U. cbn [loop_ctl stdout]. auto. }
  destruct E1 as [E1 O1].
  set (l2 := if negb (tmr_revents w =? 0) then on_timer w l1 else l1).
  assert (E2 : quiet (loop_ctl l2) = true /\ stdout l2 = "").
  { unfold l2. destruct (negb (tmr_revents w =? 0));
      [|rewrite E1; auto].
    unfold on_timer.
    pose proof (send_pack_quiet (loop_ctl l1) (tmr_now w) (tmr_sendto w))
      as Sq.
    destruct (send_pack (loop_ctl l1) (tmr_now w) (tmr_sendto w))
      as [[e c] b]. cbn [fst snd] in Sq.
    repeat match goal with
      | |- context [if ?c then _ else _] => destruct c
      end; cbn [loop_ctl stdout]; rewrite ?Sq, ?E1; auto. }
  destruct E2 as [Q2 O2].
  destruct (negb (sock_revents w =? 0)); [|auto].
  unfold on_socket. destruct (sock_recv w) as [errno|data from];
    [cbn [loop_ctl stdout]; auto|].
  set (buf := memcpy (packet l2) (firstn sizeof_packet data)).
  set (len := Z.of_nat (length (firstn sizeof_packet data))).
  pose proof (recv_out_quiet (loop_ctl l2) buf len from (sock_ts w) Q2) as Ro.
  pose proof (recv_state_config (loop_ctl l2) buf len from (sock_ts w)) as F.
  cbv zeta in F. unfold recv_state, recv_out in *.
  destruct (recv_pack (loop_ctl l2) buf len from (sock_ts w)) as [[r c] o].
  cbn [fst snd] in *. destruct F as (_ & _ & _ & _ & _ & _ & _ & _ & _ & _ &
                                     Fq & _).
  cbn [loop_ctl stdout]. rewrite Fq, O2, Ro. auto.
Qed.

(** X6. In quiet mode the event loop prints nothing at all, neither
    report lines nor the summary, as long as no signal other than the
    three termination signals is delivered. *)
Theorem quiet_loop_prints_nothing (ctl : run_state) (env : setup)
    (ws : list wake) (v : Z) (ctl' : run_state) (out : string)
    (rest : list wake) :
  quiet ctl = true ->
  Forall (fun w => unexpected_signal w = false) ws ->
  event_loop ctl env ws = Some (v, ctl', out, rest) ->
  out = "".
Proof.
  intros Q U. unfold event_loop.
  repeat match goal with
    | |- context [if negb ?c then _ else _] =>
        destruct c; cbn [negb];
        [|intros E; injection E as _ _ <- _; reflexivity]
    end.
  pose proof (send_pack_quiet ctl (first_now env) (first_sendto env)) as Sq.
  destruct (send_pack ctl (first_now env) (first_sendto env)) as [[e c] b].
  cbn [fst snd] in Sq. rewrite Q in Sq.
  assert (I : forall ws l l' rest,
             Forall (fun w => unexpected_signal w = false) ws ->
             quiet (loop_ctl l) = true -> stdout l = "" ->
             run_loop ws l = Some (l', rest) ->
             quiet (loop_ctl l') = true /\ stdout l' = "").
  { clear. intros ws l l' rest U. revert l.
    induction U as [|w ws Uw U IH]; intros l Q O R; cbn [run_loop] in R.
    - destruct (exit_loop l); [|discriminate]. injection R as <- _. auto.
    - destruct (exit_loop l). { injection R as <- _. auto. }
      destruct (handle_wake_quiet w l Uw Q O) as [Q1 O1].
      exact (IH _ Q1 O1 R). }
  destruct (run_loop ws _) as [[l r]|] eqn:R; [|discriminate].
  destruct (I ws {| exit_loop := false; rc := 0; total_expires := 1;
                    packet := packet0 env; loop_ctl := c; stdout := "" |}
              l r U Sq eq_refl R) as [Ql Ol].
  intros E. injection E as _ _ <- _.
  rewrite Ol. unfold finish. rewrite Ql. cbn [negb].
  destruct (dad (loop_ctl l)); [reflexivity|].
  destruct (unsolicited (loop_ctl l)); reflexivity.
Qed.

Lemma quiet_loop_prints_nothing_witness :
  snd (finish (recv_state (Sample.probing (set_quiet true initial_run_state))
                 Sample.reply 28 Sample.from_peer Sample.t1)) = "".
Proof.
  apply (quiet_loop_prints_nothing
           (Sample.session (set_quiet true initial_run_state))
           Sample.quiet_setup
           [Sample.socket_wake (RecvData Sample.reply Sample.from_peer);
            Sample.signal_wake SIGINT]
           1
           (recv_state (Sample.probing (set_quiet true initial_run_state))
              Sample.reply 28 Sample.from_peer Sample.t1)
           _ []).
  - reflexivity.
  - repeat (apply Forall_cons; [reflexivity|]). apply Forall_nil.
  - vm_compute. reflexivity.
Defined.

(** ** The exit status *)

(** X7. After a successful set-up the exit status of the event loop is
    between 0 and 3, and it is 0 exactly when no consumed wake saw
    [ENETDOWN], the base code of [finish] is 0 and the number of
    broadcast probes differs from the number of responses; so a run with
    as many responses as broadcast probes never exits with 0. *)
Theorem exit_status_zero (ctl : run_state) (env : setup) (ws : list wake)
    (v : Z) (ctl' : run_state) (out : string) (rest : list wake) :
  setup_ok env = true ->
  event_loop ctl env ws = Some (v, ctl', out, rest) ->
  0 <= v <= 3 /\
  (v = 0 <->
   exists consumed,
     ws = consumed ++ rest /\ existsb netdown_wake consumed = false /\
     fst (finish ctl') = 0 /\ brd_sent ctl' <> received ctl').
Proof.
  unfold setup_ok, event_loop. intros S E. b2p.
  repeat match goal with H : _ = true |- _ => rewrite H in E; clear H end.
  cbn [negb] in E.
  destruct (send_pack ctl (first_now env) (first_sendto env)) as [[e c] b].
  destruct (run_loop ws _) as [[l r]|] eqn:R; [|discriminate].
  injection E as <- <- _ <-.
  destruct (run_loop_rc _ _ _ _ R) as (consumed & -> & Rc).
  cbn [rc] in Rc. rewrite Rc.
  destruct (finish_code_bit (loop_ctl l)) as [F|F]; rewrite F;
    destruct (Z.eqb_spec (brd_sent (loop_ctl l)) (received (loop_ctl l)))
      as [B|B];
    destruct (existsb netdown_wake consumed) eqn:N; cbn;
    (split; [lia|]); split;
    try discriminate;
    try (intros (cs & Hc & Hn & Hf & Hb);
         apply app_inv_tail in Hc; subst cs;
         first [congruence | discriminate | contradiction]).
  intros _. exists consumed. auto.
Qed.

Lemma exit_status_zero_witness :
  0 <= 1 <= 3 /\
  (1 = 0 <->
   exists consumed,
     [Sample.socket_wake (RecvData Sample.reply Sample.from_peer);
      Sample.signal_wake SIGINT] = consumed ++ [] /\
     existsb netdown_wake consumed = false /\
     fst (finish (recv_state (Sample.probing initial_run_state) Sample.reply
                    28 Sample.from_peer Sample.t1)) = 0 /\
     brd_sent (recv_state (Sample.probing initial_run_state) Sample.reply 28
                 Sample.from_peer Sample.t1) <>
     received (recv_state (Sample.probing initial_run_state) Sample.reply 28
                 Sample.from_peer Sample.t1)).
Proof.
  apply (exit_status_zero (Sample.session initial_run_state)
           Sample.quiet_setup _ 1 _
           ("Unicast reply from 192.0.2.5 [02:00:00:00:00:02]  1.735ms" +++ nl
            +++ "Sent 1 probes (1 broadcast(s))" +++ nl +++
            "Received 1 response(s)" +++ nl)).
  - reflexivity.
  - vm_compute. reflexivity.
Defined.

(** ** Broadcast-only mode *)

Lemma send_pack_broadcasting (ctl : run_state) (now : timespec) (err : Z) :
  unicasting ctl = false -> brd_sent ctl = sent ctl ->
  brd_sent (snd (fst (send_pack ctl now err))) =
  sent (snd (fst (send_pack ctl now err))).
Proof.
  intros U B. unfold send_pack.
  destruct (err =? _); cbn [fst snd]; [|exact B].
  fields. rewrite U. cbn [negb]. fields. rewrite B. reflexivity.
Qed.

Lemma count_response_broadcast_only (ctl : run_state) (buf : list byte)
    (FROM : sockaddr_ll) :
  broadcast_only ctl = true ->
  he (snd (count_response ctl buf FROM)) = he ctl /\
  unicasting (snd (count_response ctl buf FROM)) = unicasting ctl.
Proof.
  intros B. unfold count_response.
  destruct (negb (timeout _ =? 0) && _); [split; reflexivity|].
  destruct (negb (sll_pkttype FROM =? PACKET_HOST));
    destruct (get_be16 buf 6 =? ARPOP_REQUEST); fields;
    (destruct (quit_on_reply ctl || _); [split; reflexivity|]);
    rewrite B; split; reflexivity.
Qed.

Lemma recv_state_broadcast_only (ctl : run_state) (buf : list byte) (len : Z)
    (FROM : sockaddr_ll) (ts : timespec) :
  broadcast_only ctl = true ->
  he (recv_state ctl buf len FROM ts) = he ctl /\
  unicasting (recv_state ctl buf len FROM ts) = unicasting ctl.
Proof.
  intros B. unfold recv_state.
  destruct (recv_pack_cases ctl buf len FROM ts) as [(_ & _ & E)|(_ & E)];
    rewrite E; cbn [fst snd]; [|auto].
  apply count_response_broadcast_only. exact B.
Qed.

Lemma handle_wake_broadcasting (he0 : sockaddr_ll) (w : wake)
    (l : loop_state) :
  broadcasting he0 (loop_ctl l) -> broadcasting he0 (loop_ctl (handle_wake w l)).
Proof.
  intros B. destruct (handle_wake_ctl w l) as (c1 & H1 & H2).
  assert (B1 : broadcasting he0 c1).
  { destruct H1 as [-> | ->]; [exact B|].
    destruct B as (Bo & U & Bs & H).
    pose proof (send_pack_frame (loop_ctl l) (tmr_now w) (tmr_sendto w)) as F.
    cbv zeta in F.
    destruct F as (_ & Fh & Fu & _ & _ & _ & _ & _ & _ & _ & Fb & _).
    unfold broadcasting. rewrite Fh, Fu, Fb.
    repeat split; auto. apply send_pack_broadcasting; assumption. }
  destruct H2 as [-> | (buf & len & from & ->)]; [exact B1|].
  destruct B1 as (Bo & U & Bs & H).
  destruct (recv_state_broadcast_only c1 buf len from (sock_ts w) Bo)
    as [Rh Ru].
  pose proof (recv_state_config c1 buf len from (sock_ts w)) as F.
  cbv zeta in F.
  destruct F as (_ & _ & _ & _ & _ & Fs & Fbs & _ & _ & Fb & _).
  unfold broadcasting. rewrite Rh, Ru, Fs, Fbs, Fb. auto.
Qed.

(** X8. In broadcast-only mode the session never leaves the broadcast
    destination: through the whole event loop the destination link
    address is unchanged, the unicasting flag stays clear, and every
    probe counted in [sent] is counted in [brd_sent] too. *)
Theorem broadcast_only_keeps_broadcasting (ctl : run_state) (env : setup)
    (ws : list wake) (v : Z) (ctl' : run_state) (out : string)
    (rest : list wake) :
  broadcast_only ctl = true ->
  unicasting ctl = false ->
  brd_sent ctl = sent ctl ->
  event_loop ctl env ws = Some (v, ctl', out, rest) ->
  he ctl' = he ctl /\ unicasting ctl' = false /\ brd_sent ctl' = sent ctl'.
Proof.
  intros Bo U Bs. unfold event_loop.
  repeat match goal with
    | |- context [if negb ?c then _ else _] =>
        destruct c; cbn [negb];
        [|intros E; injection E as _ <- _ _; auto]
    end.
  assert (B0 : broadcasting (he ctl) ctl) by (unfold broadcasting; auto).
  assert (B1 : broadcasting (he ctl)
                 (snd (fst (send_pack ctl (first_now env)
                              (first_sendto env))))).
  { pose proof (send_pack_frame ctl (first_now env) (first_sendto env)) as F.
    cbv zeta in F.
    destruct F as (_ & Fh & Fu & _ & _ & _ & _ & _ & _ & _ & Fb & _).
    unfold broadcasting. rewrite Fh, Fu, Fb.
    repeat split; auto. apply send_pack_broadcasting; assumption. }
  destruct (send_pack ctl (first_now env) (first_sendto env)) as [[e c] b].
  cbn [fst snd] in B1.
  assert (I : forall ws l l' rest,
             broadcasting (he ctl) (loop_ctl l) ->
             run_loop ws l = Some (l', rest) ->
             broadcasting (he ctl) (loop_ctl l')).
  { clear. induction ws as [|w ws IH]; intros l l' rest B R;
      cbn [run_loop] in R.
    - destruct (exit_loop l); [|discriminate]. injection R as <- _. exact B.
    - destruct (exit_loop l). { injection R as <- _. exact B. }
      apply (IH _ _ _ (handle_wake_broadcasting _ w l B) R). }
  destruct (run_loop ws _) as [[l r]|] eqn:R; [|discriminate].
  intros E. injection E as _ <- _ _.
  destruct (I ws {| exit_loop := false; rc := 0; total_expires := 1;
                    packet := packet0 env; loop_ctl := c; stdout := "" |}
              l r B1 R) as (_ & Ul & Bl & Hl).
  auto.
Qed.

Lemma broadcast_only_keeps_broadcasting_witness :
  he (recv_state (Sample.probing (set_broadcast_only true initial_run_state))
        Sample.reply 28 Sample.from_peer Sample.t1)
    = he (Sample.session (set_broadcast_only true initial_run_state)) /\
  unicasting
    (recv_state (Sample.probing (set_broadcast_only true initial_run_state))
       Sample.reply 28 Sample.from_peer Sample.t1) = false /\
  brd_sent
    (recv_state (Sample.probing (set_broadcast_only true initial_run_state))
       Sample.reply 28 Sample.from_peer Sample.t1) =
  sent
    (recv_state (Sample.probing (set_broadcast_only true initial_run_state))
       Sample.reply 28 Sample.from_peer Sample.t1).
Proof.
  apply (broadcast_only_keeps_broadcasting
           (Sample.session (set_broadcast_only true initial_run_state))
           Sample.quiet_setup
           [Sample.socket_wake (RecvData Sample.reply Sample.from_peer);
            Sample.signal_wake SIGINT]
           1 _
           ("Unicast reply from 192.0.2.5 [02:00:00:00:00:02]  1.735ms" +++ nl
            +++ "Sent 1 probes (1 broadcast(s))" +++ nl +++
            "Received 1 response(s)" +++ nl) []).
  - reflexivity.
  - reflexivity.
  - reflexivity.
  - vm_compute. reflexivity.
Defined.

(** ** How the loop ends *)

Lemma run_loop_suffix (ws1 : list wake) (w : wake) (ws2 : list wake)
    (l : loop_state) :
  termination_wake w = true ->
  exists l' extra, run_loop (ws1 ++ w :: ws2) l = Some (l', extra ++ ws2).
Proof.
  intros T. revert l. induction ws1 as [|w1 ws1 IH]; intros l;
    cbn [app run_loop]; destruct (exit_loop l).
  - exists l, [w]. reflexivity.
  - rewrite run_loop_exited by (apply termination_wake_exits; exact T).
    exists (handle_wake w l), []. reflexivity.
  - exists l, (w1 :: ws1 ++ [w]). cbn [app]. rewrite <- app_assoc.
    reflexivity.
  - apply IH.
Qed.

(** X9. A wake that delivers [SIGINT], [SIGQUIT] or [SIGTERM] ends the
    event loop: whatever comes before it, [event_loop] returns, and it
    consumes none of the wakes that follow that one. *)
Theorem termination_signal_ends_loop (ctl : run_state) (env : setup)
    (ws1 : list wake) (w : wake) (ws2 : list wake) :
  termination_wake w = true ->
  exists v ctl' out extra,
    event_loop ctl env (ws1 ++ w :: ws2) = Some (v, ctl', out, extra ++ ws2).
Proof.
  intros T. unfold event_loop.
  repeat match goal with
    | |- context [if negb ?c then _ else _] =>
        destruct c; cbn [negb];
        [|exists 1, ctl, "", (ws1 ++ [w]); rewrite <- app_assoc;
          reflexivity]
    end.
  destruct (send_pack ctl (first_now env) (first_sendto env)) as [[e c] b].
  destruct (run_loop_suffix ws1 w ws2
              {| exit_loop := false; rc := 0; total_expires := 1;
                 packet := packet0 env; loop_ctl := c; stdout := "" |} T)
    as (l' & extra & ->).
  eauto.
Qed.

Lemma termination_signal_ends_loop_witness :
  exists v ctl' out extra,
    event_loop (Sample.session initial_run_state) Sample.quiet_setup
      ([SampleNet.timer_wake 1] ++ Sample.signal_wake SIGTERM ::
       [SampleNet.timer_wake 1])
    = Some (v, ctl', out, extra ++ [SampleNet.timer_wake 1]).
Proof.
  apply termination_signal_ends_loop. reflexivity.
Defined.

(** X10. When the socket alone is ready and [recv_pack] returns
    [FINAL_PACKS] for the datagram read, the loop ends with that wake:
    no later wake, in particular no timer tick, is consumed. *)
Theorem final_packs_ends_loop (w : wake) (ws : list wake) (l : loop_state)
    (data : list byte) (from : sockaddr_ll) :
  exit_loop l = false ->
  socket_only w ->
  sock_recv w = RecvData data from ->
  recv_ret (loop_ctl l) (memcpy (packet l) (firstn sizeof_packet data))
    (Z.of_nat (length (firstn sizeof_packet data))) from (sock_ts w)
    = FINAL_PACKS ->
  run_loop (w :: ws) l = Some (handle_wake w l, ws) /\
  loop_ctl (handle_wake w l) =
    recv_state (loop_ctl l) (memcpy (packet l) (firstn sizeof_packet data))
      (Z.of_nat (length (firstn sizeof_packet data))) from (sock_ts w).
Proof.
  intros X (P & Sg & Tm & Sk) D F.
  assert (H : exit_loop (handle_wake w l) = true /\
              loop_ctl (handle_wake w l) =
                recv_state (loop_ctl l)
                  (memcpy (packet l) (firstn sizeof_packet data))
                  (Z.of_nat (length (firstn sizeof_packet data))) from
                  (sock_ts w)).
  { unfold handle_wake.
    replace (poll_ret w <=? 0) with false by (symmetry; apply Z.leb_gt; lia).
    rewrite Sg, Tm. cbn [Z.eqb negb].
    apply Z.eqb_neq in Sk. rewrite Sk. cbn [negb].
    unfold on_socket. rewrite D. unfold recv_ret, recv_state in *.
    destruct (recv_pack _ _ _ _ _) as [[r c] o]. cbn [fst snd] in *.
    subst r. cbn [exit_loop loop_ctl]. auto. }
  destruct H as [E C]. split; [|exact C].
  cbn [run_loop]. rewrite X. apply run_loop_exited. exact E.
Qed.

Lemma final_packs_ends_loop_witness :
  run_loop
    [Sample.socket_wake (RecvData Sample.reply Sample.from_peer);
     SampleNet.timer_wake 1]
    {| exit_loop := false; rc := 0; total_expires := 1; packet := [];
       loop_ctl := Sample.probing (set_quit_on_reply true initial_run_state);
       stdout := "" |}
  = Some (handle_wake
            (Sample.socket_wake (RecvData Sample.reply Sample.from_peer))
            {| exit_loop := false; rc := 0; total_expires := 1; packet := [];
               loop_ctl :=
                 Sample.probing (set_quit_on_reply true initial_run_state);
               stdout := "" |},
          [SampleNet.timer_wake 1]).
Proof.
  refine (proj1 (final_packs_ends_loop
                   (Sample.socket_wake
                      (RecvData Sample.reply Sample.from_peer))
                   [SampleNet.timer_wake 1]
                   {| exit_loop := false; rc := 0; total_expires := 1;
                      packet := [];
                      loop_ctl :=
                        Sample.probing
                          (set_quit_on_reply true initial_run_state);
                      stdout := "" |}
                   Sample.reply Sample.from_peer eq_refl _ eq_refl _)).
  - unfold socket_only. cbn. repeat split; try reflexivity; discriminate.
  - vm_compute. reflexivity.
Defined.

(** ** The options *)

(** The flags after the option loop, from any starting state: a flag is
    set when it was set before or an option that sets it occurs. *)
Lemma parse_options_flags_from (version : string) (opts : list option_char)
    (ctl0 ctl : run_state) :
  parse_options version opts ctl0 = Return ctl ->
  (advert ctl = true <-> advert ctl0 = true \/ In Opt_A opts) /\
  (dad ctl = true <-> dad ctl0 = true \/ In Opt_D opts) /\
  (unsolicited ctl = true <->
   unsolicited ctl0 = true \/ In Opt_U opts \/ In Opt_A opts) /\
  (quit_on_reply ctl = true <->
   quit_on_reply ctl0 = true \/ In Opt_f opts \/ In Opt_D opts) /\
  (broadcast_only ctl = true <-> broadcast_only ctl0 = true \/ In Opt_b opts)
  /\
  (quiet ctl = true <-> quiet ctl0 = true \/ In Opt_q opts) /\
  count ctl = last_count opts (count ctl0).
Proof.
  revert ctl0. induction opts as [|ch rest IH]; intros ctl0 P.
  - cbn in P. injection P as <-. cbn [In last_count]. tauto.
  - cbn [parse_options] in P.
    destruct (option_switch version ch ctl0) as [st out|ctl1] eqn:E;
      [discriminate|].
    destruct (IH ctl1 P) as (A & D & U & Q & B & Qu & C). cbn [In].
    rewrite A, D, U, Q, B, Qu, C. clear IH P A D U Q B Qu C.
    destruct ch; cbn in E; try discriminate; injection E as <-;
      cbn [last_count]; fields;
      repeat split; try reflexivity; intuition (try discriminate; auto).
Qed.

(** X11. The option flags do not depend on the order of the options:
    after the option loop of [main], answer mode is on exactly when [-A]
    occurs, duplicate address detection when [-D] occurs, unsolicited
    mode when [-U] or [-A] occurs, quit-on-first-reply when [-f] or [-D]
    occurs, broadcast-only when [-b] occurs and quiet when [-q] occurs;
    the probe count is the argument of the last [-c], and -1 without
    one. *)
Theorem parse_options_flags (version : string) (opts : list option_char)
    (ctl : run_state) :
  parse_options version opts initial_run_state = Return ctl ->
  (advert ctl = true <-> In Opt_A opts) /\
  (dad ctl = true <-> In Opt_D opts) /\
  (unsolicited ctl = true <-> In Opt_U opts \/ In Opt_A opts) /\
  (quit_on_reply ctl = true <-> In Opt_f opts \/ In Opt_D opts) /\
  (broadcast_only ctl = true <-> In Opt_b opts) /\
  (quiet ctl = true <-> In Opt_q opts) /\
  count ctl = last_count opts (-1).
Proof.
  intros P. apply parse_options_flags_from in P. cbn in P.
  intuition discriminate.
Qed.

Lemma parse_options_flags_witness :
  (advert (set_count 3 (set_unsolicited true
             (set_advert true (set_count 5 initial_run_state)))) = true <->
   In Opt_A [Opt_c 5; Opt_A; Opt_c 3]) /\
  count (set_count 3 (set_unsolicited true
           (set_advert true (set_count 5 initial_run_state))))
  = last_count [Opt_c 5; Opt_A; Opt_c 3] (-1).
Proof.
  destruct (parse_options_flags "" [Opt_c 5; Opt_A; Opt_c 3]
              (set_count 3 (set_unsolicited true
                 (set_advert true (set_count 5 initial_run_state))))
              eq_refl) as (A & _ & _ & _ & _ & _ & C).
  split; [exact A | exact C].
Defined.

(** X12. Answer mode and unsolicited mode report success whatever was
    received: when [-A] or [-U] was given and [-D] was not, the base exit
    code of [finish] is 0 on every run state that carries the flags of
    the option loop. *)
Theorem announce_modes_report_success (version : string)
    (opts : list option_char) (ctl ctl' : run_state) :
  parse_options version opts initial_run_state = Return ctl ->
  In Opt_A opts \/ In Opt_U opts ->
  ~ In Opt_D opts ->
  dad ctl' = dad ctl -> unsolicited ctl' = unsolicited ctl ->
  fst (finish ctl') = 0.
Proof.
  intros P A D Ed Eu. apply parse_options_flags_from in P. cbn in P.
  destruct P as (_ & Pd & Pu & _).
  assert (U : unsolicited ctl = true) by (apply Pu; tauto).
  assert (Dd : dad ctl = false).
  { destruct (dad ctl); [|reflexivity]. exfalso. apply D.
    destruct Pd as [Pd _]. destruct (Pd eq_refl); [discriminate|assumption]. }
  unfold finish. rewrite Ed, Eu, Dd, U. reflexivity.
Qed.

Lemma announce_modes_report_success_witness :
  fst (finish (Sample.probing (set_unsolicited true initial_run_state))) = 0.
Proof.
  apply (announce_modes_report_success "" [Opt_U]
           (set_unsolicited true initial_run_state)).
  - reflexivity.
  - right. left. reflexivity.
  - intros [H|[]]. discriminate H.
  - reflexivity.
  - reflexivity.
Defined.

(** X13. The option loop ends the process exactly at the first [-V] or
    [-h]: without one it returns, at a first [-V] it exits with status 0
    after printing the version, at a first [-h] with status 2, and the
    options behind are not looked at. *)
Theorem parse_options_exit (version : string) (pre post : list option_char)
    (ctl0 : run_state) :
  forallb no_exit_option pre = true ->
  (exists ctl, parse_options version pre ctl0 = Return ctl) /\
  parse_options version (pre ++ Opt_V :: post) ctl0 = Exit 0 version /\
  parse_options version (pre ++ Opt_h :: post) ctl0 = Exit 2 "".
Proof.
  revert ctl0. induction pre as [|ch pre IH]; intros ctl0 N.
  - cbn. eauto.
  - cbn [forallb] in N. apply andb_true_iff in N. destruct N as [Nc N].
    cbn [app parse_options].
    destruct ch; cbn in Nc; try discriminate; cbn [option_switch];
      apply IH; exact N.
Qed.

Lemma parse_options_exit_witness :
  (exists ctl, parse_options "arping" [Opt_q; Opt_c 2] initial_run_state
               = Return ctl) /\
  parse_options "arping" ([Opt_q; Opt_c 2] ++ Opt_V :: [Opt_h])
    initial_run_state = Exit 0 "arping" /\
  parse_options "arping" ([Opt_q; Opt_c 2] ++ Opt_h :: [Opt_V])
    initial_run_state = Exit 2 "".
Proof.
  destruct (parse_options_exit "arping" [Opt_q; Opt_c 2] [Opt_h]
              initial_run_state eq_refl) as (R & V & _).
  destruct (parse_options_exit "arping" [Opt_q; Opt_c 2] [Opt_V]
              initial_run_state eq_refl) as (_ & _ & H).
  auto.
Defined.

(** ** The elapsed time of a report line *)

(** [long] arithmetic is that of the integers on values that fit. *)
Lemma long_wrap_small (z : Z) :
  - 2 ^ 63 <= z < 2 ^ 63 -> long_wrap z = z.
Proof.
  intros R. unfold long_wrap. rewrite Z.mod_small; lia.
Qed.

(** X14. Once a probe was sent, with clock readings whose nanoseconds
    are below one second and with the response read no earlier than the
    probe was sent and less than [2 ^ 43] seconds after it (so that no
    operation on [long] overflows), the time [recv_pack] prints for the
    response is [m.uuu] milliseconds with [0 <= uuu < 1000], and it
    stands for the elapsed time in microseconds, rounded, plus 500
    microseconds: [1000 m + uuu] is the elapsed microseconds plus 500. *)
Theorem elapsed_adds_half_millisecond (ctl : run_state) (ts : timespec)
    (us : Z) :
  tv_sec (last ctl) <> 0 ->
  clock_readings (last ctl) ts ->
  us = (tv_sec ts - tv_sec (last ctl)) * 1000000 +
       Z.quot (tv_nsec ts - tv_nsec (last ctl) + 500) 1000 ->
  0 <= us ->
  exists m u,
    elapsed ctl ts =
      " " +++ fmt_d m +++ "." +++ fmt_03d u +++ "ms" +++ nl /\
    0 <= u < 1000 /\ 1000 * m + u = us + 500.
Proof.
  intros L (N0 & N1 & Sd) -> N. unfold elapsed.
  apply Z.eqb_neq in L. rewrite L. cbn [negb].
  assert (P63 : 2 ^ 63 = 9223372036854775808) by reflexivity.
  assert (P43 : 2 ^ 43 = 8796093022208) by reflexivity.
  set (ds := tv_sec ts - tv_sec (last ctl)) in *.
  set (dn := tv_nsec ts - tv_nsec (last ctl)) in *.
  assert (Rn : - 1000000000 < dn < 1000000000) by (unfold dn; lia).
  pose proof (Z.quot_rem' (dn + 500) 1000) as Q.
  pose proof (Z.rem_bound_abs (dn + 500) 1000 ltac:(lia)) as Qb.
  set (q := Z.quot (dn + 500) 1000) in *.
  rewrite (long_wrap_small ds) by lia.
  rewrite (long_wrap_small dn) by lia.
  rewrite (long_wrap_small (ds * 1000000)) by lia.
  rewrite (long_wrap_small (dn + 500)) by lia.
  fold q.
  rewrite (long_wrap_small (ds * 1000000 + q)) by lia.
  set (us := ds * 1000000 + q) in *.
  rewrite (long_wrap_small (us + 500)) by lia.
  assert (Qm : Z.quot (us + 500) 1000 = (us + 500) / 1000)
    by (apply Z.quot_div_nonneg; lia).
  pose proof (Z.div_mod (us + 500) 1000 ltac:(lia)) as D.
  pose proof (Z.mod_pos_bound (us + 500) 1000 ltac:(lia)) as M.
  set (m := Z.quot (us + 500) 1000) in *.
  rewrite (long_wrap_small (m * 1000)) by lia.
  rewrite (long_wrap_small (m * 1000 - 500)) by lia.
  rewrite (long_wrap_small (us - (m * 1000 - 500))) by lia.
  exists m, (us - (m * 1000 - 500)).
  split; [reflexivity|]. lia.
Qed.

Lemma elapsed_adds_half_millisecond_witness :
  exists m u,
    elapsed (Sample.probing initial_run_state) Sample.t1 =
      " " +++ fmt_d m +++ "." +++ fmt_03d u +++ "ms" +++ nl /\
    0 <= u < 1000 /\ 1000 * m + u = 1235 + 500.
Proof.
  apply (elapsed_adds_half_millisecond (Sample.probing initial_run_state)
           Sample.t1 1235).
  - vm_compute. discriminate.
  - unfold clock_readings. vm_compute.
    repeat split; try reflexivity; discriminate.
  - vm_compute. reflexivity.
  - vm_compute. discriminate.
Defined.

(** ** What [send_pack] puts on the wire *)

(** X15. For a hardware length that the address bytes of the socket
    address storage hold (at most 116), the buffer [send_pack] hands to
    [sendto] is the wire buffer, fits [buf], is
    [sizeof(struct arphdr) + 2 * (4 + halen)] bytes long and decodes to:
    the hardware type of the interface, FDDI replaced by Ethernet;
    protocol IP; the hardware length of the interface and protocol length
    4; operation reply in answer mode and request otherwise; the local
    hardware address and the source address as sender; as target the
    local hardware address in answer mode and the current destination
    otherwise, with the destination protocol address. *)
Theorem send_pack_encodes (ctl : run_state) (now : timespec) (err : Z) :
  0 <= sll_halen (me ctl) <= SLL_ADDR_ROOM ->
  0 <= sll_hatype (me ctl) < 2 ^ 16 ->
  0 <= gsrc ctl < 2 ^ 32 ->
  0 <= gdst ctl < 2 ^ 32 ->
  wire_buffer ctl now err = Some (snd (send_pack ctl now err)) /\
  Z.of_nat (length (snd (send_pack ctl now err))) <= sizeof_buf /\
  Z.of_nat (length (snd (send_pack ctl now err))) =
    sizeof_arphdr + 2 * (4 + sll_halen (me ctl)) /\
  decode (snd (send_pack ctl now err)) =
    {| ar_hrd := if sll_hatype (me ctl) =? ARPHRD_FDDI
                 then ARPHRD_ETHER else sll_hatype (me ctl);
       ar_pro := ETH_P_IP;
       ar_hln := sll_halen (me ctl);
       ar_pln := 4;
       ar_op := if advert ctl then ARPOP_REPLY else ARPOP_REQUEST;
       ar_sha := own_hwaddr ctl;
       ar_sip := gsrc ctl;
       ar_tha := if advert ctl then own_hwaddr ctl else dest_hwaddr ctl;
       ar_tip := gdst ctl |}.
Proof.
  intros Rh Rt Rs Rd.
  split; [apply wire_buffer_in_bounds; exact Rh|].
  assert (Rh' : 0 <= sll_halen (me ctl) < 256)
    by (unfold SLL_ADDR_ROOM in Rh; lia).
  unfold SLL_ADDR_ROOM in Rh.
  split; [|split].
  - rewrite send_pack_length, Z2Nat.id by lia.
    unfold sizeof_arphdr, sizeof_buf. lia.
  - rewrite send_pack_length, Z2Nat.id by lia. reflexivity.
  - rewrite send_pack_wire.
    rewrite <- (app_nil_r (be32_bytes (gdst ctl))).
    apply decode_fields; try assumption.
    + destruct (sll_hatype (me ctl) =? ARPHRD_FDDI);
        [unfold ARPHRD_ETHER; lia | exact Rt].
    + unfold ETH_P_IP. lia.
    + destruct (advert ctl); unfold ARPOP_REPLY, ARPOP_REQUEST; lia.
    + apply length_mem_read.
    + destruct (advert ctl); apply length_mem_read.
Qed.

Lemma send_pack_encodes_witness :
  wire_buffer (Sample.session (set_advert true initial_run_state))
    Sample.t0 28 =
    Some (snd (send_pack (Sample.session (set_advert true initial_run_state))
                 Sample.t0 28)) /\
  Z.of_nat (length (snd (send_pack
                           (Sample.session (set_advert true initial_run_state))
                           Sample.t0 28))) <= sizeof_buf /\
  Z.of_nat (length (snd (send_pack
                           (Sample.session (set_advert true initial_run_state))
                           Sample.t0 28))) = sizeof_arphdr + 2 * (4 + 6) /\
  decode (snd (send_pack (Sample.session (set_advert true initial_run_state))
                 Sample.t0 28)) =
    {| ar_hrd := ARPHRD_ETHER; ar_pro := ETH_P_IP; ar_hln := 6; ar_pln := 4;
       ar_op := ARPOP_REPLY; ar_sha := Sample.mac_local;
       ar_sip := Sample.ip_local; ar_tha := Sample.mac_local;
       ar_tip := Sample.ip_target |}.
Proof.
  apply (send_pack_encodes (Sample.session (set_advert true initial_run_state))
           Sample.t0 28);
    split; vm_compute; try discriminate; reflexivity.
Defined.

(** ** Each operation writes its own fields *)

(** X16. [send_pack] writes [last], [sent] and [brd_sent] and nothing
    else, and a write that [sendto] did not complete leaves the run state
    as it was; [recv_pack] writes [received], [brd_recv], [req_recv],
    [he] and [unicasting] and nothing else, and of [he] only the address
    bytes. *)
Theorem operations_write_own_fields (ctl : run_state) :
  (forall now err,
     let ctl' := snd (fst (send_pack ctl now err)) in
     ctl' = set_brd_sent (brd_sent ctl')
              (set_sent (sent ctl') (set_last (last ctl') ctl)) /\
     (err <> Z.of_nat (length (snd (send_pack ctl now err))) -> ctl' = ctl))
  /\
  (forall buf len FROM ts,
     let ctl' := recv_state ctl buf len FROM ts in
     ctl' = set_unicasting (unicasting ctl')
              (set_he (set_sll_addr (sll_addr (he ctl')) (he ctl))
                 (set_req_recv (req_recv ctl')
                    (set_brd_recv (brd_recv ctl')
                       (set_received (received ctl') ctl))))).
Proof.
  split.
  - intros now err. cbv zeta. unfold send_pack.
    match goal with
    | |- context [if err =? ?x then _ else _] => destruct (Z.eqb_spec err x)
    end; cbn [fst snd].
    + split; [|intros N; contradiction].
      destruct (negb (unicasting _)); destruct ctl; reflexivity.
    + split; [destruct ctl; reflexivity | reflexivity].
  - intros buf len FROM ts. cbv zeta. unfold recv_state.
    destruct (recv_pack_cases ctl buf len FROM ts) as [(_ & _ & E)|(_ & E)];
      rewrite E; cbn [fst snd].
    + unfold accept_result. cbn [fst snd]. unfold count_response.
      repeat match goal with
        | |- context [if ?c then _ else _] => destruct c
        end; cbn [fst snd]; destruct ctl as [? ? ? ? ? ? ? ? h ? ? ? ? ? ? ? ?
                                             ? ? ? ? ?]; destruct h;
        reflexivity.
    + destruct ctl as [? ? ? ? ? ? ? ? h ? ? ? ? ? ? ? ? ? ? ? ? ?];
        destruct h; reflexivity.
Qed.

Lemma operations_write_own_fields_witness :
  snd (fst (send_pack (Sample.session initial_run_state) Sample.t0 5))
  = Sample.session initial_run_state.
Proof.
  apply (proj2 (proj1 (operations_write_own_fields
                         (Sample.session initial_run_state)) Sample.t0 5)).
  vm_compute. discriminate.
Defined.

(** ** [print_hex] *)

Lemma length_append (a b : string) :
  String.length (a +++ b) = (String.length a + String.length b)%nat.
Proof. induction a as [|c a IH]; cbn; [reflexivity | rewrite IH; reflexivity]. Qed.

(** X17. [print_hex] prints two characters per byte and a colon between
    consecutive bytes, with no colon at the end: [3 n - 1] characters for
    [n > 0] bytes, and nothing for none. *)
Theorem print_hex_length (p : list byte) :
  String.length (print_hex p) = (3 * length p - 1)%nat.
Proof.
  induction p as [|b p IH]; [reflexivity|].
  destruct p as [|b' p]; [reflexivity|].
  change (print_hex (b :: b' :: p))
    with (fmt_02X b +++ ":" +++ print_hex (b' :: p)).
  rewrite !length_append, IH. cbn [length].
  change (String.length (fmt_02X b)) with 2%nat.
  change (String.length ":") with 1%nat. lia.
Qed.

(** ** Quit on first reply *)

Lemma handle_wake_first_reply (dad0 : bool) (w : wake) (l : loop_state) :
  exit_loop l = false ->
  first_reply_pending dad0 l ->
  first_reply_pending dad0 (handle_wake w l).
Proof.
  unfold first_reply_pending. intros X (Q & D & [R|[_ R]]);
    [|rewrite X in R; discriminate].
  unfold handle_wake.
  destruct (poll_ret w <=? 0).
  { destruct (poll_errno w =? EAGAIN); cbn [loop_ctl exit_loop]; auto. }
  set (l1 := if negb (sig_revents w =? 0) then on_signal w l else l).
  assert (E1 : loop_ctl l1 = loop_ctl l).
  { unfold l1, on_signal.
    repeat match goal with
      | |- context [if ?c then _ else _] => destruct c
      end; reflexivity. }
  set (l2 := if negb (tmr_revents w =? 0) then on_timer w l1 else l1).
  assert (E2 : quit_on_reply (loop_ctl l2) = true /\
               dad (loop_ctl l2) = dad0 /\ received (loop_ctl l2) = 0).
  { unfold l2, on_timer. rewrite E1.
    pose proof (send_pack_frame (loop_ctl l) (tmr_now w) (tmr_sendto w)) as F.
    cbv zeta in F.
    destruct (send_pack (loop_ctl l) (tmr_now w) (tmr_sendto w))
      as [[e c] b]. cbn [fst snd] in F.
    destruct F as (_ & _ & _ & Fr & _ & _ & _ & _ & Fq & Fd & _).
    repeat match goal with
      | |- context [if ?c then _ else _] => destruct c
      end; cbn [loop_ctl]; rewrite ?Fr, ?Fq, ?Fd, ?E1; auto. }
  destruct E2 as (Q2 & D2 & R2).
  destruct (negb (sock_revents w =? 0)); [|auto].
  unfold on_socket. destruct (sock_recv w) as [errno|data from];
    [cbn [loop_ctl exit_loop]; auto|].
  set (buf := memcpy (packet l2) (firstn sizeof_packet data)).
  set (len := Z.of_nat (length (firstn sizeof_packet data))).
  pose proof (recv_state_config (loop_ctl l2) buf len from (sock_ts w)) as F.
  cbv zeta in F.
  destruct F as (_ & _ & _ & _ & _ & _ & _ & Fd & Fq & _).
  destruct (quit_on_reply_recv (loop_ctl l2) buf len from (sock_ts w) Q2)
    as (Fin & _ & _).
  unfold recv_state, recv_ret, accepted, recv_ret in *.
  destruct (recv_pack_cases (loop_ctl l2) buf len from (sock_ts w))
    as [(_ & _ & E)|(_ & E)]; rewrite E in *; cbn [fst snd] in *.
  - unfold accept_result in *. cbn [fst snd loop_ctl exit_loop] in *.
    rewrite Fq, Fd, count_response_received, R2.
    destruct (count_response_ret (loop_ctl l2) buf from) as [C|C].
    + rewrite C in Fin.
      assert (N : 1 = FINAL_PACKS) by (apply Fin; discriminate).
      discriminate N.
    + rewrite C. cbn. auto.
  - cbn [loop_ctl exit_loop]. auto.
Qed.

Lemma run_loop_first_reply (dad0 : bool) (ws : list wake)
    (l l' : loop_state) (rest : list wake) :
  first_reply_pending dad0 l ->
  run_loop ws l = Some (l', rest) ->
  first_reply_pending dad0 l'.
Proof.
  revert l. induction ws as [|w ws IH]; intros l P R; cbn [run_loop] in R.
  - destruct (exit_loop l); [|discriminate]. injection R as <- _. exact P.
  - destruct (exit_loop l) eqn:X. { injection R as <- _. exact P. }
    apply (IH _ (handle_wake_first_reply _ w l X P) R).
Qed.

(** X18. A quit-on-first-reply session that starts with nothing
    received counts one response at most, and in duplicate address
    detection mode (which is such a session) the exit status tells
    whether there was one: it is odd when a response was counted, so 0
    only when none was. *)
Theorem first_reply_decides (ctl : run_state) (env : setup) (ws : list wake)
    (v : Z) (ctl' : run_state) (out : string) (rest : list wake) :
  quit_on_reply ctl = true ->
  received ctl = 0 ->
  setup_ok env = true ->
  event_loop ctl env ws = Some (v, ctl', out, rest) ->
  (received ctl' = 0 \/ received ctl' = 1) /\
  (dad ctl = true ->
   (received ctl' = 1 -> Z.odd v = true) /\ (v = 0 -> received ctl' = 0)).
Proof.
  unfold setup_ok, event_loop. intros Q R0 S E. b2p.
  repeat match goal with H : _ = true |- _ => rewrite H in E; clear H end.
  cbn [negb] in E.
  pose proof (send_pack_frame ctl (first_now env) (first_sendto env)) as F.
  cbv zeta in F.
  destruct (send_pack ctl (first_now env) (first_sendto env)) as [[e c] b].
  cbn [fst snd] in F.
  destruct F as (_ & _ & _ & Fr & _ & _ & _ & _ & Fq & Fd & _).
  destruct (run_loop ws _) as [[l r]|] eqn:L; [|discriminate].
  injection E as <- <- _ <-.
  assert (P0 : first_reply_pending (dad ctl)
                 {| exit_loop := false; rc := 0; total_expires := 1;
                    packet := packet0 env; loop_ctl := c; stdout := "" |}).
  { unfold first_reply_pending. cbn [loop_ctl exit_loop].
    rewrite Fq, Fd, Fr. auto. }
  destruct (run_loop_first_reply _ _ _ _ _ P0 L) as (_ & Dl & Rl).
  destruct (run_loop_rc _ _ _ _ L) as (consumed & _ & Rc).
  cbn [rc] in Rc. split; [tauto|]. intros D.
  unfold finish. rewrite Dl, D. cbn [fst]. rewrite Rc.
  destruct (existsb netdown_wake consumed);
    destruct (brd_sent (loop_ctl l) =? received (loop_ctl l));
    destruct Rl as [-> | [-> _]]; cbn; split; intros H; try reflexivity;
    try discriminate H.
Qed.

Lemma first_reply_decides_witness :
  (received (recv_state
               (Sample.probing
                  (set_quit_on_reply true (set_dad true initial_run_state)))
               Sample.reply 28 Sample.from_peer Sample.t1) = 0 \/
   received (recv_state
               (Sample.probing
                  (set_quit_on_reply true (set_dad true initial_run_state)))
               Sample.reply 28 Sample.from_peer Sample.t1) = 1) /\
  Z.odd 1 = true.
Proof.
  destruct (first_reply_decides
              (Sample.session
                 (set_quit_on_reply true (set_dad true initial_run_state)))
              Sample.quiet_setup
              [Sample.socket_wake (RecvData Sample.reply Sample.from_peer)]
              1
              (recv_state
                 (Sample.probing
                    (set_quit_on_reply true (set_dad true initial_run_state)))
                 Sample.reply 28 Sample.from_peer Sample.t1)
              ("Unicast reply from 192.0.2.5 [02:00:00:00:00:02]  1.735ms"
               +++ nl +++ "Sent 1 probes (1 broadcast(s))" +++ nl +++
               "Received 1 response(s)" +++ nl)
              [] eq_refl eq_refl eq_refl) as [H1 H2].
  - vm_compute. reflexivity.
  - split; [exact H1|]. apply (proj1 (H2 eq_refl)). reflexivity.
Defined.

(** ** A named interface that fails the flag check *)

Lemma scan_ifaddrs_passed_over (pre l : list ifaddrs) (n : Z)
    (ctl : run_state) :
  forallb (passed_over ctl) pre = true ->
  scan_ifaddrs (pre ++ l) n ctl = scan_ifaddrs l n ctl.
Proof.
  induction pre as [|i pre IH]; intros P; [reflexivity|].
  cbn [forallb] in P. apply andb_true_iff in P. destruct P as [Pi P].
  cbn [app scan_ifaddrs]. unfold passed_over in Pi.
  destruct (ifa_addr i) as [a|]; [|exact (IH P)].
  destruct (negb (sll_family a =? AF_PACKET)); [exact (IH P)|].
  cbn [orb] in Pi. rewrite Pi. exact (IH P).
Qed.

(** X19. With an interface name given, [find_device_by_ifaddrs] does not
    fall back to another interface: the first link-layer entry of that
    name ends the process when it fails the flag check, with status 2
    when it is down, and when it is up but not ARPable with status 0 in
    duplicate address detection mode and 2 otherwise, whatever entries
    follow. *)
Theorem named_device_failure_is_final (ctl : run_state) (n : string)
    (pre post : list ifaddrs) (i : ifaddrs) (a : sockaddr_ll)
    (if_nametoindex : option string -> Z) :
  name (device ctl) = Some n ->
  forallb (passed_over ctl) pre = true ->
  ifa_addr i = Some a ->
  sll_family a = AF_PACKET ->
  name_differs ctl i = false ->
  flags_ok (ifa_flags i) = false ->
  exists out,
    find_device_by_ifaddrs ctl (Some (pre ++ i :: post)) if_nametoindex =
    Exit (if Z.land (ifa_flags i) IFF_UP =? 0 then 2
          else if dad ctl then 0 else 2) out.
Proof.
  intros N P A Fa Nd F. unfold find_device_by_ifaddrs.
  rewrite (scan_ifaddrs_passed_over _ _ _ _ P). cbn [scan_ifaddrs].
  rewrite A, Fa, Nd. change (negb (AF_PACKET =? AF_PACKET)) with false.
  cbn iota. unfold check_ifflags. rewrite N. unfold flags_ok in F.
  destruct (Z.land (ifa_flags i) IFF_UP =? 0); [eauto|].
  cbn [negb andb] in F. rewrite F. cbn [negb]. eauto.
Qed.

Lemma named_device_failure_is_final_witness :
  exists out,
    find_device_by_ifaddrs
      (set_dad true
         (set_device {| name := Some "lo"; ifindex := 0; ifa := None |}
            initial_run_state))
      (Some ([SampleNet.eth0] ++ SampleNet.lo :: [SampleNet.eth0]))
      SampleNet.if_nametoindex =
    Exit (if Z.land (ifa_flags SampleNet.lo) IFF_UP =? 0 then 2
          else if dad (set_dad true
                         (set_device
                            {| name := Some "lo"; ifindex := 0; ifa := None |}
                            initial_run_state))
               then 0 else 2) out.
Proof.
  apply (named_device_failure_is_final _ "lo" [SampleNet.eth0]
           [SampleNet.eth0] SampleNet.lo
           (Sample.ll 0 [x00; x00; x00; x00; x00; x00]));
    reflexivity.
Defined.

(** ** Normal mode *)

(** X20. In normal mode a structurally valid frame is accepted exactly
    when its sender protocol address is the target of the query, its
    target protocol address the source address, and its target hardware
    address the local one; a probe for the local address that carries
    another target hardware address is ignored. *)
Theorem normal_acceptance (ctl : run_state) (buf : list byte) (len : Z)
    (FROM : sockaddr_ll) (ts : timespec) :
  dad ctl = false ->
  structurally_valid ctl (decode buf) len FROM ->
  (accepted ctl buf len FROM ts <->
   ar_sip (decode buf) = gdst ctl /\ ar_tip (decode buf) = gsrc ctl /\
   ar_tha (decode buf) = own_hwaddr ctl) /\
  (ar_tha (decode buf) <> own_hwaddr ctl ->
   recv_pack ctl buf len FROM ts = (0, ctl, "")).
Proof.
  intros D S.
  assert (I : accepted ctl buf len FROM ts <-> normal_valid ctl (decode buf)).
  { rewrite accepted_iff. unfold mode_valid. rewrite D. tauto. }
  split; [exact I|].
  intros T. apply recv_pack_rejected. rewrite I.
  intros (_ & _ & N). contradiction.
Qed.

Lemma normal_acceptance_witness :
  recv_pack (Sample.session initial_run_state)
    (Sample.frame ARPOP_REQUEST Sample.mac_peer Sample.ip_target
       [x00; x00; x00; x00; x00; x00] Sample.ip_local) 28
    Sample.from_peer_bcast Sample.t1
  = (0, Sample.session initial_run_state, "").
Proof.
  assert (S : structurally_valid (Sample.session initial_run_state)
                (decode (Sample.frame ARPOP_REQUEST Sample.mac_peer
                           Sample.ip_target [x00; x00; x00; x00; x00; x00]
                           Sample.ip_local)) 28 Sample.from_peer_bcast).
  { unfold structurally_valid. vm_compute. repeat split; auto; discriminate. }
  apply (proj2 (normal_acceptance (Sample.session initial_run_state) _ 28
                  Sample.from_peer_bcast Sample.t1 eq_refl S)).
  vm_compute. discriminate.
Defined.

(** ** The probe count ends the loop *)

(** X21. With a positive probe count, the timer read that takes the
    total of expirations above the count ends the loop at that wake,
    and no further probe is sent in it. *)
Theorem count_exhausted_ends_loop (w : wake) (ws : list wake)
    (l : loop_state) :
  exit_loop l = false ->
  0 < poll_ret w ->
  tmr_revents w <> 0 ->
  tmr_read w = sizeof_uint64 ->
  0 < count (loop_ctl l) ->
  count (loop_ctl l) < u64_add (total_expires l) (tmr_exp w) ->
  run_loop (w :: ws) l = Some (handle_wake w l, ws) /\
  sent (loop_ctl (handle_wake w l)) = sent (loop_ctl l).
Proof.
  intros X P Tr Rd C Ex.
  assert (H : exit_loop (handle_wake w l) = true /\
              sent (loop_ctl (handle_wake w l)) = sent (loop_ctl l)).
  { unfold handle_wake.
    replace (poll_ret w <=? 0) with false by (symmetry; apply Z.leb_gt; lia).
    set (l1 := if negb (sig_revents w =? 0) then on_signal w l else l).
    assert (E1 : loop_ctl l1 = loop_ctl l /\
                 total_expires l1 = total_expires l).
    { unfold l1, on_signal.
      repeat match goal with
        | |- context [if ?c then _ else _] => destruct c
        end; split; reflexivity. }
    destruct E1 as [E1 E1'].
    apply Z.eqb_neq in Tr. rewrite Tr. cbn [negb].
    assert (E2 : exit_loop (on_timer w l1) = true /\
                 loop_ctl (on_timer w l1) = loop_ctl l).
    { unfold on_timer. rewrite Rd, Z.eqb_refl. cbn [negb].
      rewrite E1, E1'.
      replace (0 <? count (loop_ctl l)) with true
        by (symmetry; apply Z.ltb_lt; exact C).
      replace (count (loop_ctl l) <?
               u64_add (total_expires l) (tmr_exp w)) with true
        by (symmetry; apply Z.ltb_lt; exact Ex).
      cbn [andb exit_loop loop_ctl]. auto. }
    destruct E2 as [E2 E2'].
    destruct (negb (sock_revents w =? 0)); [|rewrite E2'; auto].
    unfold on_socket. destruct (sock_recv w) as [errno|data from].
    { cbn [exit_loop loop_ctl]. rewrite E2'. auto. }
    pose proof (recv_state_config (loop_ctl (on_timer w l1))
                  (memcpy (packet (on_timer w l1)) (firstn sizeof_packet data))
                  (Z.of_nat (length (firstn sizeof_packet data))) from
                  (sock_ts w)) as F.
    cbv zeta in F. unfold recv_state in F.
    destruct (recv_pack _ _ _ _ _) as [[r c] o]. cbn [fst snd] in F.
    destruct F as (_ & _ & _ & _ & _ & Fs & _).
    cbn [exit_loop loop_ctl]. rewrite Fs, E2', E2.
    destruct (r =? FINAL_PACKS); auto. }
  destruct H as [E S]. split; [|exact S].
  cbn [run_loop]. rewrite X. apply run_loop_exited. exact E.
Qed.

Lemma count_exhausted_ends_loop_witness :
  sent (loop_ctl
          (handle_wake (SampleNet.timer_wake 1)
             {| exit_loop := false; rc := 0; total_expires := 1;
                packet := [];
                loop_ctl := Sample.probing (set_count 1 initial_run_state);
                stdout := "" |})) = 1.
Proof.
  refine (proj2 (count_exhausted_ends_loop (SampleNet.timer_wake 1) []
                   {| exit_loop := false; rc := 0; total_expires := 1;
                      packet := [];
                      loop_ctl :=
                        Sample.probing (set_count 1 initial_run_state);
                      stdout := "" |} eq_refl _ _ eq_refl _ _));
    vm_compute; try reflexivity; discriminate.
Defined.

(** ** The timeout option *)

Lemma send_pack_timeout (t : Z) (ctl : run_state) (now : timespec) (err : Z) :
  send_pack (set_timeout t ctl) now err =
  (fst (fst (send_pack ctl now err)),
   set_timeout t (snd (fst (send_pack ctl now err))),
   snd (send_pack ctl now err)).
Proof.
  unfold send_pack. fields.
  repeat match goal with
    | |- context [if ?c then _ else _] => destruct c
    end; reflexivity.
Qed.

Lemma count_response_timeout (t : Z) (ctl : run_state) (buf : list byte)
    (FROM : sockaddr_ll) :
  count ctl <= 0 -> 0 <= received ctl < INT_MAX ->
  count_response (set_timeout t ctl) buf FROM =
  (fst (count_response ctl buf FROM),
   set_timeout t (snd (count_response ctl buf FROM))).
Proof.
  unfold INT_MAX. intros C R. unfold count_response. fields.
  rewrite int_incr_in_range by (unfold INT_MIN, INT_MAX; lia).
  replace (received ctl + 1 =? count ctl) with false
    by (symmetry; apply Z.eqb_neq; lia).
  rewrite !andb_false_r.
  destruct (negb (sll_pkttype FROM =? PACKET_HOST));
    destruct (get_be16 buf 6 =? ARPOP_REQUEST); fields;
    (destruct (quit_on_reply ctl || _); [reflexivity|]);
    destruct (negb (broadcast_only ctl)); reflexivity.
Qed.

Lemma recv_pack_timeout (t : Z) (ctl : run_state) (buf : list byte)
    (len : Z) (FROM : sockaddr_ll) (ts : timespec) :
  count ctl <= 0 -> 0 <= received ctl < INT_MAX ->
  recv_pack (set_timeout t ctl) buf len FROM ts =
  (recv_ret ctl buf len FROM ts, set_timeout t (recv_state ctl buf len FROM ts),
   recv_out ctl buf len FROM ts).
Proof.
  intros C R. unfold recv_ret, recv_state, recv_out.
  destruct (recv_pack_cases ctl buf len FROM ts) as [(S & M & E)|(N & E)];
    destruct (recv_pack_cases (set_timeout t ctl) buf len FROM ts)
      as [(S' & M' & E')|(N' & E')]; rewrite E, E'; cbn [fst snd].
  - unfold accept_result. rewrite count_response_timeout by assumption.
    reflexivity.
  - exfalso. apply N'. split; [exact S | exact M].
  - exfalso. apply N. split; [exact S' | exact M'].
  - reflexivity.
Qed.

Lemma handle_wake_timeout (t : Z) (w : wake) (l : loop_state) :
  count (loop_ctl l) <= 0 -> 0 <= received (loop_ctl l) < INT_MAX ->
  handle_wake w (with_timeout t l) = with_timeout t (handle_wake w l).
Proof.
  intros C R. unfold handle_wake.
  change (poll_ret w <=? 0) with (poll_ret w <=? 0).
  destruct (poll_ret w <=? 0).
  { destruct (poll_errno w =? EAGAIN); reflexivity. }
  set (l1 := if negb (sig_revents w =? 0) then on_signal w l else l).
  assert (E1 : (if negb (sig_revents w =? 0)
                then on_signal w (with_timeout t l) else with_timeout t l)
               = with_timeout t l1 /\ loop_ctl l1 = loop_ctl l).
  { unfold l1, on_signal.
    repeat match goal with
      | |- context [if ?c then _ else _] => destruct c
      end; split; reflexivity. }
  destruct E1 as [-> E1].
  set (l2 := if negb (tmr_revents w =? 0) then on_timer w l1 else l1).
  assert (E2 : (if negb (tmr_revents w =? 0)
                then on_timer w (with_timeout t l1) else with_timeout t l1)
               = with_timeout t l2 /\
               count (loop_ctl l2) = count (loop_ctl l) /\
               received (loop_ctl l2) = received (loop_ctl l)).
  { unfold l2. rewrite <- E1.
    destruct (negb (tmr_revents w =? 0)); [|auto].
    unfold on_timer, with_timeout.
    cbn [loop_ctl total_expires exit_loop rc packet stdout].
    rewrite send_pack_timeout. fields.
    pose proof (send_pack_frame (loop_ctl l1) (tmr_now w) (tmr_sendto w))
      as F. cbv zeta in F.
    destruct (send_pack (loop_ctl l1) (tmr_now w) (tmr_sendto w))
      as [[e c] b]. cbn [fst snd] in *.
    destruct F as (_ & _ & _ & Fr & _ & _ & Fc & _).
    repeat match goal with
      | |- context [if ?c then _ else _] => destruct c
      end; cbn [loop_ctl]; auto. }
  destruct E2 as (-> & C2 & R2).
  destruct (negb (sock_revents w =? 0)); [|reflexivity].
  unfold on_socket, with_timeout.
  cbn [loop_ctl total_expires exit_loop rc packet stdout].
  destruct (sock_recv w) as [errno|data from]; [reflexivity|].
  rewrite recv_pack_timeout by (rewrite ?C2, ?R2; assumption).
  unfold recv_ret, recv_state, recv_out.
  destruct (recv_pack (loop_ctl l2) _ _ from (sock_ts w)) as [[r c] o].
  reflexivity.
Qed.

Lemma handle_wake_count (w : wake) (l : loop_state) :
  count (loop_ctl (handle_wake w l)) = count (loop_ctl l).
Proof.
  destruct (handle_wake_ctl w l) as (c1 & H1 & H2).
  assert (C1 : count c1 = count (loop_ctl l)).
  { destruct H1 as [-> | ->]; [reflexivity|].
    apply (send_pack_frame (loop_ctl l) (tmr_now w) (tmr_sendto w)). }
  destruct H2 as [-> | (buf & len & from & ->)]; [exact C1|].
  rewrite <- C1. apply (recv_state_config c1 buf len from (sock_ts w)).
Qed.

Lemma run_loop_timeout (t : Z) (ws : list wake) (l : loop_state) (s r : Z) :
  count (loop_ctl l) <= 0 ->
  counters_within (loop_ctl l) s r ->
  s + Z.of_nat (length ws) <= INT_MAX ->
  r + Z.of_nat (length ws) <= INT_MAX ->
  run_loop ws (with_timeout t l) =
  match run_loop ws l with
  | Some (l', rest) => Some (with_timeout t l', rest)
  | None => None
  end.
Proof.
  revert l s r. induction ws as [|w ws IH]; intros l s r C K Hs Hr;
    cbn [run_loop with_timeout exit_loop].
  - destruct (exit_loop l); reflexivity.
  - destruct (exit_loop l); [reflexivity|].
    cbn [length] in Hs, Hr.
    change {| exit_loop := false; rc := rc l;
              total_expires := total_expires l; packet := packet l;
              loop_ctl := set_timeout t (loop_ctl l); stdout := stdout l |}
      with (with_timeout t {| exit_loop := false; rc := rc l;
              total_expires := total_expires l; packet := packet l;
              loop_ctl := loop_ctl l; stdout := stdout l |}).
    assert (R : 0 <= received (loop_ctl l) < INT_MAX)
      by (unfold counters_within in K; lia).
    fold (with_timeout t l).
    rewrite handle_wake_timeout by assumption.
    apply (IH _ (s + 1) (r + 1)).
    + rewrite handle_wake_count. exact C.
    + apply handle_wake_counters; [exact K | lia | lia].
    + lia.
    + lia.
Qed.

(** X22. Without a positive probe count the timeout option has no
    effect on the session: for a run state with a count of 0 or less and
    all counters zero, the event loop returns the same value, prints the
    same output and consumes the same wakes whatever the timeout is, and
    the final run states differ in the timeout field only. *)
Theorem timeout_needs_count (t : Z) (ctl : run_state) (env : setup)
    (ws : list wake) :
  count ctl <= 0 ->
  counters_within ctl 0 0 ->
  Z.of_nat (length ws) < INT_MAX - 1 ->
  event_loop (set_timeout t ctl) env ws =
  result_with_timeout t (event_loop ctl env ws).
Proof.
  intros C K L. unfold event_loop.
  repeat match goal with
    | |- context [if negb ?c then _ else _] =>
        destruct c; cbn [negb]; [|reflexivity]
    end.
  rewrite send_pack_timeout.
  pose proof (send_pack_counters ctl (first_now env) (first_sendto env) 0 0 K)
    as K1.
  pose proof (send_pack_frame ctl (first_now env) (first_sendto env)) as F.
  cbv zeta in F.
  destruct (send_pack ctl (first_now env) (first_sendto env)) as [[e c] b].
  cbn [fst snd] in *. destruct F as (_ & _ & _ & _ & _ & _ & Fc & _).
  change {| exit_loop := false; rc := 0; total_expires := 1;
            packet := packet0 env; loop_ctl := set_timeout t c;
            stdout := "" |}
    with (with_timeout t {| exit_loop := false; rc := 0; total_expires := 1;
                            packet := packet0 env; loop_ctl := c;
                            stdout := "" |}).
  rewrite (run_loop_timeout t ws _ (0 + 1) 0).
  - destruct (run_loop ws _) as [[l r]|]; reflexivity.
  - cbn [loop_ctl]. rewrite Fc. exact C.
  - apply K1. unfold INT_MAX. lia.
  - unfold INT_MAX in *. lia.
  - unfold INT_MAX in *. lia.
Qed.

Lemma timeout_needs_count_witness :
  event_loop (set_timeout 5 (Sample.session initial_run_state))
    Sample.quiet_setup
    [Sample.socket_wake (RecvData Sample.reply Sample.from_peer)]
  = result_with_timeout 5
      (event_loop (Sample.session initial_run_state) Sample.quiet_setup
         [Sample.socket_wake (RecvData Sample.reply Sample.from_peer)]).
Proof.
  apply timeout_needs_count.
  - vm_compute. discriminate.
  - unfold counters_within. vm_compute. repeat split; discriminate.
  - vm_compute. reflexivity.
Defined.
